(** * The output core of libobs ([libobs/obs-output.c])

    A shallow embedding of the output object of libobs: its capture state
    machine, the binding of encoders, and the interleaver that merges the
    encoded audio and video packets of the two encoders into one stream.

    The C code works on a [struct obs_output *] that may be [NULL], calls into
    collaborators (encoders, raw pipelines, the signal handler, the hooks of
    the output type) and mutates the object in place.  The embedding keeps
    all three: handles are optional addresses into a store of objects,
    collaborator calls are recorded in order, and every function is a
    computation over that store which either returns or faults. *)

From Stdlib Require Import ZArith List String Bool Lia.
From stdpp Require Import gmap.

Local Open Scope Z_scope.

(** ** Pointers *)

(** A pointer is [None] for [NULL], and an address otherwise. *)
Abbreviation pointer := (option positive).

(** ** Encoded packets *)

Inductive obs_encoder_type := OBS_ENCODER_AUDIO | OBS_ENCODER_VIDEO.

#[global] Instance obs_encoder_type_eq_dec : EqDecision obs_encoder_type.
Proof. solve_decision. Defined.

(** [struct encoder_packet]: the fields the output core reads.  [dts] and
    [pts] are [int64_t], [timebase_den] is an [int32_t], [payload] stands for
    the [data]/[size] pair. *)
Record encoder_packet := {
  payload : list Byte.byte;
  pts : Z;
  dts : Z;
  timebase_den : Z;
  type : obs_encoder_type;
}.

Definition set_dts (v : Z) (p : encoder_packet) : encoder_packet :=
  {| payload := payload p; pts := pts p; dts := v;
     timebase_den := timebase_den p; type := type p |}.

Definition set_pts (v : Z) (p : encoder_packet) : encoder_packet :=
  {| payload := payload p; pts := v; dts := dts p;
     timebase_den := timebase_den p; type := type p |}.

(** [struct il_packet]: a packet waiting in the interleaver, with its
    timestamp in microseconds before and after the offset is taken off. *)
Record il_packet := {
  input_ts_us : Z;
  output_ts_us : Z;
  packet : encoder_packet;
}.

Definition set_input_ts_us (v : Z) (p : il_packet) : il_packet :=
  {| input_ts_us := v; output_ts_us := output_ts_us p; packet := packet p |}.

Definition set_output_ts_us (v : Z) (p : il_packet) : il_packet :=
  {| input_ts_us := input_ts_us p; output_ts_us := v; packet := packet p |}.

Definition set_packet (v : encoder_packet) (p : il_packet) : il_packet :=
  {| input_ts_us := input_ts_us p; output_ts_us := output_ts_us p;
     packet := v |}.

(** ** Encoders *)

(** Modelled from the spec: the encoder object lives in [obs-encoder.c]; the
    output core reads its declared media type ([encoder->info.type]) and
    relies on the set of outputs the encoder is bound to. *)
Record obs_encoder := {
  enc_type : obs_encoder_type;
  enc_outputs : gset positive;
}.

(** ** The output object *)

Inductive video_scale_info := VideoScaleInfo (id : Z).
Inductive audio_convert_info := AudioConvertInfo (id : Z).

(** Modelled from the spec: the capability bits of [obs-output.h], three
    distinct bits of the [uint32_t] flag word of an output type. *)
Definition OBS_OUTPUT_VIDEO : Z := 1.
Definition OBS_OUTPUT_AUDIO : Z := 2.
Definition OBS_OUTPUT_ENCODED : Z := 4.

(** Modelled from the spec: the code a successful start is announced with. *)
Definition OBS_OUTPUT_SUCCESS : Z := 0.

(** [struct obs_output_info], the behaviour table of an output type.  The
    hooks are foreign code: a call to one is recorded and not run, [start]
    and [properties] carry what the hooks of the type answer, and an
    optional hook is told apart from [NULL] by an option or a flag. *)
Record obs_output_info := {
  flags : Z;
  start : pointer -> bool;
  properties : option (string -> pointer);
  has_update : bool;
  has_pause : bool;
}.

Record obs_output := {
  info : obs_output_info;
  data : pointer;
  settings : pointer;
  signals : pointer;
  procs : pointer;
  video : pointer;
  audio : pointer;
  video_encoder : pointer;
  audio_encoder : pointer;
  video_conversion : video_scale_info;
  video_conversion_set : bool;
  audio_conversion : audio_convert_info;
  audio_conversion_set : bool;
  received_video : bool;
  received_audio : bool;
  first_video_ts : Z;
  video_offset : Z;
  audio_offset : Z;
  interleaved_packets : list il_packet;
  active : bool;
  valid : bool;
}.

(** Field assignments [output->f = v]. *)

Definition set_video (v : pointer) (o : obs_output) : obs_output :=
  Build_obs_output (info o) (data o) (settings o) (signals o) (procs o) v
    (audio o) (video_encoder o) (audio_encoder o) (video_conversion o)
    (video_conversion_set o) (audio_conversion o) (audio_conversion_set o)
    (received_video o) (received_audio o) (first_video_ts o) (video_offset o)
    (audio_offset o) (interleaved_packets o) (active o) (valid o).

Definition set_audio (v : pointer) (o : obs_output) : obs_output :=
  Build_obs_output (info o) (data o) (settings o) (signals o) (procs o)
    (video o) v (video_encoder o) (audio_encoder o) (video_conversion o)
    (video_conversion_set o) (audio_conversion o) (audio_conversion_set o)
    (received_video o) (received_audio o) (first_video_ts o) (video_offset o)
    (audio_offset o) (interleaved_packets o) (active o) (valid o).

Definition set_video_encoder (v : pointer) (o : obs_output) : obs_output :=
  Build_obs_output (info o) (data o) (settings o) (signals o) (procs o)
    (video o) (audio o) v (audio_encoder o) (video_conversion o)
    (video_conversion_set o) (audio_conversion o) (audio_conversion_set o)
    (received_video o) (received_audio o) (first_video_ts o) (video_offset o)
    (audio_offset o) (interleaved_packets o) (active o) (valid o).

Definition set_audio_encoder (v : pointer) (o : obs_output) : obs_output :=
  Build_obs_output (info o) (data o) (settings o) (signals o) (procs o)
    (video o) (audio o) (video_encoder o) v (video_conversion o)
    (video_conversion_set o) (audio_conversion o) (audio_conversion_set o)
    (received_video o) (received_audio o) (first_video_ts o) (video_offset o)
    (audio_offset o) (interleaved_packets o) (active o) (valid o).

Definition set_video_conversion (v : video_scale_info) (o : obs_output) : obs_output :=
  Build_obs_output (info o) (data o) (settings o) (signals o) (procs o)
    (video o) (audio o) (video_encoder o) (audio_encoder o) v
    (video_conversion_set o) (audio_conversion o) (audio_conversion_set o)
    (received_video o) (received_audio o) (first_video_ts o) (video_offset o)
    (audio_offset o) (interleaved_packets o) (active o) (valid o).

Definition set_video_conversion_set (v : bool) (o : obs_output) : obs_output :=
  Build_obs_output (info o) (data o) (settings o) (signals o) (procs o)
    (video o) (audio o) (video_encoder o) (audio_encoder o) (video_conversion o)
    v (audio_conversion o) (audio_conversion_set o) (received_video o)
    (received_audio o) (first_video_ts o) (video_offset o) (audio_offset o)
    (interleaved_packets o) (active o) (valid o).

Definition set_audio_conversion (v : audio_convert_info) (o : obs_output) : obs_output :=
  Build_obs_output (info o) (data o) (settings o) (signals o) (procs o)
    (video o) (audio o) (video_encoder o) (audio_encoder o) (video_conversion o)
    (video_conversion_set o) v (audio_conversion_set o) (received_video o)
    (received_audio o) (first_video_ts o) (video_offset o) (audio_offset o)
    (interleaved_packets o) (active o) (valid o).

Definition set_audio_conversion_set (v : bool) (o : obs_output) : obs_output :=
  Build_obs_output (info o) (data o) (settings o) (signals o) (procs o)
    (video o) (audio o) (video_encoder o) (audio_encoder o) (video_conversion o)
    (video_conversion_set o) (audio_conversion o) v (received_video o)
    (received_audio o) (first_video_ts o) (video_offset o) (audio_offset o)
    (interleaved_packets o) (active o) (valid o).

Definition set_received_video (v : bool) (o : obs_output) : obs_output :=
  Build_obs_output (info o) (data o) (settings o) (signals o) (procs o)
    (video o) (audio o) (video_encoder o) (audio_encoder o) (video_conversion o)
    (video_conversion_set o) (audio_conversion o) (audio_conversion_set o) v
    (received_audio o) (first_video_ts o) (video_offset o) (audio_offset o)
    (interleaved_packets o) (active o) (valid o).

Definition set_received_audio (v : bool) (o : obs_output) : obs_output :=
  Build_obs_output (info o) (data o) (settings o) (signals o) (procs o)
    (video o) (audio o) (video_encoder o) (audio_encoder o) (video_conversion o)
    (video_conversion_set o) (audio_conversion o) (audio_conversion_set o)
    (received_video o) v (first_video_ts o) (video_offset o) (audio_offset o)
    (interleaved_packets o) (active o) (valid o).

Definition set_first_video_ts (v : Z) (o : obs_output) : obs_output :=
  Build_obs_output (info o) (data o) (settings o) (signals o) (procs o)
    (video o) (audio o) (video_encoder o) (audio_encoder o) (video_conversion o)
    (video_conversion_set o) (audio_conversion o) (audio_conversion_set o)
    (received_video o) (received_audio o) v (video_offset o) (audio_offset o)
    (interleaved_packets o) (active o) (valid o).

Definition set_video_offset (v : Z) (o : obs_output) : obs_output :=
  Build_obs_output (info o) (data o) (settings o) (signals o) (procs o)
    (video o) (audio o) (video_encoder o) (audio_encoder o) (video_conversion o)
    (video_conversion_set o) (audio_conversion o) (audio_conversion_set o)
    (received_video o) (received_audio o) (first_video_ts o) v (audio_offset o)
    (interleaved_packets o) (active o) (valid o).

Definition set_audio_offset (v : Z) (o : obs_output) : obs_output :=
  Build_obs_output (info o) (data o) (settings o) (signals o) (procs o)
    (video o) (audio o) (video_encoder o) (audio_encoder o) (video_conversion o)
    (video_conversion_set o) (audio_conversion o) (audio_conversion_set o)
    (received_video o) (received_audio o) (first_video_ts o) (video_offset o) v
    (interleaved_packets o) (active o) (valid o).

Definition set_interleaved_packets (v : list il_packet) (o : obs_output) : obs_output :=
  Build_obs_output (info o) (data o) (settings o) (signals o) (procs o)
    (video o) (audio o) (video_encoder o) (audio_encoder o) (video_conversion o)
    (video_conversion_set o) (audio_conversion o) (audio_conversion_set o)
    (received_video o) (received_audio o) (first_video_ts o) (video_offset o)
    (audio_offset o) v (active o) (valid o).

Definition set_active (v : bool) (o : obs_output) : obs_output :=
  Build_obs_output (info o) (data o) (settings o) (signals o) (procs o)
    (video o) (audio o) (video_encoder o) (audio_encoder o) (video_conversion o)
    (video_conversion_set o) (audio_conversion o) (audio_conversion_set o)
    (received_video o) (received_audio o) (first_video_ts o) (video_offset o)
    (audio_offset o) (interleaved_packets o) v (valid o).

(** ** Calls into collaborators *)

(** The two functions an encoder can be started with: the interleaver of
    this file, or the [encoded_packet] hook of the output type. *)
Inductive packet_callback := cb_interleave_packets | cb_encoded_packet.

Inductive calldata_value := cd_int (i : Z) | cd_ptr (p : pointer).

(** One constructor per foreign function or hook the output core calls,
    with the arguments it is called with. *)
Inductive call :=
| call_info_start (d : pointer)
| call_info_stop (d : pointer)
| call_info_destroy (d : pointer)
| call_info_update (d s : pointer)
| call_info_pause (d : pointer)
| call_info_properties (locale : string)
| call_obs_properties_apply_settings (props s : pointer)
| call_info_encoded_packet (d : pointer) (p : encoder_packet)
| call_obs_data_apply (target s : pointer)
| call_obs_data_addref (s : pointer)
| call_obs_data_release (s : pointer)
| call_obs_duplicate_encoder_packet (src : encoder_packet)
| call_obs_free_encoder_packet (p : encoder_packet)
| call_obs_encoder_start (e : pointer) (cb : packet_callback) (param : pointer)
| call_obs_encoder_stop (e : pointer) (cb : packet_callback) (param : pointer)
| call_obs_encoder_remove_output (e o : pointer)
| call_obs_encoder_add_output (e o : pointer)
| call_video_output_connect (v : pointer) (conv : option video_scale_info)
    (param : pointer)
| call_audio_output_connect (a : pointer) (conv : option audio_convert_info)
    (param : pointer)
| call_video_output_disconnect (v param : pointer)
| call_audio_output_disconnect (a param : pointer)
| call_signal_handler_signal (h : pointer) (signal : string)
    (params : list (string * calldata_value))
| call_signal_handler_destroy (h : pointer)
| call_proc_handler_destroy (h : pointer).

(** ** The store and the computations over it *)

(** The objects alive, the process-wide list of outputs
    ([obs->data.outputs]) and the calls made so far, oldest first. *)
Record world := {
  outputs : gmap positive obs_output;
  encoders : gmap positive obs_encoder;
  registry : list positive;
  calls : list call;
}.

Definition with_outputs (m : gmap positive obs_output) (w : world) : world :=
  {| outputs := m; encoders := encoders w; registry := registry w;
     calls := calls w |}.

Definition with_encoders (m : gmap positive obs_encoder) (w : world) : world :=
  {| outputs := outputs w; encoders := m; registry := registry w;
     calls := calls w |}.

Definition with_registry (l : list positive) (w : world) : world :=
  {| outputs := outputs w; encoders := encoders w; registry := l;
     calls := calls w |}.

Definition with_calls (l : list call) (w : world) : world :=
  {| outputs := outputs w; encoders := encoders w; registry := registry w;
     calls := l |}.

(** What C leaves undefined and the embedding makes explicit. *)
Inductive fault :=
| NullDereference
| DanglingPointer
| DivisionByZero
| EmptyArray.

Inductive result (A : Type) :=
| Ok (a : A)
| Fault (f : fault).

Arguments Ok {A} a.
Arguments Fault {A} f.

Definition M (A : Type) : Type := world -> result (A * world).

Definition ret {A} (a : A) : M A := fun w => Ok (a, w).

Definition bind {A B} (m : M A) (k : A -> M B) : M B :=
  fun w => match m w with
           | Ok (a, w') => k a w'
           | Fault f => Fault f
           end.

Definition fail {A} (f : fault) : M A := fun _ => Fault f.

Declare Scope obs_scope.
Delimit Scope obs_scope with obs.
Notation "x <- m ;; k" := (bind m (fun x => k))
  (at level 100, m at next level, right associativity) : obs_scope.
Notation "m ;; k" := (bind m (fun _ => k))
  (at level 100, right associativity) : obs_scope.
Local Open Scope obs_scope.

(** [*output]: faults on [NULL] and on an address that holds no output. *)
Definition deref (output : pointer) : M obs_output :=
  fun w => match output with
           | None => Fault NullDereference
           | Some p => match outputs w !! p with
                       | Some o => Ok (o, w)
                       | None => Fault DanglingPointer
                       end
           end.

(** [output->field] *)
Definition get {A} (output : pointer) (field : obs_output -> A) : M A :=
  o <- deref output ;; ret (field o).

(** [output->field = v], as the update [upd] of the object. *)
Definition assign (output : pointer) (upd : obs_output -> obs_output)
  : M unit :=
  fun w => match output with
           | None => Fault NullDereference
           | Some p => match outputs w !! p with
                       | Some o => Ok (tt, with_outputs (<[p := upd o]> (outputs w)) w)
                       | None => Fault DanglingPointer
                       end
           end.

(** [*encoder] *)
Definition deref_encoder (encoder : pointer) : M obs_encoder :=
  fun w => match encoder with
           | None => Fault NullDereference
           | Some e => match encoders w !! e with
                       | Some x => Ok (x, w)
                       | None => Fault DanglingPointer
                       end
           end.

(** A call to a collaborator, recorded after those made before. *)
Definition emit (c : call) : M unit :=
  fun w => Ok (tt, with_calls (calls w ++ [c]) w).

Definition when (b : bool) (m : M unit) : M unit :=
  if b then m else ret tt.

(** ** Arithmetic of [int64_t] *)

Definition int64_wrap (z : Z) : Z := (z + 2 ^ 63) mod 2 ^ 64 - 2 ^ 63.

Definition MICROSECOND_DEN : Z := 1000000.

(** [pkt->dts * MICROSECOND_DEN / pkt->timebase_den]: the product
    and the quotient are taken in [int64_t], wrapping round where the
    mathematical value does not fit; the division truncates towards zero
    and has no result for a zero denominator. *)
Definition convert_packet_dts (pkt : encoder_packet) : M Z :=
  if timebase_den pkt =? 0 then fail DivisionByZero
  else ret (int64_wrap
              (int64_wrap (dts pkt * MICROSECOND_DEN) ÷ timebase_den pkt)).

(** ** The interleaver *)

(** [prepare_interleaved_packet(output, out, pkt)].  [out] is the local
    [struct il_packet] of the caller, passed by address: the function gets
    its contents and returns them as it leaves them.  The result [false]
    is the early return for audio that is before the first video
    timestamp; [out->output_ts_us] and [out->packet] are not written on that
    path. *)
Definition prepare_interleaved_packet (output : pointer) (out : il_packet)
    (pkt : encoder_packet) : M (bool * il_packet) :=
  ts <- convert_packet_dts pkt ;;
  let out := set_input_ts_us ts out in
  let finish (offset : Z) : M (bool * il_packet) :=
    emit (call_obs_duplicate_encoder_packet pkt) ;;
    let out := set_packet pkt out in
    let out := set_packet (set_dts (int64_wrap (dts (packet out) - offset))
                             (packet out)) out in
    let out := set_packet (set_pts (int64_wrap (pts (packet out) - offset))
                             (packet out)) out in
    ts' <- convert_packet_dts (packet out) ;;
    ret (true, set_output_ts_us ts' out) in
  match type pkt with
  | OBS_ENCODER_VIDEO =>
      rv <- get output received_video ;;
      when (negb rv)
        (assign output (set_first_video_ts (input_ts_us out)) ;;
         assign output (set_video_offset (dts pkt)) ;;
         assign output (set_received_video true)) ;;
      offset <- get output video_offset ;;
      finish offset
  | OBS_ENCODER_AUDIO =>
      rv <- get output received_video ;;
      first <- get output first_video_ts ;;
      if negb rv || (input_ts_us out <? first) then ret (false, out)
      else
        ra <- get output received_audio ;;
        when (negb ra)
          (assign output (set_audio_offset (dts pkt)) ;;
           assign output (set_received_audio true)) ;;
        offset <- get output audio_offset ;;
        finish offset
  end.

(** The scan of [interleave_packets]: the first index, from [idx] on, whose
    entry has a timestamp strictly greater than [ts]; the length of the
    array when there is none. *)
Fixpoint insert_index (ts : Z) (rest : list il_packet) (idx : nat) : nat :=
  match rest with
  | [] => idx
  | cur_packet :: rest' =>
      if ts <? output_ts_us cur_packet then idx
      else insert_index ts rest' (S idx)
  end.

(** [da_insert(array, idx, &item)] *)
Definition da_insert {A} (array : list A) (idx : nat) (item : A) : list A :=
  take idx array ++ item :: drop idx array.

(** [send_interleaved(output)]: the entry at index 0 is copied out and
    erased, handed to the [encoded_packet] hook, and freed. *)
Definition send_interleaved (output : pointer) : M unit :=
  pkts <- get output interleaved_packets ;;
  match pkts with
  | [] => fail EmptyArray
  | out :: rest =>
      assign output (set_interleaved_packets rest) ;;
      d <- get output data ;;
      emit (call_info_encoded_packet d (packet out)) ;;
      emit (call_obs_free_encoder_packet (packet out))
  end.

(** [interleave_packets(data, pkt)], the callback both encoders are
    started with.  [out0] is what the uninitialised local [out] holds on
    entry.  The calls run one at a time here, so the lock and unlock of
    [interleaved_mutex] around the body have no counterpart. *)
Definition interleave_packets (data : pointer) (pkt : encoder_packet)
    (out0 : il_packet) : M unit :=
  let output := data in
  r <- prepare_interleaved_packet output out0 pkt ;;
  let '(prepared, out) := r in
  if negb prepared then
    pkts <- get output interleaved_packets ;;
    let idx := insert_index (output_ts_us out) pkts 0 in
    assign output (set_interleaved_packets (da_insert pkts idx out)) ;;
    ra <- get output received_audio ;;
    rv <- get output received_video ;;
    when (ra && rv) (send_interleaved output)
  else ret tt.

(** ** Readiness and the capture state machine *)

Definition is_null (p : pointer) : bool :=
  match p with None => true | Some _ => false end.

(** [can_begin_data_capture(output, encoded, has_video, has_audio)] *)
Definition can_begin_data_capture (output : pointer)
    (encoded has_video has_audio : bool) : M bool :=
  video_missing <-
    (if has_video then
       if encoded then e <- get output video_encoder ;; ret (is_null e)
       else v <- get output video ;; ret (is_null v)
     else ret false) ;;
  if video_missing then ret false
  else
    audio_missing <-
      (if has_audio then
         if encoded then e <- get output audio_encoder ;; ret (is_null e)
         else a <- get output audio ;; ret (is_null a)
       else ret false) ;;
    if audio_missing then ret false else ret true.

(** [get_video_conversion(output)] and [get_audio_conversion(output)] *)
Definition get_video_conversion (output : pointer)
  : M (option video_scale_info) :=
  set <- get output video_conversion_set ;;
  if set then conv <- get output video_conversion ;; ret (Some conv)
  else ret None.

Definition get_audio_conversion (output : pointer)
  : M (option audio_convert_info) :=
  set <- get output audio_conversion_set ;;
  if set then conv <- get output audio_conversion ;; ret (Some conv)
  else ret None.

(** The callback and its context for encoded capture:
    [(has_video && has_audio) ? interleave_packets : output->info.encoded_packet]
    and [(has_video && has_audio) ? output : output->data]. *)
Definition encoded_callback_of (has_video has_audio : bool) : packet_callback :=
  if has_video && has_audio then cb_interleave_packets else cb_encoded_packet.

Definition param_of (output : pointer) (has_video has_audio : bool)
  : M pointer :=
  if has_video && has_audio then ret output else get output data.

(** [hook_data_capture(output, encoded, has_video, has_audio)].  Both
    assignments of the encoded branch write [received_video]. *)
Definition hook_data_capture (output : pointer)
    (encoded has_video has_audio : bool) : M unit :=
  if encoded then
    assign output (set_received_video false) ;;
    assign output (set_received_video false) ;;
    let encoded_callback := encoded_callback_of has_video has_audio in
    param <- param_of output has_video has_audio ;;
    when has_video
      (e <- get output video_encoder ;;
       emit (call_obs_encoder_start e encoded_callback param)) ;;
    when has_audio
      (e <- get output audio_encoder ;;
       emit (call_obs_encoder_start e encoded_callback param))
  else
    when has_video
      (v <- get output video ;;
       conv <- get_video_conversion output ;;
       d <- get output data ;;
       emit (call_video_output_connect v conv d)) ;;
    when has_audio
      (a <- get output audio ;;
       conv <- get_audio_conversion output ;;
       d <- get output data ;;
       emit (call_audio_output_connect a conv d)).

(** [signal_start(output, code)] *)
Definition signal_start (output : pointer) (code : Z) : M unit :=
  let params := [("code"%string, cd_int code);
                 ("output"%string, cd_ptr output)] in
  h <- get output signals ;;
  emit (call_signal_handler_signal h "start" params).

(** [signal_stop(output)] *)
Definition signal_stop (output : pointer) : M unit :=
  let params := [("output"%string, cd_ptr output)] in
  h <- get output signals ;;
  emit (call_signal_handler_signal h "stop" params).

(** [(flags & mask) != 0] *)
Definition flag_set (word mask : Z) : bool := negb (Z.land word mask =? 0).

(** [convert_flags(output, flags, &encoded, &has_video, &has_audio)] *)
Definition convert_flags (output : pointer) (requested : Z)
  : M (bool * bool * bool) :=
  i <- get output info ;;
  let encoded := flag_set (flags i) OBS_OUTPUT_ENCODED in
  let requested := if requested =? 0 then flags i
                   else Z.land requested (flags i) in
  ret (encoded, flag_set requested OBS_OUTPUT_VIDEO,
       flag_set requested OBS_OUTPUT_AUDIO).

(** [obs_output_can_begin_data_capture(output, flags)] *)
Definition obs_output_can_begin_data_capture (output : pointer)
    (requested : Z) : M bool :=
  if is_null output then ret false
  else
    act <- get output active ;;
    if act then ret false
    else
      r <- convert_flags output requested ;;
      let '(encoded, has_video, has_audio) := r in
      can_begin_data_capture output encoded has_video has_audio.

(** [obs_output_begin_data_capture(output, flags)] *)
Definition obs_output_begin_data_capture (output : pointer) (requested : Z)
  : M bool :=
  if is_null output then ret false
  else
    act <- get output active ;;
    if act then ret false
    else
      r <- convert_flags output requested ;;
      let '(encoded, has_video, has_audio) := r in
      ready <- can_begin_data_capture output encoded has_video has_audio ;;
      if negb ready then ret false
      else
        hook_data_capture output encoded has_video has_audio ;;
        assign output (set_active true) ;;
        signal_start output OBS_OUTPUT_SUCCESS ;;
        ret true.

(** [obs_output_end_data_capture(output)] *)
Definition obs_output_end_data_capture (output : pointer) : M unit :=
  if is_null output then ret tt
  else
    act <- get output active ;;
    if negb act then ret tt
    else
      r <- convert_flags output 0 ;;
      let '(encoded, has_video, has_audio) := r in
      (if encoded then
         let encoded_callback := encoded_callback_of has_video has_audio in
         param <- param_of output has_video has_audio ;;
         when has_video
           (e <- get output video_encoder ;;
            emit (call_obs_encoder_stop e encoded_callback param)) ;;
         when has_audio
           (e <- get output audio_encoder ;;
            emit (call_obs_encoder_stop e encoded_callback param))
       else
         when has_video
           (v <- get output video ;;
            d <- get output data ;;
            emit (call_video_output_disconnect v d)) ;;
         when has_audio
           (a <- get output audio ;;
            d <- get output data ;;
            emit (call_audio_output_disconnect a d))) ;;
      assign output (set_active false) ;;
      signal_stop output.

(** [obs_output_signal_start_fail(output, code)] *)
Definition obs_output_signal_start_fail (output : pointer) (code : Z)
  : M unit :=
  signal_start output code.

(** ** Encoder binding *)

(** Modelled from the spec: the encoder without, and with, the output at
    [o] in its set of outputs ([obs-encoder.c] is not among the sources). *)
Definition unbind (o : positive) (x : obs_encoder) : obs_encoder :=
  {| enc_type := enc_type x; enc_outputs := enc_outputs x ∖ {[o]} |}.

Definition bind_to (o : positive) (x : obs_encoder) : obs_encoder :=
  {| enc_type := enc_type x; enc_outputs := {[o]} ∪ enc_outputs x |}.

(** Modelled from the spec: an encoder-side operation changes the encoder
    it is called on and no other, and is a no-op on a null encoder. *)
Definition on_encoder (encoder output : pointer)
    (f : positive -> obs_encoder -> obs_encoder) : M unit :=
  fun w => Ok (tt, match encoder, output with
                   | Some e, Some o => with_encoders (alter (f o) e (encoders w)) w
                   | _, _ => w
                   end).

(** Modelled from the spec: [obs_encoder_remove_output(encoder, output)] of
    [obs-encoder.c], the encoder-side removal of a link.  It takes [output]
    out of the set of outputs of [encoder], and does nothing for a null
    encoder.  The call is recorded as well. *)
Definition obs_encoder_remove_output (encoder output : pointer) : M unit :=
  emit (call_obs_encoder_remove_output encoder output) ;;
  on_encoder encoder output unbind.

(** Modelled from the spec: [obs_encoder_add_output(encoder, output)] of
    [obs-encoder.c], the encoder-side creation of a link.  It puts [output]
    into the set of outputs of [encoder], and does nothing for a null
    encoder.  The call is recorded as well. *)
Definition obs_encoder_add_output (encoder output : pointer) : M unit :=
  emit (call_obs_encoder_add_output encoder output) ;;
  on_encoder encoder output bind_to.

(** [encoder && encoder->info.type != t] *)
Definition encoder_type_differs (encoder : pointer) (t : obs_encoder_type)
  : M bool :=
  if is_null encoder then ret false
  else x <- deref_encoder encoder ;; ret (negb (bool_decide (enc_type x = t))).

(** [obs_output_remove_encoder(output, encoder)] *)
Definition obs_output_remove_encoder (output encoder : pointer) : M unit :=
  if is_null output then ret tt
  else
    venc <- get output video_encoder ;;
    if bool_decide (venc = encoder) then assign output (set_video_encoder None)
    else
      aenc <- get output audio_encoder ;;
      when (bool_decide (aenc = encoder))
        (assign output (set_audio_encoder None)).

(** [obs_output_set_video_encoder(output, encoder)] *)
Definition obs_output_set_video_encoder (output encoder : pointer) : M unit :=
  if is_null output then ret tt
  else
    cur <- get output video_encoder ;;
    if bool_decide (cur = encoder) then ret tt
    else
      wrong <- encoder_type_differs encoder OBS_ENCODER_VIDEO ;;
      if wrong then ret tt
      else
        obs_encoder_remove_output encoder output ;;
        obs_encoder_add_output encoder output ;;
        assign output (set_video_encoder encoder).

(** [obs_output_set_audio_encoder(output, encoder)] *)
Definition obs_output_set_audio_encoder (output encoder : pointer) : M unit :=
  if is_null output then ret tt
  else
    cur <- get output audio_encoder ;;
    if bool_decide (cur = encoder) then ret tt
    else
      wrong <- encoder_type_differs encoder OBS_ENCODER_AUDIO ;;
      if wrong then ret tt
      else
        obs_encoder_remove_output encoder output ;;
        obs_encoder_add_output encoder output ;;
        assign output (set_audio_encoder encoder).

(** [obs_output_get_video_encoder(output)], [obs_output_get_audio_encoder(output)] *)
Definition obs_output_get_video_encoder (output : pointer) : M pointer :=
  if is_null output then ret None else get output video_encoder.

Definition obs_output_get_audio_encoder (output : pointer) : M pointer :=
  if is_null output then ret None else get output audio_encoder.

(** ** The remaining public functions *)

Fixpoint emit_all (cs : list call) : M unit :=
  match cs with
  | [] => ret tt
  | c :: cs' => emit c ;; emit_all cs'
  end.

(** [free_packets(output)] *)
Definition free_packets (output : pointer) : M unit :=
  pkts <- get output interleaved_packets ;;
  emit_all (map (fun p => call_obs_free_encoder_packet (packet p)) pkts) ;;
  assign output (set_interleaved_packets []).

(** [da_erase_item(array, &item)]: the first entry equal to [item] goes. *)
Fixpoint da_erase_item (array : list positive) (item : positive)
  : list positive :=
  match array with
  | [] => []
  | x :: rest => if bool_decide (x = item) then rest
                 else x :: da_erase_item rest item
  end.

Definition unregister (output : pointer) : M unit :=
  fun w => Ok (tt, match output with
                   | Some p => with_registry (da_erase_item (registry w) p) w
                   | None => w
                   end).

(** [bfree(output)] *)
Definition release (output : pointer) : M unit :=
  fun w => Ok (tt, match output with
                   | Some p => with_outputs (delete p (outputs w)) w
                   | None => w
                   end).

(** [obs_output_destroy(output)] *)
Definition obs_output_destroy (output : pointer) : M unit :=
  if is_null output then ret tt
  else
    v <- get output valid ;;
    when v
      (act <- get output active ;;
       when act (d <- get output data ;; emit (call_info_stop d)) ;;
       unregister output) ;;
    free_packets output ;;
    d <- get output data ;;
    when (negb (is_null d)) (emit (call_info_destroy d)) ;;
    h <- get output signals ;;
    emit (call_signal_handler_destroy h) ;;
    h <- get output procs ;;
    emit (call_proc_handler_destroy h) ;;
    s <- get output settings ;;
    emit (call_obs_data_release s) ;;
    release output.

(** [obs_output_start(output)] *)
Definition obs_output_start (output : pointer) : M bool :=
  if is_null output then ret false
  else
    i <- get output info ;;
    d <- get output data ;;
    emit (call_info_start d) ;;
    ret (start i d).

(** [obs_output_stop(output)] *)
Definition obs_output_stop (output : pointer) : M unit :=
  if is_null output then ret tt
  else d <- get output data ;; emit (call_info_stop d).

(** [obs_output_active(output)] *)
Definition obs_output_active (output : pointer) : M bool :=
  if is_null output then ret false else get output active.

(** [obs_output_properties(output, locale)] *)
Definition obs_output_properties (output : pointer) (locale : string)
  : M pointer :=
  if is_null output then ret None
  else
    i <- get output info ;;
    match properties i with
    | None => ret None
    | Some hook =>
        emit (call_info_properties locale) ;;
        let props := hook locale in
        s <- get output settings ;;
        emit (call_obs_properties_apply_settings props s) ;;
        ret props
    end.

(** [obs_output_update(output, settings)] *)
Definition obs_output_update (output new_settings : pointer) : M unit :=
  if is_null output then ret tt
  else
    s <- get output settings ;;
    emit (call_obs_data_apply s new_settings) ;;
    i <- get output info ;;
    when (has_update i)
      (d <- get output data ;;
       s <- get output settings ;;
       emit (call_info_update d s)).

(** [obs_output_get_settings(output)] *)
Definition obs_output_get_settings (output : pointer) : M pointer :=
  if is_null output then ret None
  else
    s <- get output settings ;;
    emit (call_obs_data_addref s) ;;
    get output settings.

(** [obs_output_canpause(output)] *)
Definition obs_output_canpause (output : pointer) : M bool :=
  if is_null output then ret false
  else i <- get output info ;; ret (has_pause i).

(** [obs_output_pause(output)] *)
Definition obs_output_pause (output : pointer) : M unit :=
  if is_null output then ret tt
  else
    i <- get output info ;;
    when (has_pause i) (d <- get output data ;; emit (call_info_pause d)).

(** [obs_output_signalhandler(output)], [obs_output_prochandler(output)] *)
Definition obs_output_signalhandler (output : pointer) : M pointer :=
  if is_null output then ret None else get output signals.

Definition obs_output_prochandler (output : pointer) : M pointer :=
  if is_null output then ret None else get output procs.

(** [obs_output_set_media(output, video, audio)] *)
Definition obs_output_set_media (output v a : pointer) : M unit :=
  if is_null output then ret tt
  else assign output (set_video v) ;; assign output (set_audio a).

(** [obs_output_video(output)], [obs_output_audio(output)] *)
Definition obs_output_video (output : pointer) : M pointer :=
  if is_null output then ret None else get output video.

Definition obs_output_audio (output : pointer) : M pointer :=
  if is_null output then ret None else get output audio.

(** [obs_output_set_video_conversion(output, conversion)] *)
Definition obs_output_set_video_conversion (output : pointer)
    (conversion : option video_scale_info) : M unit :=
  match conversion with
  | Some c =>
      if is_null output then ret tt
      else
        assign output (set_video_conversion c) ;;
        assign output (set_video_conversion_set true)
  | None => ret tt
  end.

(** [obs_output_set_audio_conversion(output, conversion)] *)
Definition obs_output_set_audio_conversion (output : pointer)
    (conversion : option audio_convert_info) : M unit :=
  match conversion with
  | Some c =>
      if is_null output then ret tt
      else
        assign output (set_audio_conversion c) ;;
        assign output (set_audio_conversion_set true)
  | None => ret tt
  end.

(** ** Running the interleaver and the public functions *)

(** A sequence of [interleave_packets] calls on one output: each input
    packet comes with what the local [out] of its call holds on entry. *)
Fixpoint feed (output : pointer) (inputs : list (encoder_packet * il_packet))
  : M unit :=
  match inputs with
  | [] => ret tt
  | (pkt, out0) :: rest => interleave_packets output pkt out0 ;; feed output rest
  end.

(** The packets handed to the [encoded_packet] hook, in order. *)
Fixpoint released (cs : list call) : list encoder_packet :=
  match cs with
  | [] => []
  | call_info_encoded_packet _ p :: cs' => p :: released cs'
  | _ :: cs' => released cs'
  end.

(** The value [convert_packet_dts] computes, for a non-zero denominator. *)
Definition ts_us (pkt : encoder_packet) : Z :=
  int64_wrap (int64_wrap (dts pkt * MICROSECOND_DEN) ÷ timebase_den pkt).

(** The [dts] values of the packets of one stream, in arrival order. *)
Definition stream_dts (t : obs_encoder_type) (pkts : list encoder_packet)
  : list Z :=
  map dts (filter (fun p => type p = t) pkts).

Fixpoint nondecreasing (l : list Z) : bool :=
  match l with
  | x :: (y :: _) as rest => (x <=? y) && nondecreasing rest
  | _ => true
  end.

(** The public functions, as requests with their arguments. *)
Inductive api :=
| api_destroy (output : pointer)
| api_start (output : pointer)
| api_stop (output : pointer)
| api_active (output : pointer)
| api_properties (output : pointer) (locale : string)
| api_update (output new_settings : pointer)
| api_get_settings (output : pointer)
| api_canpause (output : pointer)
| api_pause (output : pointer)
| api_signalhandler (output : pointer)
| api_prochandler (output : pointer)
| api_set_media (output v a : pointer)
| api_video (output : pointer)
| api_audio (output : pointer)
| api_remove_encoder (output encoder : pointer)
| api_set_video_encoder (output encoder : pointer)
| api_set_audio_encoder (output encoder : pointer)
| api_get_video_encoder (output : pointer)
| api_get_audio_encoder (output : pointer)
| api_set_video_conversion (output : pointer) (c : option video_scale_info)
| api_set_audio_conversion (output : pointer) (c : option audio_convert_info)
| api_can_begin_data_capture (output : pointer) (requested : Z)
| api_begin_data_capture (output : pointer) (requested : Z)
| api_end_data_capture (output : pointer)
| api_signal_start_fail (output : pointer) (code : Z).

(** What a public function hands back: nothing, a [bool], or a pointer. *)
Inductive api_result :=
| res_void
| res_bool (b : bool)
| res_pointer (p : pointer).

Definition void (m : M unit) : M api_result := _ <- m ;; ret res_void.
Definition boolean (m : M bool) : M api_result := b <- m ;; ret (res_bool b).
Definition address (m : M pointer) : M api_result :=
  p <- m ;; ret (res_pointer p).

Definition run_api (c : api) : M api_result :=
  match c with
  | api_destroy o => void (obs_output_destroy o)
  | api_start o => boolean (obs_output_start o)
  | api_stop o => void (obs_output_stop o)
  | api_active o => boolean (obs_output_active o)
  | api_properties o l => address (obs_output_properties o l)
  | api_update o s => void (obs_output_update o s)
  | api_get_settings o => address (obs_output_get_settings o)
  | api_canpause o => boolean (obs_output_canpause o)
  | api_pause o => void (obs_output_pause o)
  | api_signalhandler o => address (obs_output_signalhandler o)
  | api_prochandler o => address (obs_output_prochandler o)
  | api_set_media o v a => void (obs_output_set_media o v a)
  | api_video o => address (obs_output_video o)
  | api_audio o => address (obs_output_audio o)
  | api_remove_encoder o e => void (obs_output_remove_encoder o e)
  | api_set_video_encoder o e => void (obs_output_set_video_encoder o e)
  | api_set_audio_encoder o e => void (obs_output_set_audio_encoder o e)
  | api_get_video_encoder o => address (obs_output_get_video_encoder o)
  | api_get_audio_encoder o => address (obs_output_get_audio_encoder o)
  | api_set_video_conversion o c =>
      void (obs_output_set_video_conversion o c)
  | api_set_audio_conversion o c =>
      void (obs_output_set_audio_conversion o c)
  | api_can_begin_data_capture o f =>
      boolean (obs_output_can_begin_data_capture o f)
  | api_begin_data_capture o f => boolean (obs_output_begin_data_capture o f)
  | api_end_data_capture o => void (obs_output_end_data_capture o)
  | api_signal_start_fail o c => void (obs_output_signal_start_fail o c)
  end.

(** The answer to a request that changes nothing: no result, [false], or
    [NULL]. *)
Definition null_result (r : api_result) : Prop :=
  r = res_void \/ r = res_bool false \/ r = res_pointer None.

(** The handle a request is made on. *)
Definition handle_of (c : api) : pointer :=
  match c with
  | api_destroy o | api_start o | api_stop o | api_active o
  | api_properties o _ | api_update o _
  | api_get_settings o | api_canpause o | api_pause o | api_signalhandler o
  | api_prochandler o | api_set_media o _ _ | api_video o | api_audio o
  | api_remove_encoder o _ | api_set_video_encoder o _
  | api_set_audio_encoder o _ | api_get_video_encoder o
  | api_get_audio_encoder o | api_set_video_conversion o _
  | api_set_audio_conversion o _ | api_can_begin_data_capture o _
  | api_begin_data_capture o _ | api_end_data_capture o
  | api_signal_start_fail o _ => o
  end.

(** ** Worlds seen from one output *)

(** A handle is well formed when it is [NULL] or the address of an output
    that is alive. *)
Definition handle_ok (w : world) (output : pointer) : Prop :=
  match output with
  | None => True
  | Some p => is_Some (outputs w !! p)
  end.

(** The object behind a handle, if any. *)
Definition pointee (w : world) (output : pointer) : option obs_output :=
  match output with
  | None => None
  | Some p => outputs w !! p
  end.

(** The world [w] with the output at [p] replaced by [o] and the record of
    calls replaced by [cs]; encoders and registry are those of [w]. *)
Definition st (p : positive) (o : obs_output) (cs : list call) (w : world)
  : world :=
  {| outputs := <[p := o]> (outputs w); encoders := encoders w;
     registry := registry w; calls := cs |}.

(** ** Vocabulary of the properties

    The values and conditions the statements below are written with: the
    prepared packet, the latching of the first packet of a stream, the
    acceptance test, the decoded request flags, and the calls of hooking
    and unhooking. *)

(** The packet with [offset] taken off [dts] and [pts]. *)
Definition shifted (pkt : encoder_packet) (offset : Z) : encoder_packet :=
  set_pts (int64_wrap (pts pkt - offset))
    (set_dts (int64_wrap (dts pkt - offset)) pkt).

(** The entry a prepared packet becomes. *)
Definition prepared (pkt : encoder_packet) (offset : Z) : il_packet :=
  {| input_ts_us := ts_us pkt;
     output_ts_us := ts_us (shifted pkt offset);
     packet := shifted pkt offset |}.

(** The output after the first-packet latch of either stream. *)
Definition latch_video (pkt : encoder_packet) (o : obs_output) : obs_output :=
  if received_video o then o
  else set_received_video true
         (set_video_offset (dts pkt) (set_first_video_ts (ts_us pkt) o)).

Definition latch_audio (pkt : encoder_packet) (o : obs_output) : obs_output :=
  if received_audio o then o
  else set_received_audio true (set_audio_offset (dts pkt) o).

(** The test that sends an audio packet away. *)
Definition audio_rejected (o : obs_output) (pkt : encoder_packet) : bool :=
  negb (received_video o) || (ts_us pkt <? first_video_ts o).

(** The packets the interleaver accepts: every video packet, and the audio
    packets that are not before the first video timestamp. *)
Definition accepted (o : obs_output) (pkt : encoder_packet) : bool :=
  match type pkt with
  | OBS_ENCODER_VIDEO => true
  | OBS_ENCODER_AUDIO => negb (audio_rejected o pkt)
  end.

(** The flags a request is answered with: the flag word of the type for
    an empty request, the intersection with it otherwise. *)
Definition effective_flags (o : obs_output) (requested : Z) : Z :=
  if requested =? 0 then flags (info o)
  else Z.land requested (flags (info o)).

Definition wants_encoded (o : obs_output) : bool :=
  flag_set (flags (info o)) OBS_OUTPUT_ENCODED.

Definition wants_video (o : obs_output) (requested : Z) : bool :=
  flag_set (effective_flags o requested) OBS_OUTPUT_VIDEO.

Definition wants_audio (o : obs_output) (requested : Z) : bool :=
  flag_set (effective_flags o requested) OBS_OUTPUT_AUDIO.

(** A requested medium has no producer: no encoder in encoded mode, no raw
    pipeline otherwise. *)
Definition missing_producer (o : obs_output) (requested : Z) : Prop :=
  (wants_video o requested = true /\
   if wants_encoded o then video_encoder o = None else video o = None) \/
  (wants_audio o requested = true /\
   if wants_encoded o then audio_encoder o = None else audio o = None).

Definition producers_ready (o : obs_output) (requested : Z) : bool :=
  negb (wants_video o requested &&
        is_null (if wants_encoded o then video_encoder o else video o)) &&
  negb (wants_audio o requested &&
        is_null (if wants_encoded o then audio_encoder o else audio o)).

(** The context an encoder is started and stopped with. *)
Definition capture_param (output : pointer) (o : obs_output)
    (has_video has_audio : bool) : pointer :=
  if has_video && has_audio then output else data o.

Definition conversion_of {A} (set : bool) (conv : A) : option A :=
  if set then Some conv else None.

(** The calls that hook the producers of [o]: one per requested medium, the
    encoders in encoded mode, the raw pipelines otherwise. *)
Definition hook_calls (output : pointer) (o : obs_output)
    (encoded has_video has_audio : bool) : list call :=
  if encoded then
    (if has_video
     then [call_obs_encoder_start (video_encoder o)
             (encoded_callback_of has_video has_audio)
             (capture_param output o has_video has_audio)]
     else []) ++
    (if has_audio
     then [call_obs_encoder_start (audio_encoder o)
             (encoded_callback_of has_video has_audio)
             (capture_param output o has_video has_audio)]
     else [])
  else
    (if has_video
     then [call_video_output_connect (video o)
             (conversion_of (video_conversion_set o) (video_conversion o))
             (data o)]
     else []) ++
    (if has_audio
     then [call_audio_output_connect (audio o)
             (conversion_of (audio_conversion_set o) (audio_conversion o))
             (data o)]
     else []).

(** The calls that unhook them. *)
Definition unhook_calls (output : pointer) (o : obs_output)
    (encoded has_video has_audio : bool) : list call :=
  if encoded then
    (if has_video
     then [call_obs_encoder_stop (video_encoder o)
             (encoded_callback_of has_video has_audio)
             (capture_param output o has_video has_audio)]
     else []) ++
    (if has_audio
     then [call_obs_encoder_stop (audio_encoder o)
             (encoded_callback_of has_video has_audio)
             (capture_param output o has_video has_audio)]
     else [])
  else
    (if has_video then [call_video_output_disconnect (video o) (data o)]
     else []) ++
    (if has_audio then [call_audio_output_disconnect (audio o) (data o)]
     else []).

(** The output as [hook_data_capture] leaves it. *)
Definition hooked (encoded : bool) (o : obs_output) : obs_output :=
  if encoded then set_received_video false o else o.

(** The two notifications. *)
Definition start_signal (output : pointer) (o : obs_output) (code : Z) : call :=
  call_signal_handler_signal (signals o) "start"
    [("code"%string, cd_int code); ("output"%string, cd_ptr output)].

Definition stop_signal (output : pointer) (o : obs_output) : call :=
  call_signal_handler_signal (signals o) "stop"
    [("output"%string, cd_ptr output)].

(** [m] activates nothing at [q]: an output found active at [q] afterwards
    was there and active before. *)
Definition no_activation {A} (q : positive) (m : M A) : Prop :=
  forall w a w' o',
    m w = Ok (a, w') -> outputs w' !! q = Some o' -> active o' = true ->
    exists o, outputs w !! q = Some o /\ active o = true.

(** Everything that can happen to an output: a public function is called,
    or an encoder delivers a packet to the interleaver. *)
Inductive event :=
| ev_api (c : api)
| ev_packet (data : pointer) (pkt : encoder_packet) (out0 : il_packet).

Definition run_event (e : event) : M unit :=
  match e with
  | ev_api c => _ <- run_api c ;; ret tt
  | ev_packet data pkt out0 => interleave_packets data pkt out0
  end.

(** The world a computation leaves. *)
Definition exec {A} (m : M A) (w : world) : world :=
  match m w with
  | Ok (_, w') => w'
  | Fault _ => w
  end.

(** The pending buffer is sorted by adjusted timestamp. *)
Definition sorted_buffer (l : list il_packet) : Prop :=
  nondecreasing (map output_ts_us l) = true.

(** Input as encoders produce it: the product of [convert_packet_dts]
    fits [int64_t], the audio packets share one positive timebase. *)
Definition in_range (pkt : encoder_packet) : Prop :=
  - 2 ^ 63 <= dts pkt * MICROSECOND_DEN < 2 ^ 63.

Definition well_behaved_audio (den : Z) (pkt : encoder_packet) : Prop :=
  type pkt = OBS_ENCODER_AUDIO -> timebase_den pkt = den /\ in_range pkt.

(** Once audio has been accepted, video has been received and none of the
    audio packets still to come is before the first video timestamp. *)
Definition audio_settled (o : obs_output) (pkts : list encoder_packet)
  : Prop :=
  received_audio o = true ->
  received_video o = true /\
  Forall (fun a => type a = OBS_ENCODER_AUDIO -> first_video_ts o <= ts_us a)
    pkts.

(** ** Sample objects *)

Definition sample_info (f : Z) : obs_output_info :=
  {| flags := f; start := fun _ => true; properties := None;
     has_update := false; has_pause := false |}.

(** An inactive output of a type with flag word [f], bound to the video
    encoder at 10 and the audio encoder at 11. *)
Definition sample_output (f : Z) : obs_output :=
  {| info := sample_info f; data := Some 50%positive;
     settings := Some 51%positive; signals := Some 52%positive;
     procs := Some 53%positive; video := Some 60%positive;
     audio := Some 61%positive; video_encoder := Some 10%positive;
     audio_encoder := Some 11%positive;
     video_conversion := VideoScaleInfo 0; video_conversion_set := false;
     audio_conversion := AudioConvertInfo 0; audio_conversion_set := false;
     received_video := false; received_audio := false; first_video_ts := 0;
     video_offset := 0; audio_offset := 0; interleaved_packets := [];
     active := false; valid := true |}.

(** That output at address 1, two video encoders (10 and 12) and an audio
    encoder (11); the encoders at 10 and 11 are linked to the output. *)
Definition sample_world (f : Z) : world :=
  {| outputs := {[ 1%positive := sample_output f ]};
     encoders :=
       {[ 10%positive := {| enc_type := OBS_ENCODER_VIDEO;
                            enc_outputs := {[ 1%positive ]} |};
          11%positive := {| enc_type := OBS_ENCODER_AUDIO;
                            enc_outputs := {[ 1%positive ]} |};
          12%positive := {| enc_type := OBS_ENCODER_VIDEO;
                            enc_outputs := ∅ |} ]};
     registry := [1%positive];
     calls := [] |}.

Definition video_packet (d den : Z) : encoder_packet :=
  {| payload := []; pts := d; dts := d; timebase_den := den;
     type := OBS_ENCODER_VIDEO |}.

Definition audio_packet (d den : Z) : encoder_packet :=
  {| payload := []; pts := d; dts := d; timebase_den := den;
     type := OBS_ENCODER_AUDIO |}.

(** A value the uninitialised local of [interleave_packets] may hold: an
    entry with timestamp [ts] microseconds around a packet of type [t]. *)
Definition stale (ts : Z) (t : obs_encoder_type) : il_packet :=
  {| input_ts_us := 0; output_ts_us := ts;
     packet := {| payload := []; pts := ts; dts := ts;
                  timebase_den := 1000000; type := t |} |}.

(** A capture session on the sample output that has seen a video and an
    audio packet and has been ended. *)
Definition used_world : world :=
  exec (_ <- obs_output_begin_data_capture (Some 1%positive) 0 ;;
        feed (Some 1%positive)
          [(video_packet 10 1, stale 0 OBS_ENCODER_AUDIO);
           (audio_packet 10 1, stale 0 OBS_ENCODER_AUDIO)] ;;
        obs_output_end_data_capture (Some 1%positive))
    (sample_world 7).

(** The sample output after a capture begun for video alone. *)
Definition video_only_world : world :=
  exec (obs_output_begin_data_capture (Some 1%positive) OBS_OUTPUT_VIDEO)
    (sample_world 7).

(** ** Output types and creation *)

(** Assignments to the fields that creation alone writes. *)

Definition set_info (v : obs_output_info) (o : obs_output) : obs_output :=
  Build_obs_output v (data o) (settings o) (signals o) (procs o) (video o)
    (audio o) (video_encoder o) (audio_encoder o) (video_conversion o)
    (video_conversion_set o) (audio_conversion o) (audio_conversion_set o)
    (received_video o) (received_audio o) (first_video_ts o) (video_offset o)
    (audio_offset o) (interleaved_packets o) (active o) (valid o).

Definition set_data (v : pointer) (o : obs_output) : obs_output :=
  Build_obs_output (info o) v (settings o) (signals o) (procs o) (video o)
    (audio o) (video_encoder o) (audio_encoder o) (video_conversion o)
    (video_conversion_set o) (audio_conversion o) (audio_conversion_set o)
    (received_video o) (received_audio o) (first_video_ts o) (video_offset o)
    (audio_offset o) (interleaved_packets o) (active o) (valid o).

Definition set_settings (v : pointer) (o : obs_output) : obs_output :=
  Build_obs_output (info o) (data o) v (signals o) (procs o) (video o)
    (audio o) (video_encoder o) (audio_encoder o) (video_conversion o)
    (video_conversion_set o) (audio_conversion o) (audio_conversion_set o)
    (received_video o) (received_audio o) (first_video_ts o) (video_offset o)
    (audio_offset o) (interleaved_packets o) (active o) (valid o).

Definition set_signals (v : pointer) (o : obs_output) : obs_output :=
  Build_obs_output (info o) (data o) (settings o) v (procs o) (video o)
    (audio o) (video_encoder o) (audio_encoder o) (video_conversion o)
    (video_conversion_set o) (audio_conversion o) (audio_conversion_set o)
    (received_video o) (received_audio o) (first_video_ts o) (video_offset o)
    (audio_offset o) (interleaved_packets o) (active o) (valid o).

Definition set_procs (v : pointer) (o : obs_output) : obs_output :=
  Build_obs_output (info o) (data o) (settings o) (signals o) v (video o)
    (audio o) (video_encoder o) (audio_encoder o) (video_conversion o)
    (video_conversion_set o) (audio_conversion o) (audio_conversion_set o)
    (received_video o) (received_audio o) (first_video_ts o) (video_offset o)
    (audio_offset o) (interleaved_packets o) (active o) (valid o).

Definition set_valid (v : bool) (o : obs_output) : obs_output :=
  Build_obs_output (info o) (data o) (settings o) (signals o) (procs o)
    (video o) (audio o) (video_encoder o) (audio_encoder o)
    (video_conversion o) (video_conversion_set o) (audio_conversion o)
    (audio_conversion_set o) (received_video o) (received_audio o)
    (first_video_ts o) (video_offset o) (audio_offset o)
    (interleaved_packets o) (active o) v.

(** An entry of [obs->output_types].  Next to the behaviour table that an
    output carries, it holds the members of [struct obs_output_info] that
    are used before an output exists: the [id] the type is registered under
    (here [type_id]), whether the type has a [defaults] hook, and what its
    [create] hook answers for the settings and the output it is given. *)
Record output_type := {
  type_id : string;
  type_info : obs_output_info;
  has_defaults : bool;
  create : pointer -> pointer -> pointer;
}.

(** Modelled from the spec: the registry of output types, and what the
    collaborators of creation answer during one call: [pthread_mutex_init]
    (true for the return value 0), the two handler constructors, the
    process-wide media outputs and [obs_data_create]. *)
Record environment := {
  output_types : list output_type;
  pthread_mutex_init : bool;
  signal_handler_create : pointer;
  proc_handler_create : pointer;
  obs_video : pointer;
  obs_audio : pointer;
  obs_data_create : pointer;
}.

(** The calls to collaborators that are made before an output exists. *)
Inductive setup_call :=
| call_blog (id : string)
| call_signal_handler_create
| call_proc_handler_create
| call_signal_handler_add_array (h : pointer) (signals : list string)
| call_obs_data_newref (s : pointer)
| call_obs_data_create
| call_info_defaults (s : pointer)
| call_info_create (s output : pointer)
| call_bstrdup (name : string).

(** Computations that also record such calls. *)
Definition Setup (A : Type) : Type :=
  list setup_call -> M (A * list setup_call).

#[global] Instance Setup_ret : MRet Setup := fun A a l => ret (a, l).

#[global] Instance Setup_bind : MBind Setup :=
  fun A B k m l => r <- m l ;; k (fst r) (snd r).

Definition lift {A} (m : M A) : Setup A := fun l => a <- m ;; ret (a, l).

Definition note (c : setup_call) : Setup unit := fun l => ret (tt, l ++ [c]).

(** Modelled from the spec: [obs_data_newref(settings)] of [obs-data.c]
    takes a reference on the settings object and answers it. *)
Definition obs_data_newref (s : pointer) : Setup pointer :=
  _ ← note (call_obs_data_newref s) ; mret s.

(** [find_output(id)]: the first registered type with that id. *)
Fixpoint find_output (types : list output_type) (id : string)
  : option output_type :=
  match types with
  | [] => None
  | t :: rest =>
      if String.eqb (type_id t) id then Some t else find_output rest id
  end.

Definition output_signals : list string :=
  ["void start(ptr output, int errorcode)"%string;
   "void stop(ptr output)"%string].

(** [init_output_handlers(output)] *)
Definition init_output_handlers (env : environment) (output : pointer)
  : Setup bool :=
  _ ← note call_signal_handler_create ;
  _ ← lift (assign output (set_signals (signal_handler_create env))) ;
  h ← lift (get output signals) ;
  if is_null h then mret false
  else
    _ ← note call_proc_handler_create ;
    _ ← lift (assign output (set_procs (proc_handler_create env))) ;
    h ← lift (get output procs) ;
    if is_null h then mret false
    else
      h ← lift (get output signals) ;
      _ ← note (call_signal_handler_add_array h output_signals) ;
      mret true.

(** What [bzalloc(sizeof(struct obs_output))] hands out: every member
    zero.  The hooks of the zeroed behaviour table are null. *)
Definition zeroed : obs_output :=
  {| info := {| flags := 0; start := fun _ => false; properties := None;
                has_update := false; has_pause := false |};
     data := None; settings := None; signals := None; procs := None;
     video := None; audio := None; video_encoder := None;
     audio_encoder := None;
     video_conversion := VideoScaleInfo 0; video_conversion_set := false;
     audio_conversion := AudioConvertInfo 0; audio_conversion_set := false;
     received_video := false; received_audio := false; first_video_ts := 0;
     video_offset := 0; audio_offset := 0; interleaved_packets := [];
     active := false; valid := false |}.

(** Modelled from the spec: [bzalloc] (the allocator is not among the
    sources) answers a zeroed object at an address that holds none. *)
Definition bzalloc : M pointer :=
  fun w => let a := fresh (dom (outputs w)) in
           Ok (Some a, with_outputs (<[a := zeroed]> (outputs w)) w).

(** [da_push_back(obs->data.outputs, &output)] *)
Definition register (output : pointer) : M unit :=
  fun w => Ok (tt, match output with
                   | Some p => with_registry (registry w ++ [p]) w
                   | None => w
                   end).

(** [obs_output_create(id, name, settings)].  The mutex calls other than
    [pthread_mutex_init] are not modelled, and [output->name] is written
    here, freed in destroy and read nowhere: the copy is recorded as a
    call. *)
Definition obs_output_create (env : environment) (id name : string)
    (new_settings : pointer) : Setup pointer :=
  match find_output (output_types env) id with
  | None => _ ← note (call_blog id) ; mret None
  | Some t =>
      output ← lift bzalloc ;
      if negb (pthread_mutex_init env)
      then _ ← lift (obs_output_destroy output) ; mret None
      else
        ok ← init_output_handlers env output ;
        if negb ok
        then _ ← lift (obs_output_destroy output) ; mret None
        else
          _ ← lift (assign output (set_info (type_info t))) ;
          _ ← lift (assign output (set_video (obs_video env))) ;
          _ ← lift (assign output (set_audio (obs_audio env))) ;
          r ← obs_data_newref new_settings ;
          _ ← lift (assign output (set_settings r)) ;
          _ ← (if has_defaults t
               then (s ← lift (get output settings) ;
                     note (call_info_defaults s))
               else mret tt) ;
          s ← lift (get output settings) ;
          _ ← note (call_info_create s output) ;
          _ ← lift (assign output (set_data (create t s output))) ;
          d ← lift (get output data) ;
          if is_null d
          then _ ← lift (obs_output_destroy output) ; mret None
          else
            _ ← note (call_bstrdup name) ;
            _ ← lift (register output) ;
            _ ← lift (assign output (set_valid true)) ;
            mret output
  end.

(** [get_defaults(info)] *)
Definition get_defaults (env : environment) (t : output_type) : Setup pointer :=
  _ ← note call_obs_data_create ;
  let new_settings := obs_data_create env in
  _ ← (if has_defaults t then note (call_info_defaults new_settings)
       else mret tt) ;
  mret new_settings.

(** [obs_output_defaults(id)] *)
Definition obs_output_defaults (env : environment) (id : string) : Setup pointer :=
  match find_output (output_types env) id with
  | Some t => get_defaults env t
  | None => mret None
  end.

(** [obs_get_output_properties(id, locale)] *)
Definition obs_get_output_properties (env : environment) (id locale : string)
  : Setup pointer :=
  match find_output (output_types env) id with
  | Some t =>
      match properties (type_info t) with
      | Some hook =>
          defaults ← get_defaults env t ;
          _ ← lift (emit (call_info_properties locale)) ;
          let props := hook locale in
          _ ← lift (emit (call_obs_properties_apply_settings props defaults)) ;
          _ ← lift (emit (call_obs_data_release defaults)) ;
          mret props
      | None => mret None
      end
  | None => mret None
  end.

(** The setup calls of a creation that got as far as the type's [create]
    hook. *)
Definition create_calls (env : environment) (t : output_type)
    (s output : pointer)
  : list setup_call :=
  [call_signal_handler_create; call_proc_handler_create;
   call_signal_handler_add_array (signal_handler_create env) output_signals;
   call_obs_data_newref s] ++
  (if has_defaults t then [call_info_defaults s] else []) ++
  [call_info_create s output].

(** The output a successful creation leaves at address [a]. *)
Definition created (env : environment) (t : output_type) (s : pointer)
    (a : positive) : obs_output :=
  set_valid true
    (set_data (create t s (Some a))
       (set_settings s
          (set_audio (obs_audio env)
             (set_video (obs_video env)
                (set_info (type_info t)
                   (set_procs (proc_handler_create env)
                      (set_signals (signal_handler_create env) zeroed))))))).

(** The hooks of the output type that act on a live instance. *)
Definition instance_hook (c : call) : bool :=
  match c with
  | call_info_stop _ | call_info_destroy _ => true
  | _ => false
  end.

(** Why a creation answers [NULL]. *)
Definition creation_fails (env : environment) (id : string) (s : pointer)
    (w : world) : Prop :=
  match find_output (output_types env) id with
  | None => True
  | Some t =>
      pthread_mutex_init env = false \/
      signal_handler_create env = None \/
      proc_handler_create env = None \/
      create t s (Some (fresh (dom (outputs w)))) = None
  end.

(** The setup calls of [get_defaults] for the type [t]. *)
Definition defaults_calls (env : environment) (t : output_type)
  : list setup_call :=
  call_obs_data_create ::
  (if has_defaults t then [call_info_defaults (obs_data_create env)] else []).

(** ** Destruction, in closed form *)

(** The calls [obs_output_destroy] makes on the output [o]. *)
Definition destroy_calls (o : obs_output) : list call :=
  (if valid o && active o then [call_info_stop (data o)] else []) ++
  map (fun p => call_obs_free_encoder_packet (packet p))
      (interleaved_packets o) ++
  (if is_null (data o) then [] else [call_info_destroy (data o)]) ++
  [call_signal_handler_destroy (signals o);
   call_proc_handler_destroy (procs o);
   call_obs_data_release (settings o)].

(** The world without the output [o] that was at [p]. *)
Definition destroyed (p : positive) (o : obs_output) (w : world) : world :=
  {| outputs := delete p (outputs w);
     encoders := encoders w;
     registry := if valid o then da_erase_item (registry w) p else registry w;
     calls := calls w ++ destroy_calls o |}.

(** The process-wide list names each valid output that is alive, once,
    and nothing else. *)
Definition registry_ok (w : world) : Prop :=
  NoDup (registry w) /\
  forall p, p ∈ registry w <->
            exists o, outputs w !! p = Some o /\ valid o = true.

(** ** Frames

    [m] keeps the relation [R] between the world it starts in and the world
    it returns in. *)
Definition keeps (R : world -> world -> Prop) {A} (m : M A) : Prop :=
  forall w a w', m w = Ok (a, w') -> R w w'.

(** The output at [q], if it is still there, was there before and is
    related to what it was by [P]. *)
Definition kept_at (P : obs_output -> obs_output -> Prop) (q : positive)
    (w w' : world) : Prop :=
  forall o', outputs w' !! q = Some o' ->
  exists o, outputs w !! q = Some o /\ P o o'.

(** The fields of an output that are set when it is created. *)
Definition same_identity (o o' : obs_output) : Prop :=
  info o' = info o /\ data o' = data o /\ settings o' = settings o /\
  signals o' = signals o /\ procs o' = procs o /\ valid o' = valid o.

(** The other fields, grouped by what they are for. *)
Inductive field_group :=
| media_fields
| encoder_fields
| conversion_fields
| active_field
| anchor_fields
| buffer_field.

Definition same_fields (g : field_group) (o o' : obs_output) : Prop :=
  match g with
  | media_fields => video o' = video o /\ audio o' = audio o
  | encoder_fields =>
      video_encoder o' = video_encoder o /\ audio_encoder o' = audio_encoder o
  | conversion_fields =>
      video_conversion o' = video_conversion o /\
      video_conversion_set o' = video_conversion_set o /\
      audio_conversion o' = audio_conversion o /\
      audio_conversion_set o' = audio_conversion_set o
  | active_field => active o' = active o
  | anchor_fields =>
      received_video o' = received_video o /\
      received_audio o' = received_audio o /\
      first_video_ts o' = first_video_ts o /\
      video_offset o' = video_offset o /\ audio_offset o' = audio_offset o
  | buffer_field => interleaved_packets o' = interleaved_packets o
  end.

(** The events with an assignment to a field of the group in their code. *)
Definition writes (g : field_group) (e : event) : bool :=
  match g, e with
  | media_fields, ev_api (api_set_media _ _ _) => true
  | encoder_fields, ev_api (api_remove_encoder _ _) => true
  | encoder_fields, ev_api (api_set_video_encoder _ _) => true
  | encoder_fields, ev_api (api_set_audio_encoder _ _) => true
  | conversion_fields, ev_api (api_set_video_conversion _ _) => true
  | conversion_fields, ev_api (api_set_audio_conversion _ _) => true
  | active_field, ev_api (api_begin_data_capture _ _) => true
  | active_field, ev_api (api_end_data_capture _) => true
  | anchor_fields, ev_api (api_begin_data_capture _ _) => true
  | anchor_fields, ev_packet _ _ _ => true
  | buffer_field, ev_api (api_destroy _) => true
  | buffer_field, ev_packet _ _ _ => true
  | _, _ => false
  end.

(** The handle an event is about. *)
Definition target (e : event) : pointer :=
  match e with
  | ev_api c => handle_of c
  | ev_packet data _ _ => data
  end.

Definition destroys (e : event) : bool :=
  match e with
  | ev_api (api_destroy _) => true
  | _ => false
  end.

Definition binds_encoder (e : event) : bool :=
  match e with
  | ev_api (api_set_video_encoder _ _) => true
  | ev_api (api_set_audio_encoder _ _) => true
  | _ => false
  end.

(** The record of calls has only grown. *)
Definition calls_grow (w w' : world) : Prop :=
  exists cs, calls w' = calls w ++ cs.

(** What an event can do to the world outside the output it is about. *)
Record footprint (e : event) (w w' : world) : Prop := {
  calls_extended : calls_grow w w';
  registry_kept : destroys e = false -> registry w' = registry w;
  encoders_kept : binds_encoder e = false -> encoders w' = encoders w;
  outputs_kept : destroys e = false ->
                 forall q, is_Some (outputs w !! q) -> is_Some (outputs w' !! q);
  others_kept : forall q, target e <> Some q ->
                outputs w' !! q = outputs w !! q;
}.

(** ** More vocabulary and sample objects *)

(** The call that undoes a hooking call. *)
Definition stop_of (c : call) : call :=
  match c with
  | call_obs_encoder_start e cb param => call_obs_encoder_stop e cb param
  | call_video_output_connect v _ param => call_video_output_disconnect v param
  | call_audio_output_connect a _ param => call_audio_output_disconnect a param
  | other => other
  end.

(** definitions for the witnesses *)
Definition flowing_world : world :=
  exec (feed (Some 1%positive)
          [(video_packet 10 1, stale 0 OBS_ENCODER_AUDIO);
           (audio_packet 10 1, stale 0 OBS_ENCODER_AUDIO)])
    (sample_world 7).

Definition waiting_world : world :=
  exec (feed (Some 1%positive)
          [(audio_packet 1 1, stale 5 OBS_ENCODER_AUDIO);
           (audio_packet 2 1, stale 3 OBS_ENCODER_AUDIO)])
    (sample_world 7).

(** The output a world holds at an address (the sample output where it
    holds none). *)
Definition output_at (w : world) (p : positive) : obs_output :=
  default (sample_output 0) (outputs w !! p).

(** The sample output with a capture of both media begun. *)
Definition capturing_world : world :=
  exec (obs_output_begin_data_capture (Some 1%positive) 0) (sample_world 7).

(** The sample output after it has been told to forget its audio encoder. *)
Definition unbound_world : world :=
  exec (obs_output_remove_encoder (Some 1%positive) (Some 11%positive))
    (sample_world 7).

(** Two registered types: one whose [create] hook answers an object, one
    whose hook refuses. *)
Definition sample_type : output_type :=
  {| type_id := "flv_output";
     type_info := {| flags := 7; start := fun _ => true;
                     properties := Some (fun _ => Some 80%positive);
                     has_update := true; has_pause := true |};
     has_defaults := true; create := fun _ _ => Some 50%positive |}.

Definition refusing_type : output_type :=
  {| type_id := "null_output"; type_info := sample_info 7;
     has_defaults := false; create := fun _ _ => None |}.

Definition sample_environment : environment :=
  {| output_types := [sample_type; refusing_type];
     pthread_mutex_init := true;
     signal_handler_create := Some 52%positive;
     proc_handler_create := Some 53%positive;
     obs_video := Some 60%positive; obs_audio := Some 61%positive;
     obs_data_create := Some 70%positive |}.

(** The sample world after an output of the sample type has been created
    next to the one it holds. *)
Definition created_world : world :=
  exec (obs_output_create sample_environment "flv_output" "stream"
          (Some 51%positive) [])
    (sample_world 7).

(** * Proofs *)

(** ** Laws of the computations *)

Lemma st_intro (w : world) (p : positive) (o : obs_output) :
  outputs w !! p = Some o -> w = st p o (calls w) w.
Proof.
  intros H. destruct w as [os es rs cs]. unfold st. simpl in *.
  by rewrite insert_id.
Qed.

Lemma st_lookup p o cs w : outputs (st p o cs w) !! p = Some o.
Proof. unfold st. simpl. apply lookup_insert_eq. Qed.

Lemma st_st p o1 cs1 o2 cs2 w : st p o2 cs2 (st p o1 cs1 w) = st p o2 cs2 w.
Proof. unfold st. simpl. by rewrite insert_insert_eq. Qed.

Lemma bind_ret {A B} (a : A) (k : A -> M B) w : bind (ret a) k w = k a w.
Proof. reflexivity. Qed.

Lemma bind_fail {A B} (f : fault) (k : A -> M B) w :
  bind (fail f) k w = Fault f.
Proof. reflexivity. Qed.

Lemma bind_bind {A B C} (m : M A) (f : A -> M B) (g : B -> M C) w :
  bind (bind m f) g w = bind m (fun x => bind (f x) g) w.
Proof. unfold bind. destruct (m w) as [[a w']|]; reflexivity. Qed.

Lemma get_st {A} (f : obs_output -> A) p o cs w :
  get (Some p) f (st p o cs w) = Ok (f o, st p o cs w).
Proof. unfold get, bind, deref. by rewrite st_lookup. Qed.

Lemma assign_st f p o cs w :
  assign (Some p) f (st p o cs w) = Ok (tt, st p (f o) cs w).
Proof.
  unfold assign. rewrite st_lookup. unfold st, with_outputs. simpl.
  by rewrite insert_insert_eq.
Qed.

Lemma emit_st c p o cs w :
  emit c (st p o cs w) = Ok (tt, st p o (cs ++ [c]) w).
Proof. reflexivity. Qed.

Lemma bind_get_st {A B} (f : obs_output -> A) (k : A -> M B) p o cs w :
  bind (get (Some p) f) k (st p o cs w) = k (f o) (st p o cs w).
Proof. unfold bind at 1. by rewrite get_st. Qed.

Lemma bind_assign_st {B} f (k : unit -> M B) p o cs w :
  bind (assign (Some p) f) k (st p o cs w) = k tt (st p (f o) cs w).
Proof. unfold bind at 1. by rewrite assign_st. Qed.

Lemma bind_emit_st {B} c (k : unit -> M B) p o cs w :
  bind (emit c) k (st p o cs w) = k tt (st p o (cs ++ [c]) w).
Proof. reflexivity. Qed.

Lemma convert_packet_dts_ok pkt w :
  timebase_den pkt <> 0 -> convert_packet_dts pkt w = Ok (ts_us pkt, w).
Proof.
  intros H. unfold convert_packet_dts.
  destruct (Z.eqb_spec (timebase_den pkt) 0); [contradiction | reflexivity].
Qed.

Lemma bind_convert_packet_dts {B} pkt (k : Z -> M B) w :
  timebase_den pkt <> 0 ->
  bind (convert_packet_dts pkt) k w = k (ts_us pkt) w.
Proof. intros H. unfold bind at 1. by rewrite convert_packet_dts_ok. Qed.

Ltac simp_fields :=
  cbn [info data settings signals procs video audio video_encoder
       audio_encoder video_conversion video_conversion_set audio_conversion
       audio_conversion_set received_video received_audio first_video_ts
       video_offset audio_offset interleaved_packets active valid
       set_video set_audio set_video_encoder set_audio_encoder
       set_video_conversion set_video_conversion_set set_audio_conversion
       set_audio_conversion_set set_received_video set_received_audio
       set_first_video_ts set_video_offset set_audio_offset
       set_interleaved_packets set_active
       payload pts dts timebase_den type set_dts set_pts
       input_ts_us output_ts_us packet set_input_ts_us set_output_ts_us
       set_packet negb andb orb when is_null fst snd].

Ltac run_step :=
  first
    [ rewrite bind_bind
    | rewrite bind_ret
    | rewrite bind_get_st
    | rewrite bind_assign_st
    | rewrite bind_emit_st
    | rewrite get_st
    | rewrite assign_st
    | rewrite emit_st
    | rewrite bind_convert_packet_dts by assumption
    | rewrite convert_packet_dts_ok by assumption ];
  cbv beta zeta; simp_fields.

Ltac run := simp_fields; repeat run_step.

(** ** What [prepare_interleaved_packet] computes *)

Lemma prepare_video p o cs w pkt out0 :
  type pkt = OBS_ENCODER_VIDEO -> timebase_den pkt <> 0 ->
  prepare_interleaved_packet (Some p) out0 pkt (st p o cs w) =
    Ok ((true, prepared pkt (video_offset (latch_video pkt o))),
        st p (latch_video pkt o)
          (cs ++ [call_obs_duplicate_encoder_packet pkt]) w).
Proof.
  intros Ht Hd. unfold prepare_interleaved_packet, latch_video.
  rewrite Ht. run. destruct (received_video o); run; reflexivity.
Qed.

Lemma prepare_audio_accepted p o cs w pkt out0 :
  type pkt = OBS_ENCODER_AUDIO -> timebase_den pkt <> 0 ->
  audio_rejected o pkt = false ->
  prepare_interleaved_packet (Some p) out0 pkt (st p o cs w) =
    Ok ((true, prepared pkt (audio_offset (latch_audio pkt o))),
        st p (latch_audio pkt o)
          (cs ++ [call_obs_duplicate_encoder_packet pkt]) w).
Proof.
  intros Ht Hd Hacc. unfold prepare_interleaved_packet, latch_audio.
  rewrite Ht. run. unfold audio_rejected in Hacc. rewrite Hacc.
  run. destruct (received_audio o); run; reflexivity.
Qed.

Lemma prepare_audio_rejected p o cs w pkt out0 :
  type pkt = OBS_ENCODER_AUDIO -> timebase_den pkt <> 0 ->
  audio_rejected o pkt = true ->
  prepare_interleaved_packet (Some p) out0 pkt (st p o cs w) =
    Ok ((false, set_input_ts_us (ts_us pkt) out0), st p o cs w).
Proof.
  intros Ht Hd Hrej. unfold prepare_interleaved_packet.
  rewrite Ht. run. unfold audio_rejected in Hrej. rewrite Hrej.
  reflexivity.
Qed.

(** ** The interleaver *)

Lemma da_insert_cons {A} (l : list A) (i : nat) (x : A) :
  exists e rest, da_insert l i x = e :: rest.
Proof.
  unfold da_insert. destruct i as [|i]; simpl; [eauto |].
  destruct l as [|y l]; simpl; eauto.
Qed.

Lemma interleave_packets_accepted_st p o cs w pkt out0 :
  timebase_den pkt <> 0 -> accepted o pkt = true ->
  interleave_packets (Some p) pkt out0 (st p o cs w) =
    Ok (tt, st p (match type pkt with
                  | OBS_ENCODER_VIDEO => latch_video pkt o
                  | OBS_ENCODER_AUDIO => latch_audio pkt o
                  end)
              (cs ++ [call_obs_duplicate_encoder_packet pkt]) w).
Proof.
  intros Hd Hacc. unfold interleave_packets, accepted in *.
  unfold bind at 1.
  destruct (type pkt) eqn:Ht.
  - apply negb_true_iff in Hacc.
    by rewrite prepare_audio_accepted.
  - by rewrite prepare_video.
Qed.

Lemma interleave_packets_rejected_st p o cs w pkt out0 :
  timebase_den pkt <> 0 -> type pkt = OBS_ENCODER_AUDIO ->
  audio_rejected o pkt = true ->
  exists e rest,
    da_insert (interleaved_packets o)
      (insert_index (output_ts_us out0) (interleaved_packets o) 0)
      (set_input_ts_us (ts_us pkt) out0) = e :: rest /\
    interleave_packets (Some p) pkt out0 (st p o cs w) =
      Ok (tt,
          if received_audio o && received_video o
          then st p (set_interleaved_packets rest o)
                 (cs ++ [call_info_encoded_packet (data o) (packet e);
                         call_obs_free_encoder_packet (packet e)]) w
          else st p (set_interleaved_packets (e :: rest) o) cs w).
Proof.
  intros Hd Ht Hrej.
  destruct (da_insert_cons (interleaved_packets o)
              (insert_index (output_ts_us out0) (interleaved_packets o) 0)
              (set_input_ts_us (ts_us pkt) out0)) as (e & rest & Hbuf).
  exists e, rest. split; [exact Hbuf |].
  unfold interleave_packets. unfold bind at 1.
  rewrite prepare_audio_rejected by assumption.
  run. rewrite Hbuf.
  destruct (received_audio o && received_video o); run.
  - unfold send_interleaved. run. by rewrite <- app_assoc.
  - reflexivity.
Qed.

(** ** Readiness *)

Lemma producers_ready_false o requested :
  producers_ready o requested = false <-> missing_producer o requested.
Proof.
  unfold producers_ready, missing_producer.
  destruct (wants_video o requested), (wants_audio o requested),
    (wants_encoded o), (video_encoder o), (audio_encoder o), (video o),
    (audio o); simpl; intuition congruence.
Qed.

Ltac fold_flags o requested :=
  change (flag_set (flags (info o)) OBS_OUTPUT_ENCODED) with (wants_encoded o);
  change (flag_set (if requested =? 0 then flags (info o)
                    else Z.land requested (flags (info o))) OBS_OUTPUT_VIDEO)
    with (wants_video o requested);
  change (flag_set (if requested =? 0 then flags (info o)
                    else Z.land requested (flags (info o))) OBS_OUTPUT_AUDIO)
    with (wants_audio o requested).

Lemma can_begin_data_capture_st p o cs w requested :
  can_begin_data_capture (Some p) (wants_encoded o) (wants_video o requested)
    (wants_audio o requested) (st p o cs w) =
    Ok (producers_ready o requested, st p o cs w).
Proof.
  unfold can_begin_data_capture, producers_ready.
  destruct (wants_video o requested), (wants_audio o requested),
    (wants_encoded o); run;
    repeat match goal with
      | |- context [is_null ?x] => destruct x; run
      end; reflexivity.
Qed.

Lemma obs_output_can_begin_data_capture_st p o cs w requested :
  obs_output_can_begin_data_capture (Some p) requested (st p o cs w) =
    Ok (negb (active o) && producers_ready o requested, st p o cs w).
Proof.
  unfold obs_output_can_begin_data_capture, convert_flags. run.
  destruct (active o); run; [reflexivity |].
  fold_flags o requested. apply can_begin_data_capture_st.
Qed.

(** ** Hooking and unhooking *)

Ltac list_norm := rewrite <- ?app_assoc; cbn [app]; rewrite ?app_nil_r.

Lemma hook_data_capture_st p o cs w encoded has_video has_audio :
  hook_data_capture (Some p) encoded has_video has_audio (st p o cs w) =
    Ok (tt, st p (hooked encoded o)
              (cs ++ hook_calls (Some p) o encoded has_video has_audio) w).
Proof.
  unfold hook_data_capture, hook_calls, hooked, param_of, capture_param,
    get_video_conversion, get_audio_conversion, conversion_of.
  destruct encoded, has_video, has_audio; run;
    repeat match goal with
      | |- context [if ?b then _ else _] => destruct b; run
      end; list_norm; reflexivity.
Qed.

Lemma signal_start_st p o cs w code :
  signal_start (Some p) code (st p o cs w) =
    Ok (tt, st p o (cs ++ [start_signal (Some p) o code]) w).
Proof. unfold signal_start. run. reflexivity. Qed.

Lemma signal_stop_st p o cs w :
  signal_stop (Some p) (st p o cs w) =
    Ok (tt, st p o (cs ++ [stop_signal (Some p) o]) w).
Proof. unfold signal_stop. run. reflexivity. Qed.

Lemma bind_ok {A B} (m : M A) (k : A -> M B) w a w' :
  m w = Ok (a, w') -> bind m k w = k a w'.
Proof. intros H. unfold bind. by rewrite H. Qed.

Lemma obs_output_begin_data_capture_st p o cs w requested :
  obs_output_begin_data_capture (Some p) requested (st p o cs w) =
    if negb (active o) && producers_ready o requested
    then Ok (true,
             st p (set_active true (hooked (wants_encoded o) o))
               (cs ++ hook_calls (Some p) o (wants_encoded o)
                        (wants_video o requested) (wants_audio o requested)
                   ++ [start_signal (Some p) o OBS_OUTPUT_SUCCESS]) w)
    else Ok (false, st p o cs w).
Proof.
  unfold obs_output_begin_data_capture, convert_flags. run.
  destruct (active o); run; [reflexivity |].
  fold_flags o requested.
  rewrite (bind_ok _ _ _ _ _ (can_begin_data_capture_st p o cs w requested)).
  destruct (producers_ready o requested); run; [| reflexivity].
  rewrite (bind_ok _ _ _ _ _ (hook_data_capture_st p o cs w _ _ _)).
  run.
  rewrite (bind_ok _ _ _ _ _ (signal_start_st p _ _ w _)).
  unfold start_signal, hooked. destruct (wants_encoded o); simp_fields;
    list_norm; reflexivity.
Qed.

Lemma obs_output_end_data_capture_st p o cs w :
  obs_output_end_data_capture (Some p) (st p o cs w) =
    if active o
    then Ok (tt,
             st p (set_active false o)
               (cs ++ unhook_calls (Some p) o (wants_encoded o)
                        (wants_video o 0) (wants_audio o 0)
                   ++ [stop_signal (Some p) o]) w)
    else Ok (tt, st p o cs w).
Proof.
  unfold obs_output_end_data_capture, convert_flags. run.
  destruct (active o); run; [| reflexivity].
  change (0 =? 0) with true. cbv iota.
  change (flag_set (flags (info o)) OBS_OUTPUT_ENCODED) with (wants_encoded o).
  change (flag_set (flags (info o)) OBS_OUTPUT_VIDEO) with (wants_video o 0).
  change (flag_set (flags (info o)) OBS_OUTPUT_AUDIO) with (wants_audio o 0).
  unfold unhook_calls, param_of, capture_param, signal_stop, stop_signal.
  destruct (wants_encoded o), (wants_video o 0), (wants_audio o 0); run;
    list_norm; reflexivity.
Qed.

(** ** Activation *)

Section NoActivation.
Context (q : positive).

Lemma na_ret {A} (a : A) : no_activation q (ret a).
Proof. intros w a' w' o' [= <- <-] H1 H2. eauto. Qed.

Lemma na_fail {A} (f : fault) : no_activation q (@fail A f).
Proof. intros w a' w' o' [=]. Qed.

Lemma na_bind {A B} (m : M A) (k : A -> M B) :
  no_activation q m -> (forall a, no_activation q (k a)) ->
  no_activation q (bind m k).
Proof.
  intros Hm Hk w b w' o' Hrun Hlook Hact. unfold bind in Hrun.
  destruct (m w) as [[a w1]|] eqn:E; [| discriminate].
  destruct (Hk a w1 b w' o' Hrun Hlook Hact) as (o1 & H1 & H2).
  exact (Hm w a w1 o1 E H1 H2).
Qed.

Lemma na_deref output : no_activation q (deref output).
Proof.
  intros w a w' o' Hrun Hlook Hact. unfold deref in Hrun.
  destruct output as [p|]; [| discriminate].
  destruct (outputs w !! p); [| discriminate].
  injection Hrun as <- <-. eauto.
Qed.

Lemma na_get {A} output (f : obs_output -> A) : no_activation q (get output f).
Proof. apply na_bind; [apply na_deref | intros; apply na_ret]. Qed.

Lemma na_emit c : no_activation q (emit c).
Proof. intros w a w' o' [= <- <-] H1 H2. eauto. Qed.

Lemma na_emit_all cs : no_activation q (emit_all cs).
Proof.
  induction cs as [|c cs IH]; simpl; [apply na_ret |].
  apply na_bind; [apply na_emit | intros; exact IH].
Qed.

Lemma na_assign output f :
  output <> Some q \/ (forall o, active (f o) = true -> active o = true) ->
  no_activation q (assign output f).
Proof.
  intros Hside w a w' o' Hrun Hlook Hact. unfold assign in Hrun.
  destruct output as [p|]; [| discriminate].
  destruct (outputs w !! p) as [o|] eqn:E; [| discriminate].
  injection Hrun as <- <-. simpl in Hlook.
  destruct (decide (p = q)) as [-> | Hne].
  - rewrite lookup_insert_eq in Hlook. injection Hlook as <-.
    destruct Hside as [Hside | Hside]; [congruence | eauto].
  - rewrite lookup_insert_ne in Hlook by done. eauto.
Qed.

Lemma na_deref_encoder e : no_activation q (deref_encoder e).
Proof.
  intros w a w' o' Hrun Hlook Hact. unfold deref_encoder in Hrun.
  destruct e as [e|]; [| discriminate].
  destruct (encoders w !! e); [| discriminate].
  injection Hrun as <- <-. eauto.
Qed.

Lemma na_on_encoder e o f : no_activation q (on_encoder e o f).
Proof.
  intros w a w' o' [= <- <-] Hlook Hact.
  destruct e, o; simpl in Hlook; eauto.
Qed.

Lemma na_unregister output : no_activation q (unregister output).
Proof.
  intros w a w' o' [= <- <-] Hlook Hact.
  destruct output; simpl in Hlook; eauto.
Qed.

Lemma na_release output : no_activation q (release output).
Proof.
  intros w a w' o' [= <- <-] Hlook Hact.
  destruct output as [p|]; simpl in Hlook; [| eauto].
  destruct (decide (p = q)) as [-> | Hne].
  - by rewrite lookup_delete_eq in Hlook.
  - rewrite lookup_delete_ne in Hlook by done. eauto.
Qed.

Lemma na_convert_packet_dts pkt : no_activation q (convert_packet_dts pkt).
Proof.
  unfold convert_packet_dts.
  destruct (timebase_den pkt =? 0); [apply na_fail | apply na_ret].
Qed.

End NoActivation.

Ltac na_side :=
  first
    [ right; intros []; cbn; congruence
    | left; congruence ].

Ltac na_step :=
  lazymatch goal with
  | |- no_activation _ (ret _) => apply na_ret
  | |- no_activation _ (fail _) => apply na_fail
  | |- no_activation _ (bind _ _) => apply na_bind; [| intros]
  | |- no_activation _ (get _ _) => apply na_get
  | |- no_activation _ (deref _) => apply na_deref
  | |- no_activation _ (emit _) => apply na_emit
  | |- no_activation _ (emit_all _) => apply na_emit_all
  | |- no_activation _ (assign _ _) => apply na_assign; na_side
  | |- no_activation _ (deref_encoder _) => apply na_deref_encoder
  | |- no_activation _ (on_encoder _ _ _) => apply na_on_encoder
  | |- no_activation _ (unregister _) => apply na_unregister
  | |- no_activation _ (release _) => apply na_release
  | |- no_activation _ (convert_packet_dts _) => apply na_convert_packet_dts
  | |- no_activation _ (when ?b _) => destruct b; cbn [when]
  | |- no_activation _ (if ?b then _ else _) => destruct b
  | |- no_activation _ (match ?x with _ => _ end) => destruct x
  | |- no_activation _ (let '(_, _) := ?x in _) => destruct x
  end.

Ltac na_auto unfolds := unfolds; repeat na_step.

Lemma na_api (q : positive) (c : api) :
  (forall requested, c <> api_begin_data_capture (Some q) requested) ->
  no_activation q (run_api c).
Proof.
  intros Hc.
  destruct c; cbn [run_api]; unfold void, boolean, address;
    try solve
      [ na_auto ltac:(unfold obs_output_destroy, free_packets,
          obs_output_start, obs_output_stop, obs_output_active,
          obs_output_properties,
          obs_output_update, obs_output_get_settings, obs_output_canpause,
          obs_output_pause, obs_output_signalhandler, obs_output_prochandler,
          obs_output_set_media, obs_output_video, obs_output_audio,
          obs_output_remove_encoder, obs_output_set_video_encoder,
          obs_output_set_audio_encoder, obs_output_get_video_encoder,
          obs_output_get_audio_encoder, obs_output_set_video_conversion,
          obs_output_set_audio_conversion, obs_output_can_begin_data_capture,
          obs_output_end_data_capture, obs_output_signal_start_fail,
          param_of, signal_stop, signal_start,
          convert_flags, can_begin_data_capture, encoder_type_differs,
          obs_encoder_remove_output, obs_encoder_add_output) ].
  assert (output <> Some q) as Hne
    by (intros ->; exact (Hc requested eq_refl)).
  na_auto ltac:(unfold obs_output_begin_data_capture, convert_flags,
    can_begin_data_capture, hook_data_capture, param_of, signal_start,
    get_video_conversion, get_audio_conversion).
Qed.

Lemma na_interleave_packets (q : positive) data pkt out0 :
  no_activation q (interleave_packets data pkt out0).
Proof.
  na_auto ltac:(unfold interleave_packets, prepare_interleaved_packet,
    send_interleaved).
Qed.

(** * The interleaver, packet by packet *)

(** C1 (the code departs from the claim).  A packet the interleaver
    accepts, a video packet or an audio packet that is not before the first
    video timestamp, is prepared and duplicated, and that is all:
    [interleave_packets] enters its insert and release branch on the
    negated result of [prepare_interleaved_packet], so the prepared packet
    is not inserted into the pending buffer and nothing is released,
    whatever the two received flags are. *)
Theorem interleave_packets_accepted_not_buffered
    (w : world) (p : positive) (o : obs_output) (pkt : encoder_packet)
    (out0 : il_packet) :
  outputs w !! p = Some o ->
  timebase_den pkt <> 0 ->
  accepted o pkt = true ->
  let o' := match type pkt with
            | OBS_ENCODER_VIDEO => latch_video pkt o
            | OBS_ENCODER_AUDIO => latch_audio pkt o
            end in
  interleave_packets (Some p) pkt out0 w =
    Ok (tt, st p o' (calls w ++ [call_obs_duplicate_encoder_packet pkt]) w) /\
  interleaved_packets o' = interleaved_packets o.
Proof.
  intros Hw Hd Hacc o'. split.
  - rewrite (st_intro w p o Hw) at 1.
    by apply interleave_packets_accepted_st.
  - subst o'. unfold latch_video, latch_audio.
    destruct (type pkt), (received_video o), (received_audio o); reflexivity.
Qed.

(** A first video packet on a fresh output: both flags are false before
    the call, the buffer is empty before and after it. *)
Lemma interleave_packets_accepted_not_buffered_witness :
  exists w',
    interleave_packets (Some 1%positive) (video_packet 100 1000)
      (stale 5 OBS_ENCODER_AUDIO) (sample_world 7) = Ok (tt, w') /\
    interleaved_packets <$> outputs w' !! 1%positive = Some [] /\
    released (calls w') = [].
Proof.
  destruct (interleave_packets_accepted_not_buffered (sample_world 7)
              1%positive (sample_output 7) (video_packet 100 1000)
              (stale 5 OBS_ENCODER_AUDIO)) as [Hrun _].
  - reflexivity.
  - discriminate.
  - reflexivity.
  - eexists. split; [exact Hrun |]. split; reflexivity.
Defined.

(** C2 (the code departs from the claim).  An audio packet that arrives
    before any video packet, or before the first video timestamp, is not
    duplicated and latches nothing, but it is not dropped either: the
    local entry of the call, of which only [input_ts_us] has been written,
    is inserted into the pending buffer at the index its unwritten
    [output_ts_us] selects, and when both received flags are set the front
    of the buffer is handed to the sink. *)
Theorem interleave_packets_rejected_audio_buffered
    (w : world) (p : positive) (o : obs_output) (pkt : encoder_packet)
    (out0 : il_packet) :
  outputs w !! p = Some o ->
  timebase_den pkt <> 0 ->
  type pkt = OBS_ENCODER_AUDIO ->
  audio_rejected o pkt = true ->
  exists e rest,
    da_insert (interleaved_packets o)
      (insert_index (output_ts_us out0) (interleaved_packets o) 0)
      (set_input_ts_us (ts_us pkt) out0) = e :: rest /\
    interleave_packets (Some p) pkt out0 w =
      Ok (tt,
          if received_audio o && received_video o
          then st p (set_interleaved_packets rest o)
                 (calls w ++ [call_info_encoded_packet (data o) (packet e);
                              call_obs_free_encoder_packet (packet e)]) w
          else st p (set_interleaved_packets (e :: rest) o) (calls w) w).
Proof.
  intros Hw Hd Ht Hrej.
  destruct (interleave_packets_rejected_st p o (calls w) w pkt out0 Hd Ht Hrej)
    as (e & rest & Hbuf & Hrun).
  exists e, rest. split; [exact Hbuf |].
  rewrite <- (st_intro w p o Hw) in Hrun. exact Hrun.
Qed.

(** An audio packet on a fresh output, where no video has been received:
    the buffer holds one entry after the call. *)
Lemma interleave_packets_rejected_audio_buffered_witness :
  exists w',
    interleave_packets (Some 1%positive) (audio_packet 100 1000)
      (stale 5 OBS_ENCODER_AUDIO) (sample_world 7) = Ok (tt, w') /\
    length <$> (interleaved_packets <$> outputs w' !! 1%positive) = Some 1%nat.
Proof.
  destruct (interleave_packets_rejected_audio_buffered (sample_world 7)
              1%positive (sample_output 7) (audio_packet 100 1000)
              (stale 5 OBS_ENCODER_AUDIO)) as (e & rest & Hbuf & Hrun).
  - reflexivity.
  - discriminate.
  - reflexivity.
  - reflexivity.
  - eexists. split; [exact Hrun |].
    injection Hbuf as <- <-. reflexivity.
Defined.

(** * The interleaver, over a sequence of packets *)

(** Once both streams have been received, an audio packet that is turned
    away sends the local entry of its own call to the sink: the buffer is
    empty when it arrives, so the entry is inserted at the front and
    released at once. *)
Lemma feed_late_audio_releases_locals (j0 j1 j2 j3 : il_packet) :
  exists w',
    feed (Some 1%positive)
      [(video_packet 1 1, j0); (audio_packet 1 1, j1);
       (audio_packet 2 1000000, j2); (audio_packet 3 1000000, j3)]
      (sample_world 7) = Ok (tt, w') /\
    released (calls w') = [packet j2; packet j3].
Proof. eexists. split; [vm_compute; reflexivity | reflexivity]. Qed.


(** The same with a single audio packet that comes too early. *)
Lemma feed_rejected_audio_releases_local (j0 j1 j2 : il_packet) :
  exists w',
    feed (Some 1%positive)
      [(video_packet 10 1, j0); (audio_packet 10 1, j1);
       (audio_packet 5 1, j2)]
      (sample_world 7) = Ok (tt, w') /\
    released (calls w') = [packet j2].
Proof. eexists. split; [vm_compute; reflexivity | reflexivity]. Qed.

(** What [prepare_interleaved_packet] does for the first video packet is
    what the claim describes: the offset latched is its [dts], and the
    prepared packet has [dts] 0. *)
Lemma prepare_first_video_dts_zero (p : positive) (o : obs_output)
    (cs : list call) (w : world) (pkt : encoder_packet) (out0 : il_packet) :
  type pkt = OBS_ENCODER_VIDEO ->
  timebase_den pkt <> 0 ->
  received_video o = false ->
  exists out o',
    prepare_interleaved_packet (Some p) out0 pkt (st p o cs w) =
      Ok ((true, out),
          st p o' (cs ++ [call_obs_duplicate_encoder_packet pkt]) w) /\
    video_offset o' = dts pkt /\ dts (packet out) = 0.
Proof.
  intros Ht Hd Hrv. eexists _, _. split; [by apply prepare_video |].
  unfold latch_video. rewrite Hrv. split; [reflexivity |].
  cbn. by rewrite Z.sub_diag.
Qed.


(** * The insert block and well-behaved input *)

(** ** The pending buffer stays sorted *)

Lemma insert_index_shift ts l idx :
  insert_index ts l idx = (idx + insert_index ts l 0)%nat.
Proof.
  revert idx. induction l as [|c r IH]; intros idx; simpl; [lia |].
  destruct (ts <? output_ts_us c); [lia |].
  rewrite (IH (S idx)), (IH 1%nat). lia.
Qed.

Lemma da_insert_skip (c : il_packet) r x :
  (output_ts_us x <? output_ts_us c) = false ->
  da_insert (c :: r) (insert_index (output_ts_us x) (c :: r) 0) x =
    c :: da_insert r (insert_index (output_ts_us x) r 0) x.
Proof.
  intros H. simpl. rewrite H. rewrite insert_index_shift. reflexivity.
Qed.

Lemma da_insert_here (c : il_packet) r x :
  (output_ts_us x <? output_ts_us c) = true ->
  da_insert (c :: r) (insert_index (output_ts_us x) (c :: r) 0) x =
    x :: c :: r.
Proof. intros H. simpl. rewrite H. reflexivity. Qed.

Lemma nondecreasing_cons x l :
  nondecreasing (x :: l) = true <->
  (match l with [] => True | y :: _ => x <= y end) /\ nondecreasing l = true.
Proof.
  destruct l as [|y l]; simpl; [tauto |].
  rewrite andb_true_iff, Z.leb_le. tauto.
Qed.

Lemma da_insert_sorted l x :
  sorted_buffer l ->
  sorted_buffer (da_insert l (insert_index (output_ts_us x) l 0) x).
Proof.
  unfold sorted_buffer. induction l as [|c r IH]; intros Hs; [reflexivity |].
  destruct (output_ts_us x <? output_ts_us c) eqn:E.
  - rewrite da_insert_here by exact E. cbn [map].
    apply nondecreasing_cons. split; [| exact Hs].
    apply Z.ltb_lt in E. lia.
  - rewrite da_insert_skip by exact E. cbn [map] in *.
    apply nondecreasing_cons in Hs. destruct Hs as [Hhd Htl].
    apply nondecreasing_cons. split; [| by apply IH].
    apply Z.ltb_ge in E.
    destruct r as [|d r']; [simpl; exact E |].
    destruct (output_ts_us x <? output_ts_us d) eqn:E'.
    + rewrite da_insert_here by exact E'. simpl. exact E.
    + rewrite da_insert_skip by exact E'. simpl. exact Hhd.
Qed.

Lemma sorted_buffer_tail e rest : sorted_buffer (e :: rest) -> sorted_buffer rest.
Proof.
  unfold sorted_buffer. cbn [map]. intros H.
  apply nondecreasing_cons in H. tauto.
Qed.

(** Whatever a call inserts, it inserts at a position that keeps the
    buffer sorted, and releasing the front keeps it sorted too. *)
Lemma interleave_packets_keeps_sorted (w w' : world) (p : positive)
    (o : obs_output) (pkt : encoder_packet) (out0 : il_packet) :
  outputs w !! p = Some o ->
  sorted_buffer (interleaved_packets o) ->
  interleave_packets (Some p) pkt out0 w = Ok (tt, w') ->
  exists o', outputs w' !! p = Some o' /\
             sorted_buffer (interleaved_packets o').
Proof.
  intros Hw Hs Hrun. rewrite (st_intro w p o Hw) in Hrun.
  destruct (decide (timebase_den pkt = 0)) as [Hz | Hd].
  { unfold interleave_packets, prepare_interleaved_packet,
      convert_packet_dts, bind in Hrun.
    rewrite Hz in Hrun. discriminate. }
  destruct (accepted o pkt) eqn:Hacc.
  - rewrite interleave_packets_accepted_st in Hrun by assumption.
    injection Hrun as <-. eexists. split; [apply st_lookup |].
    unfold latch_video, latch_audio.
    destruct (type pkt), (received_video o), (received_audio o); exact Hs.
  - unfold accepted in Hacc. destruct (type pkt) eqn:Ht; [| discriminate].
    apply negb_false_iff in Hacc.
    destruct (interleave_packets_rejected_st p o (calls w) w pkt out0 Hd Ht
                Hacc) as (e & rest & Hbuf & Hrun').
    rewrite Hrun' in Hrun. injection Hrun as <-.
    pose proof (da_insert_sorted (interleaved_packets o)
                  (set_input_ts_us (ts_us pkt) out0) Hs) as Hs'.
    cbn [output_ts_us set_input_ts_us] in Hs'. rewrite Hbuf in Hs'.
    destruct (received_audio o && received_video o);
      (eexists; split; [apply st_lookup |]); cbn.
    + by eapply sorted_buffer_tail.
    + exact Hs'.
Qed.

(** ** Well-behaved input *)

Lemma int64_wrap_id z : - 2 ^ 63 <= z < 2 ^ 63 -> int64_wrap z = z.
Proof.
  intros H. unfold int64_wrap.
  rewrite Z.mod_small by lia. lia.
Qed.

Lemma quot_between (x d : Z) :
  0 < d -> Z.abs (x ÷ d) <= Z.abs x /\ (0 <= x -> 0 <= x ÷ d) /\
           (x <= 0 -> x ÷ d <= 0).
Proof.
  intros Hd.
  assert (forall y, 0 <= y -> 0 <= y ÷ d <= y) as Hpos.
  { intros y Hy. split; [apply Z.quot_pos; lia |].
    apply Z.quot_le_upper_bound; [lia | nia]. }
  destruct (Z_le_gt_dec 0 x) as [Hx | Hx].
  - specialize (Hpos x Hx). lia.
  - specialize (Hpos (- x) ltac:(lia)).
    rewrite Z.quot_opp_l in Hpos by lia. lia.
Qed.

Lemma ts_us_in_range pkt :
  0 < timebase_den pkt -> in_range pkt ->
  ts_us pkt = (dts pkt * MICROSECOND_DEN) ÷ timebase_den pkt.
Proof.
  intros Hd Hr. unfold ts_us, in_range in *.
  rewrite (int64_wrap_id (dts pkt * MICROSECOND_DEN)) by exact Hr.
  apply int64_wrap_id.
  pose proof (quot_between (dts pkt * MICROSECOND_DEN) (timebase_den pkt) Hd).
  lia.
Qed.

Lemma ts_us_mono a b den :
  0 < den -> timebase_den a = den -> timebase_den b = den ->
  in_range a -> in_range b -> dts a <= dts b -> ts_us a <= ts_us b.
Proof.
  intros Hd Ha Hb Hra Hrb Hle.
  rewrite !ts_us_in_range by (rewrite ?Ha, ?Hb; assumption).
  rewrite Ha, Hb. apply Z.quot_le_mono; [lia |].
  unfold MICROSECOND_DEN. lia.
Qed.

Lemma released_app cs1 cs2 :
  released (cs1 ++ cs2) = released cs1 ++ released cs2.
Proof.
  induction cs1 as [|c cs1 IH]; [reflexivity |].
  destruct c; simpl; rewrite ?IH; reflexivity.
Qed.

Lemma nondecreasing_head_le x l :
  nondecreasing (x :: l) = true ->
  Forall (fun y => x <= y) l /\ nondecreasing l = true.
Proof.
  revert x. induction l as [|y l IH]; intros x H; [by split |].
  apply nondecreasing_cons in H. destruct H as [Hxy Hl].
  split; [| exact Hl].
  destruct (IH y Hl) as [Hall _]. constructor; [exact Hxy |].
  eapply Forall_impl; [exact Hall |]. simpl. intros. lia.
Qed.

Lemma stream_dts_cons t pkt pkts :
  stream_dts t (pkt :: pkts) =
    if decide (type pkt = t) then dts pkt :: stream_dts t pkts
    else stream_dts t pkts.
Proof.
  unfold stream_dts. rewrite filter_cons.
  destruct (decide (type pkt = t)); reflexivity.
Qed.

Lemma stream_dts_Forall t (P : Z -> Prop) pkts :
  Forall P (stream_dts t pkts) ->
  Forall (fun a => type a = t -> P (dts a)) pkts.
Proof.
  induction pkts as [|a pkts IH]; intros H; [constructor |].
  rewrite stream_dts_cons in H.
  destruct (decide (type a = t)) as [Ht | Ht].
  - inversion H; subst. constructor; auto.
  - constructor; [tauto | auto].
Qed.

Lemma feed_releases_nothing_st (den : Z) (inputs : list (encoder_packet * il_packet)) :
  0 < den ->
  forall p o cs w,
    Forall (fun pkt => timebase_den pkt <> 0) (map fst inputs) ->
    Forall (well_behaved_audio den) (map fst inputs) ->
    nondecreasing (stream_dts OBS_ENCODER_AUDIO (map fst inputs)) = true ->
    audio_settled o (map fst inputs) ->
    exists o' cs',
      feed (Some p) inputs (st p o cs w) = Ok (tt, st p o' cs' w) /\
      released cs' = released cs.
Proof.
  intros Hden.
  induction inputs as [|[pkt out0] rest IH]; intros p o cs w Hnz Hwb Hsorted Hset.
  { eexists _, _. split; reflexivity. }
  cbn [map fst] in *.
  inversion Hnz as [|? ? Hd Hnz']; subst.
  inversion Hwb as [|? ? Hpkt Hwb']; subst.
  rewrite stream_dts_cons in Hsorted.
  cbn [feed]. unfold bind at 1.
  destruct (type pkt) eqn:Ht.
  - (* audio *)
    destruct (decide (OBS_ENCODER_AUDIO = OBS_ENCODER_AUDIO)) as [_ | ?];
      [| done].
    apply nondecreasing_head_le in Hsorted. destruct Hsorted as [Hhead Hsorted].
    destruct (Hpkt Ht) as [Hpden Hprange].
    destruct (audio_rejected o pkt) eqn:Hrej.
    + (* turned away: only before any audio was accepted *)
      assert (received_audio o = false) as Hra.
      { destruct (received_audio o) eqn:Hra; [| reflexivity].
        destruct (Hset Hra) as [Hrv Hall].
        inversion Hall as [|? ? Hfirst _]; subst.
        unfold audio_rejected in Hrej. rewrite Hrv in Hrej.
        specialize (Hfirst Ht). apply Z.ltb_lt in Hrej. lia. }
      destruct (interleave_packets_rejected_st p o cs w pkt out0 Hd Ht Hrej)
        as (e & rest' & Hbuf & Hrun).
      rewrite Hrun, Hra. cbn [andb].
      apply IH; try assumption.
      intros Hra'. cbn in Hra'. congruence.
    + (* accepted *)
      rewrite interleave_packets_accepted_st
        by (try assumption; unfold accepted; by rewrite Ht, Hrej).
      rewrite Ht.
      edestruct (IH p (latch_audio pkt o)
                   (cs ++ [call_obs_duplicate_encoder_packet pkt]) w)
        as (o' & cs' & Hrun & Hrel); try assumption.
      * intros _. unfold audio_rejected in Hrej.
        apply orb_false_iff in Hrej. destruct Hrej as [Hrv Hts].
        apply negb_false_iff in Hrv. apply Z.ltb_ge in Hts.
        assert (received_video (latch_audio pkt o) = true /\
                first_video_ts (latch_audio pkt o) = first_video_ts o)
          as [-> ->]
          by (unfold latch_audio; destruct (received_audio o); by split).
        split; [reflexivity |].
        apply stream_dts_Forall in Hhead.
        rewrite Forall_forall in Hhead, Hwb'. apply Forall_forall.
        intros a Ha Hta.
        destruct (Hwb' a Ha Hta) as [Haden Harange].
        pose proof (ts_us_mono pkt a den Hden Hpden Haden Hprange Harange
                      (Hhead a Ha Hta)).
        lia.
      * exists o', cs'. split; [exact Hrun |].
        rewrite Hrel, released_app. cbn. by rewrite app_nil_r.
  - (* video *)
    destruct (decide (OBS_ENCODER_VIDEO = OBS_ENCODER_AUDIO)) as [? | _];
      [done |].
    rewrite interleave_packets_accepted_st
      by (try assumption; unfold accepted; by rewrite Ht).
    rewrite Ht.
    edestruct (IH p (latch_video pkt o)
                 (cs ++ [call_obs_duplicate_encoder_packet pkt]) w)
      as (o' & cs' & Hrun & Hrel); try assumption.
    + intros Hra.
      assert (received_audio o = true) as Hra'
        by (unfold latch_video in Hra; destruct (received_video o); exact Hra).
      destruct (Hset Hra') as [Hrv Hall].
      unfold latch_video. rewrite Hrv. split; [exact Hrv |].
      by inversion Hall.
    + exists o', cs'. split; [exact Hrun |].
      rewrite Hrel, released_app. cbn. by rewrite app_nil_r.
Qed.

(** On well-behaved input the sink receives nothing at all: the accepted
    packets are not buffered, and the audio packets that are turned away
    come before both flags are set. *)
Lemma feed_releases_nothing (den : Z) (w : world) (p : positive)
    (o : obs_output) (inputs : list (encoder_packet * il_packet)) :
  outputs w !! p = Some o ->
  received_audio o = false ->
  0 < den ->
  Forall (fun pkt => timebase_den pkt <> 0) (map fst inputs) ->
  Forall (well_behaved_audio den) (map fst inputs) ->
  nondecreasing (stream_dts OBS_ENCODER_AUDIO (map fst inputs)) = true ->
  exists w',
    feed (Some p) inputs w = Ok (tt, w') /\
    released (calls w') = released (calls w).
Proof.
  intros Hw Hra Hden Hnz Hwb Hsorted.
  destruct (feed_releases_nothing_st den inputs Hden p o (calls w) w Hnz Hwb
              Hsorted) as (o' & cs' & Hrun & Hrel).
  { intros Hra'. congruence. }
  rewrite <- (st_intro w p o Hw) in Hrun. eexists. split; [exact Hrun |].
  exact Hrel.
Qed.

(** * Readiness and the capture state machine *)

(** C5.  On a null handle [obs_output_can_begin_data_capture] answers
    false.  On a live output it changes nothing and answers false exactly
    when the output is active already or a requested medium of the type
    has no producer: no encoder bound in encoded mode, no raw pipeline
    otherwise, the requested media being those of the type for an empty
    request and those both requested and declared by the type otherwise. *)
Theorem obs_output_can_begin_data_capture_spec
    (w : world) (output : pointer) (requested : Z) :
  handle_ok w output ->
  exists ready,
    obs_output_can_begin_data_capture output requested w = Ok (ready, w) /\
    (ready = false <->
       match pointee w output with
       | None => True
       | Some o => active o = true \/ missing_producer o requested
       end).
Proof.
  intros Hok. destruct output as [p|]; simpl in *.
  - destruct Hok as [o Hw]. rewrite Hw.
    exists (negb (active o) && producers_ready o requested). split.
    + pose proof (obs_output_can_begin_data_capture_st p o (calls w) w
                    requested) as Hrun.
      by rewrite <- (st_intro w p o Hw) in Hrun.
    + rewrite <- producers_ready_false.
      destruct (active o), (producers_ready o requested); simpl;
        intuition congruence.
  - exists false. split; [reflexivity | tauto].
Qed.

(** The sample output is ready for a full request; with its video encoder
    unbound it is not. *)
Lemma obs_output_can_begin_data_capture_spec_witness :
  exists ready,
    obs_output_can_begin_data_capture (Some 1%positive) 0 (sample_world 7) =
      Ok (ready, sample_world 7) /\
    (ready = false <->
       match pointee (sample_world 7) (Some 1%positive) with
       | None => True
       | Some o => active o = true \/ missing_producer o 0
       end).
Proof.
  apply (obs_output_can_begin_data_capture_spec (sample_world 7)
           (Some 1%positive) 0).
  simpl. eexists. reflexivity.
Defined.

(** Only [obs_output_begin_data_capture], on that very output and with its
    guard satisfied, takes an output from inactive to active. *)
Lemma activation_only_by_begin (e : event) (w1 w2 : world) (q : positive)
    (o1 o2 : obs_output) :
  run_event e w1 = Ok (tt, w2) ->
  outputs w1 !! q = Some o1 -> active o1 = false ->
  outputs w2 !! q = Some o2 -> active o2 = true ->
  exists requested,
    e = ev_api (api_begin_data_capture (Some q) requested) /\
    obs_output_can_begin_data_capture (Some q) requested w1 = Ok (true, w1).
Proof.
  intros Hrun H1 Hin H2 Hact.
  assert (forall m : M unit, no_activation q m -> m w1 = Ok (tt, w2) -> False)
    as Hno.
  { intros m Hm Hm'. destruct (Hm w1 tt w2 o2 Hm' H2 Hact) as (o & Ho & Ha).
    congruence. }
  destruct e as [c | data pkt out0]; cbn [run_event] in Hrun.
  - assert ((exists requested,
               c = api_begin_data_capture (Some q) requested) \/
            (forall requested,
               c <> api_begin_data_capture (Some q) requested))
      as [[requested ->] | Hother].
    { destruct c; try (right; intros; discriminate).
      destruct (decide (output = Some q)) as [-> | Hne]; [left; eauto |].
      right. congruence. }
    + exists requested. split; [reflexivity |].
      cbn [run_api] in Hrun. unfold boolean, bind in Hrun.
      pose proof (obs_output_begin_data_capture_st q o1 (calls w1) w1
                    requested) as Hbegin.
      pose proof (obs_output_can_begin_data_capture_st q o1 (calls w1) w1
                    requested) as Hcan.
      rewrite <- (st_intro w1 q o1 H1) in Hbegin, Hcan.
      rewrite Hcan. rewrite Hbegin in Hrun.
      destruct (negb (active o1) && producers_ready o1 requested);
        [reflexivity |].
      injection Hrun as <-. congruence.
    + exfalso. apply (Hno (_ <- run_api c ;; ret tt)); [| exact Hrun].
      apply na_bind; [by apply na_api | intros; apply na_ret].
  - exfalso. exact (Hno _ (na_interleave_packets q data pkt out0) Hrun).
Qed.

(** C6.  [obs_output_begin_data_capture] is guarded by the readiness
    check.  Where the check fails it returns false and the world is what it
    was: no field of the output written, no producer hooked, nothing
    signalled.  Where it succeeds it hooks the producers, sets [active],
    signals [start] with the success code and returns true.  And no other
    function of the output core, nor the interleaver, takes an output from
    inactive to active. *)
Theorem obs_output_begin_data_capture_spec
    (w : world) (output : pointer) (requested : Z) :
  handle_ok w output ->
  (exists ready,
     obs_output_can_begin_data_capture output requested w = Ok (ready, w) /\
     if ready
     then exists p o,
            output = Some p /\ outputs w !! p = Some o /\
            obs_output_begin_data_capture output requested w =
              Ok (true,
                  st p (set_active true (hooked (wants_encoded o) o))
                    (calls w
                       ++ hook_calls output o (wants_encoded o)
                            (wants_video o requested)
                            (wants_audio o requested)
                       ++ [start_signal output o OBS_OUTPUT_SUCCESS]) w)
     else obs_output_begin_data_capture output requested w = Ok (false, w)) /\
  (forall e w1 w2 q o1 o2,
     run_event e w1 = Ok (tt, w2) ->
     outputs w1 !! q = Some o1 -> active o1 = false ->
     outputs w2 !! q = Some o2 -> active o2 = true ->
     exists requested',
       e = ev_api (api_begin_data_capture (Some q) requested') /\
       obs_output_can_begin_data_capture (Some q) requested' w1 =
         Ok (true, w1)).
Proof.
  intros Hok. split; [| apply activation_only_by_begin].
  destruct output as [p|]; simpl in *.
  - destruct Hok as [o Hw].
    pose proof (obs_output_begin_data_capture_st p o (calls w) w requested)
      as Hbegin.
    pose proof (obs_output_can_begin_data_capture_st p o (calls w) w
                  requested) as Hcan.
    rewrite <- (st_intro w p o Hw) in Hbegin, Hcan.
    exists (negb (active o) && producers_ready o requested).
    split; [exact Hcan |].
    destruct (negb (active o) && producers_ready o requested); eauto.
  - exists false. split; reflexivity.
Qed.

(** The sample output, of an encoded type with both media and both
    encoders bound: the capture begins, both encoders are started with the
    interleaver and the output as context, and [start] is signalled with
    code 0. *)
Lemma obs_output_begin_data_capture_spec_witness :
  exists w',
    obs_output_begin_data_capture (Some 1%positive) 0 (sample_world 7) =
      Ok (true, w') /\
    active <$> outputs w' !! 1%positive = Some true /\
    calls w' =
      [call_obs_encoder_start (Some 10%positive) cb_interleave_packets
         (Some 1%positive);
       call_obs_encoder_start (Some 11%positive) cb_interleave_packets
         (Some 1%positive);
       call_signal_handler_signal (Some 52%positive) "start"
         [("code"%string, cd_int 0);
          ("output"%string, cd_ptr (Some 1%positive))]].
Proof.
  destruct (obs_output_begin_data_capture_spec (sample_world 7)
              (Some 1%positive) 0) as [(ready & Hcan & Hbegin) _].
  - simpl. eexists. reflexivity.
  - vm_compute in Hcan. injection Hcan as <-.
    destruct Hbegin as (p & o & Hp & Ho & Hrun).
    injection Hp as <-. vm_compute in Ho. injection Ho as <-.
    eexists. split; [exact Hrun |]. split; reflexivity.
Defined.

(** C7 (the code departs from the claim).  A successful
    [obs_output_begin_data_capture] leaves [received_audio] as it finds it:
    [hook_data_capture] assigns false to [received_video] twice and never
    to [received_audio]. *)
Theorem obs_output_begin_data_capture_keeps_received_audio
    (w w' : world) (p : positive) (o : obs_output) (requested : Z) :
  outputs w !! p = Some o ->
  obs_output_begin_data_capture (Some p) requested w = Ok (true, w') ->
  exists o', outputs w' !! p = Some o' /\
             received_audio o' = received_audio o.
Proof.
  intros Hw Hrun.
  pose proof (obs_output_begin_data_capture_st p o (calls w) w requested)
    as Hbegin.
  rewrite <- (st_intro w p o Hw) in Hbegin. rewrite Hbegin in Hrun.
  destruct (negb (active o) && producers_ready o requested);
    [| discriminate].
  injection Hrun as <-. eexists. split; [apply st_lookup |].
  unfold hooked. destruct (wants_encoded o); reflexivity.
Qed.

(** A second capture on an output whose first capture accepted an audio
    packet: the flag is still set when the new capture has begun. *)
Lemma obs_output_begin_data_capture_keeps_received_audio_witness :
  exists w' o',
    obs_output_begin_data_capture (Some 1%positive) 0 used_world =
      Ok (true, w') /\
    outputs w' !! 1%positive = Some o' /\
    received_audio o' = true /\ received_video o' = false.
Proof.
  destruct (obs_output_begin_data_capture (Some 1%positive) 0 used_world)
    as [[b w']|] eqn:Hrun; [| vm_compute in Hrun; discriminate].
  assert (b = true) as -> by (vm_compute in Hrun; congruence).
  destruct (outputs used_world !! 1%positive) as [o|] eqn:Ho;
    [| vm_compute in Ho; discriminate].
  destruct (obs_output_begin_data_capture_keeps_received_audio used_world w'
              1%positive o 0 Ho Hrun) as (o' & Ho' & Hra).
  exists w', o'. split; [reflexivity |]. split; [exact Ho' |].
  vm_compute in Ho. injection Ho as <-.
  vm_compute in Hrun. injection Hrun as <-.
  vm_compute in Ho'. injection Ho' as <-.
  split; reflexivity.
Defined.

(** C8.  [obs_output_end_data_capture] does nothing on a null handle and
    on an inactive output.  On an active output it decodes the flag word
    of the type itself (the request is 0), so that video and audio are
    unhooked whenever the type declares them, whatever was requested when
    the capture began; then it clears [active] and signals [stop]. *)
Theorem obs_output_end_data_capture_spec (w : world) (output : pointer) :
  handle_ok w output ->
  match output, pointee w output with
  | Some p, Some o =>
      if active o
      then obs_output_end_data_capture output w =
             Ok (tt,
                 st p (set_active false o)
                   (calls w
                      ++ unhook_calls output o
                           (flag_set (flags (info o)) OBS_OUTPUT_ENCODED)
                           (flag_set (flags (info o)) OBS_OUTPUT_VIDEO)
                           (flag_set (flags (info o)) OBS_OUTPUT_AUDIO)
                      ++ [stop_signal output o]) w)
      else obs_output_end_data_capture output w = Ok (tt, w)
  | _, _ => obs_output_end_data_capture output w = Ok (tt, w)
  end.
Proof.
  intros Hok. destruct output as [p|]; simpl in *; [| reflexivity].
  destruct Hok as [o Hw]. rewrite Hw.
  pose proof (obs_output_end_data_capture_st p o (calls w) w) as Hend.
  rewrite <- (st_intro w p o Hw) in Hend.
  destruct (active o); exact Hend.
Qed.

(** A capture begun for video alone on a type that declares both media:
    one encoder was started, with the hook of the type; ending the capture
    stops both encoders, with the interleaver. *)
Lemma obs_output_end_data_capture_spec_witness :
  calls video_only_world =
    [call_obs_encoder_start (Some 10%positive) cb_encoded_packet
       (Some 50%positive);
     call_signal_handler_signal (Some 52%positive) "start"
       [("code"%string, cd_int 0);
        ("output"%string, cd_ptr (Some 1%positive))]] /\
  exists w',
    obs_output_end_data_capture (Some 1%positive) video_only_world =
      Ok (tt, w') /\
    active <$> outputs w' !! 1%positive = Some false /\
    calls w' =
      calls video_only_world ++
      [call_obs_encoder_stop (Some 10%positive) cb_interleave_packets
         (Some 1%positive);
       call_obs_encoder_stop (Some 11%positive) cb_interleave_packets
         (Some 1%positive);
       call_signal_handler_signal (Some 52%positive) "stop"
         [("output"%string, cd_ptr (Some 1%positive))]].
Proof.
  split; [reflexivity |].
  pose proof (obs_output_end_data_capture_spec video_only_world
                (Some 1%positive)) as Hend.
  cbn [pointee] in Hend.
  destruct (outputs video_only_world !! 1%positive) as [o|] eqn:Ho;
    [| vm_compute in Ho; discriminate].
  vm_compute in Ho. injection Ho as <-.
  cbn [active] in Hend.
  eexists. split; [apply Hend; simpl; eexists; reflexivity |].
  split; reflexivity.
Defined.

(** * Encoder binding *)

Lemma deref_encoder_st e x p o cs w :
  encoders w !! e = Some x ->
  deref_encoder (Some e) (st p o cs w) = Ok (x, st p o cs w).
Proof. intros H. unfold deref_encoder. simpl. by rewrite H. Qed.

Lemma on_encoder_st e f p o cs w :
  on_encoder (Some e) (Some p) f (st p o cs w) =
    Ok (tt, st p o cs (with_encoders (alter (f p) e (encoders w)) w)).
Proof. reflexivity. Qed.

(** C9 (the code departs from the claim).  Rebinding the video slot of an
    output from one encoder to another calls the encoder-side removal and
    addition on the new encoder, both times: the old encoder is never told.
    The new encoder holds the output in its set of outputs, and so does
    the old one still, to which the output no longer refers. *)
Theorem obs_output_set_video_encoder_keeps_old_link
    (w : world) (p : positive) (o : obs_output)
    (e_old e_new : positive) (x_old x_new : obs_encoder) :
  outputs w !! p = Some o ->
  video_encoder o = Some e_old ->
  encoders w !! e_old = Some x_old ->
  p ∈ enc_outputs x_old ->
  e_new <> e_old ->
  encoders w !! e_new = Some x_new ->
  enc_type x_new = OBS_ENCODER_VIDEO ->
  exists w' o' x_old' x_new',
    obs_output_set_video_encoder (Some p) (Some e_new) w = Ok (tt, w') /\
    outputs w' !! p = Some o' /\ video_encoder o' = Some e_new /\
    encoders w' !! e_new = Some x_new' /\ p ∈ enc_outputs x_new' /\
    encoders w' !! e_old = Some x_old' /\ p ∈ enc_outputs x_old' /\
    calls w' =
      calls w ++ [call_obs_encoder_remove_output (Some e_new) (Some p);
                  call_obs_encoder_add_output (Some e_new) (Some p)].
Proof.
  intros Hw Hold Hxold Hin Hne Hxnew Htype.
  eexists _, _, x_old, (bind_to p (unbind p x_new)).
  split.
  - rewrite (st_intro w p o Hw) at 1.
    unfold obs_output_set_video_encoder, encoder_type_differs,
      obs_encoder_remove_output, obs_encoder_add_output.
    run. rewrite Hold.
    rewrite bool_decide_eq_false_2 by congruence.
    run. rewrite (bind_ok _ _ _ _ _ (deref_encoder_st _ _ _ _ _ _ Hxnew)).
    run. rewrite Htype. rewrite bool_decide_eq_true_2 by reflexivity.
    run. unfold bind at 1. rewrite on_encoder_st.
    run. unfold bind at 1. rewrite on_encoder_st.
    run. reflexivity.
  - split; [apply st_lookup |]. split; [reflexivity |].
    split; [cbn; by rewrite !lookup_alter_eq, Hxnew |].
    split; [cbn; set_solver |].
    split; [| split; [exact Hin | by rewrite <- app_assoc]].
    cbn. by rewrite !lookup_alter_ne.
Qed.

(** The sample output is bound to the video encoder at 10; it is rebound
    to the one at 12. *)
Lemma obs_output_set_video_encoder_keeps_old_link_witness :
  exists w' o' x_old' x_new',
    obs_output_set_video_encoder (Some 1%positive) (Some 12%positive)
      (sample_world 7) = Ok (tt, w') /\
    outputs w' !! 1%positive = Some o' /\
    video_encoder o' = Some 12%positive /\
    encoders w' !! 12%positive = Some x_new' /\
    1%positive ∈ enc_outputs x_new' /\
    encoders w' !! 10%positive = Some x_old' /\
    1%positive ∈ enc_outputs x_old' /\
    calls w' =
      calls (sample_world 7) ++
      [call_obs_encoder_remove_output (Some 12%positive) (Some 1%positive);
       call_obs_encoder_add_output (Some 12%positive) (Some 1%positive)].
Proof.
  apply (obs_output_set_video_encoder_keeps_old_link (sample_world 7)
           1%positive (sample_output 7) 10%positive 12%positive
           {| enc_type := OBS_ENCODER_VIDEO; enc_outputs := {[ 1%positive ]} |}
           {| enc_type := OBS_ENCODER_VIDEO; enc_outputs := ∅ |}).
  - reflexivity.
  - reflexivity.
  - reflexivity.
  - cbn. set_solver.
  - discriminate.
  - reflexivity.
  - reflexivity.
Defined.

(** The same one step later in the file: the audio slot. *)
Lemma obs_output_set_audio_encoder_keeps_old_link
    (w : world) (p : positive) (o : obs_output)
    (e_old e_new : positive) (x_old x_new : obs_encoder) :
  outputs w !! p = Some o ->
  audio_encoder o = Some e_old ->
  encoders w !! e_old = Some x_old ->
  e_new <> e_old ->
  encoders w !! e_new = Some x_new ->
  enc_type x_new = OBS_ENCODER_AUDIO ->
  exists w' o',
    obs_output_set_audio_encoder (Some p) (Some e_new) w = Ok (tt, w') /\
    outputs w' !! p = Some o' /\ audio_encoder o' = Some e_new /\
    encoders w' !! e_old = Some x_old /\
    calls w' =
      calls w ++ [call_obs_encoder_remove_output (Some e_new) (Some p);
                  call_obs_encoder_add_output (Some e_new) (Some p)].
Proof.
  intros Hw Hold Hxold Hne Hxnew Htype.
  eexists _, _.
  split.
  - rewrite (st_intro w p o Hw) at 1.
    unfold obs_output_set_audio_encoder, encoder_type_differs,
      obs_encoder_remove_output, obs_encoder_add_output.
    run. rewrite Hold.
    rewrite bool_decide_eq_false_2 by congruence.
    run. rewrite (bind_ok _ _ _ _ _ (deref_encoder_st _ _ _ _ _ _ Hxnew)).
    run. rewrite Htype. rewrite bool_decide_eq_true_2 by reflexivity.
    run. unfold bind at 1. rewrite on_encoder_st.
    run. unfold bind at 1. rewrite on_encoder_st.
    run. reflexivity.
  - split; [apply st_lookup |]. split; [reflexivity |].
    split; [| by rewrite <- app_assoc].
    cbn. by rewrite !lookup_alter_ne.
Qed.

(** Unbinding through the setter: the slot is cleared, and no encoder is
    told. *)
Lemma obs_output_set_video_encoder_null_keeps_old_link
    (w : world) (p : positive) (o : obs_output) (e_old : positive) :
  outputs w !! p = Some o ->
  video_encoder o = Some e_old ->
  obs_output_set_video_encoder (Some p) None w =
    Ok (tt, st p (set_video_encoder None o)
              (calls w ++ [call_obs_encoder_remove_output None (Some p);
                           call_obs_encoder_add_output None (Some p)]) w).
Proof.
  intros Hw Hold. rewrite (st_intro w p o Hw) at 1.
  unfold obs_output_set_video_encoder, encoder_type_differs,
    obs_encoder_remove_output, obs_encoder_add_output.
  run. rewrite Hold. rewrite bool_decide_eq_false_2 by congruence.
  run. unfold bind at 1. cbn [on_encoder]. run.
  unfold bind at 1. cbn [on_encoder]. run.
  by rewrite <- app_assoc.
Qed.

(** The early returns of the setter are as described: a null handle, the
    encoder already in the slot, an encoder of the other media type. *)
Lemma obs_output_set_video_encoder_early_returns
    (w : world) (p : positive) (o : obs_output) :
  outputs w !! p = Some o ->
  (forall encoder, obs_output_set_video_encoder None encoder w = Ok (tt, w)) /\
  obs_output_set_video_encoder (Some p) (video_encoder o) w = Ok (tt, w) /\
  (forall e x,
     video_encoder o <> Some e -> encoders w !! e = Some x ->
     enc_type x = OBS_ENCODER_AUDIO ->
     obs_output_set_video_encoder (Some p) (Some e) w = Ok (tt, w)).
Proof.
  intros Hw. split; [reflexivity |]. split.
  - rewrite (st_intro w p o Hw) at 1 2.
    unfold obs_output_set_video_encoder. run.
    rewrite bool_decide_eq_true_2 by reflexivity. reflexivity.
  - intros e x Hne Hx Htype.
    rewrite (st_intro w p o Hw) at 1 2.
    unfold obs_output_set_video_encoder, encoder_type_differs. run.
    rewrite bool_decide_eq_false_2 by exact Hne.
    run. rewrite (bind_ok _ _ _ _ _ (deref_encoder_st _ _ _ _ _ _ Hx)).
    run. rewrite Htype. rewrite bool_decide_eq_false_2 by discriminate.
    reflexivity.
Qed.

(** * Null handles *)

(** C10 (the code departs from the claim).
    [obs_output_signal_start_fail] passes its handle to [signal_start]
    unchecked, and [signal_start] reads [output->signals]: on a null handle
    the call dereferences it.  Every other public function returns on a
    null handle, with no result, [false] or [NULL], and leaves the world as
    it is. *)
Theorem obs_output_signal_start_fail_null_dereference :
  (forall (w : world) (code : Z),
     obs_output_signal_start_fail None code w = Fault NullDereference) /\
  (forall (c : api) (w : world),
     handle_of c = None ->
     (forall code, c <> api_signal_start_fail None code) ->
     exists r, run_api c w = Ok (r, w) /\ null_result r).
Proof.
  split; [reflexivity |].
  intros c w Hnull Hother. unfold null_result.
  destruct c; cbn [handle_of] in Hnull; subst;
    try (eexists; split; [reflexivity | tauto]).
  - destruct c; eexists; (split; [reflexivity | tauto]).
  - destruct c; eexists; (split; [reflexivity | tauto]).
  - exfalso. by eapply Hother.
Qed.

(** * More on the interleaver *)

(** Every call on a live output with a non-zero denominator returns, and
    what it does to the output and to the record of calls is one of three
    things. *)
Lemma interleave_packets_cases p o cs w pkt out0 :
  timebase_den pkt <> 0 ->
  exists o' cs',
    interleave_packets (Some p) pkt out0 (st p o cs w) =
      Ok (tt, st p o' cs' w) /\
    ((accepted o pkt = true /\
      o' = match type pkt with
           | OBS_ENCODER_VIDEO => latch_video pkt o
           | OBS_ENCODER_AUDIO => latch_audio pkt o
           end /\
      cs' = cs ++ [call_obs_duplicate_encoder_packet pkt]) \/
     (accepted o pkt = false /\
      exists e rest,
        da_insert (interleaved_packets o)
          (insert_index (output_ts_us out0) (interleaved_packets o) 0)
          (set_input_ts_us (ts_us pkt) out0) = e :: rest /\
        ((received_audio o && received_video o = true /\
          o' = set_interleaved_packets rest o /\
          cs' = cs ++ [call_info_encoded_packet (data o) (packet e);
                       call_obs_free_encoder_packet (packet e)]) \/
         (received_audio o && received_video o = false /\
          o' = set_interleaved_packets (e :: rest) o /\ cs' = cs)))).
Proof.
  intros Hd. destruct (accepted o pkt) eqn:Hacc.
  - eexists _, _. split; [by apply interleave_packets_accepted_st |].
    left. done.
  - assert (type pkt = OBS_ENCODER_AUDIO /\ audio_rejected o pkt = true)
      as [Ht Hrej].
    { unfold accepted in Hacc. destruct (type pkt); [| discriminate].
      split; [reflexivity |]. by apply negb_false_iff. }
    destruct (interleave_packets_rejected_st p o cs w pkt out0 Hd Ht Hrej)
      as (e & rest & Hbuf & Hrun).
    destruct (received_audio o && received_video o) eqn:Hboth;
      (eexists _, _; split; [exact Hrun |]); right;
      (split; [reflexivity |]); exists e, rest; (split; [exact Hbuf |]).
    + left. done.
    + right. done.
Qed.

Lemma da_insert_length {A} (l : list A) i x :
  (i <= length l)%nat -> length (da_insert l i x) = S (length l).
Proof.
  intros H. unfold da_insert.
  rewrite length_app. cbn [length]. rewrite length_take, length_drop. lia.
Qed.

Lemma insert_index_le ts l : (insert_index ts l 0 <= length l)%nat.
Proof.
  induction l as [|c r IH]; simpl; [lia |].
  destruct (ts <? output_ts_us c); [lia |].
  rewrite insert_index_shift. lia.
Qed.

(** X1.  One call hands at most one packet to the sink, and the pending buffer
    never gets shorter: it keeps its length, or grows by one entry. *)
Theorem interleave_packets_one_in_one_out
    (w w' : world) (p : positive) (o : obs_output) (pkt : encoder_packet)
    (out0 : il_packet) :
  outputs w !! p = Some o ->
  interleave_packets (Some p) pkt out0 w = Ok (tt, w') ->
  exists o',
    outputs w' !! p = Some o' /\
    (length (released (calls w')) <= S (length (released (calls w))))%nat /\
    (length (interleaved_packets o) <= length (interleaved_packets o')
       <= S (length (interleaved_packets o)))%nat.
Proof.
  intros Hw Hrun. rewrite (st_intro w p o Hw) in Hrun.
  destruct (decide (timebase_den pkt = 0)) as [Hz | Hd].
  { unfold interleave_packets, prepare_interleaved_packet,
      convert_packet_dts, bind in Hrun.
    rewrite Hz in Hrun. discriminate. }
  destruct (interleave_packets_cases p o (calls w) w pkt out0 Hd)
    as (o' & cs' & Hrun' & Hcases).
  rewrite Hrun' in Hrun. injection Hrun as <-.
  exists o'. split; [apply st_lookup |]. cbn [calls st].
  destruct Hcases as [(_ & -> & ->) | (_ & e & rest & Hbuf & Hcases)].
  - rewrite released_app. cbn. rewrite app_nil_r. split; [lia |].
    unfold latch_video, latch_audio.
    destruct (type pkt), (received_video o), (received_audio o); cbn; lia.
  - pose proof (da_insert_length (interleaved_packets o)
                  (insert_index (output_ts_us out0) (interleaved_packets o) 0)
                  (set_input_ts_us (ts_us pkt) out0)
                  (insert_index_le _ _)) as Hlen.
    rewrite Hbuf in Hlen. cbn [length] in Hlen.
    destruct Hcases as [(_ & -> & ->) | (_ & -> & ->)]; cbn.
    + rewrite released_app. cbn. rewrite length_app. cbn. lia.
    + lia.
Qed.

Lemma interleave_packets_one_in_one_out_witness :
  exists o',
    outputs (exec (interleave_packets (Some 1%positive) (audio_packet 5 1)
                     (stale 7 OBS_ENCODER_VIDEO)) flowing_world)
      !! 1%positive = Some o' /\
    (length (released
               (calls (exec (interleave_packets (Some 1%positive)
                               (audio_packet 5 1) (stale 7 OBS_ENCODER_VIDEO))
                         flowing_world)))
     <= S (length (released (calls flowing_world))))%nat /\
    (length (interleaved_packets (output_at flowing_world 1))
       <= length (interleaved_packets o')
       <= S (length (interleaved_packets (output_at flowing_world 1))))%nat.
Proof.
  apply (interleave_packets_one_in_one_out flowing_world _ 1%positive
           (output_at flowing_world 1)
           (audio_packet 5 1) (stale 7 OBS_ENCODER_VIDEO)).
  - vm_compute. reflexivity.
  - vm_compute. reflexivity.
Defined.

(** X2.  Where the scan puts a new entry in a sorted buffer: behind every
    entry whose timestamp is at most its own, equal ones included, and in
    front of every entry with a greater one. *)
Theorem da_insert_position (l : list il_packet) (x : il_packet) :
  sorted_buffer l ->
  exists before after,
    l = before ++ after /\
    da_insert l (insert_index (output_ts_us x) l 0) x = before ++ x :: after /\
    Forall (fun e => output_ts_us e <= output_ts_us x) before /\
    Forall (fun e => output_ts_us x < output_ts_us e) after.
Proof.
  unfold sorted_buffer. induction l as [|c r IH]; intros Hs.
  { exists [], []. repeat split; constructor. }
  cbn [map] in Hs. destruct (output_ts_us x <? output_ts_us c) eqn:E.
  - exists [], (c :: r). rewrite da_insert_here by exact E.
    repeat split; [constructor |].
    apply Z.ltb_lt in E. apply nondecreasing_head_le in Hs.
    destruct Hs as [Hall _]. constructor; [exact E |].
    rewrite Forall_forall in Hall. apply Forall_forall. intros e He.
    specialize (Hall (output_ts_us e)).
    assert (output_ts_us e ∈ map output_ts_us r) as Hin
      by (apply list_elem_of_fmap; eauto).
    specialize (Hall Hin). lia.
  - apply nondecreasing_cons in Hs. destruct Hs as [_ Hs].
    destruct (IH Hs) as (before & after & -> & Hins & Hb & Ha).
    exists (c :: before), after. rewrite da_insert_skip by exact E.
    rewrite Hins. repeat split; [| exact Ha].
    constructor; [| exact Hb]. apply Z.ltb_ge in E. lia.
Qed.

Lemma da_insert_position_witness :
  exists before after,
    [stale 1 OBS_ENCODER_AUDIO; stale 5 OBS_ENCODER_VIDEO;
     stale 9 OBS_ENCODER_AUDIO] = before ++ after /\
    da_insert
      [stale 1 OBS_ENCODER_AUDIO; stale 5 OBS_ENCODER_VIDEO;
       stale 9 OBS_ENCODER_AUDIO]
      (insert_index (output_ts_us (stale 5 OBS_ENCODER_AUDIO))
         [stale 1 OBS_ENCODER_AUDIO; stale 5 OBS_ENCODER_VIDEO;
          stale 9 OBS_ENCODER_AUDIO] 0)
      (stale 5 OBS_ENCODER_AUDIO) =
      before ++ stale 5 OBS_ENCODER_AUDIO :: after /\
    Forall (fun e => output_ts_us e <= output_ts_us (stale 5 OBS_ENCODER_AUDIO))
      before /\
    Forall (fun e => output_ts_us (stale 5 OBS_ENCODER_AUDIO) < output_ts_us e)
      after.
Proof.
  apply (da_insert_position
           [stale 1 OBS_ENCODER_AUDIO; stale 5 OBS_ENCODER_VIDEO;
            stale 9 OBS_ENCODER_AUDIO] (stale 5 OBS_ENCODER_AUDIO)).
  reflexivity.
Defined.

Lemma latch_video_received pkt o :
  received_video o = true -> latch_video pkt o = o.
Proof. intros H. unfold latch_video. by rewrite H. Qed.

Lemma latch_audio_received pkt o :
  received_audio o = true -> latch_audio pkt o = o.
Proof. intros H. unfold latch_audio. by rewrite H. Qed.

Lemma latch_video_audio pkt o :
  received_audio (latch_video pkt o) = received_audio o /\
  audio_offset (latch_video pkt o) = audio_offset o.
Proof. unfold latch_video. by destruct (received_video o). Qed.

Lemma latch_audio_video pkt o :
  received_video (latch_audio pkt o) = received_video o /\
  first_video_ts (latch_audio pkt o) = first_video_ts o /\
  video_offset (latch_audio pkt o) = video_offset o.
Proof. unfold latch_audio. by destruct (received_audio o). Qed.

(** Invariants of a sequence of calls, from invariants of one call. *)
Lemma feed_invariant (I : obs_output -> Prop) :
  (forall o pkt out0 p cs w o' cs',
     I o -> timebase_den pkt <> 0 ->
     interleave_packets (Some p) pkt out0 (st p o cs w) =
       Ok (tt, st p o' cs' w) -> I o') ->
  forall inputs p o cs w w',
    I o -> feed (Some p) inputs (st p o cs w) = Ok (tt, w') ->
    exists o' cs', w' = st p o' cs' w /\ I o'.
Proof.
  intros Hstep. induction inputs as [|[pkt out0] rest IH];
    intros p o cs w w' HI Hrun.
  { injection Hrun as <-. eauto. }
  cbn [feed] in Hrun. unfold bind at 1 in Hrun.
  destruct (decide (timebase_den pkt = 0)) as [Hz | Hd].
  { unfold interleave_packets, prepare_interleaved_packet,
      convert_packet_dts, bind in Hrun.
    rewrite Hz in Hrun. discriminate. }
  destruct (interleave_packets_cases p o cs w pkt out0 Hd)
    as (o1 & cs1 & Hrun1 & _).
  rewrite Hrun1 in Hrun.
  eapply IH; [| exact Hrun]. eapply Hstep; eauto.
Qed.

(** X3.  The anchors are latched once.  When a stream has been received,
    no later packet moves its offset, nor the first video timestamp, nor
    clears its flag. *)
Theorem feed_keeps_anchors
    (w w' : world) (p : positive) (o : obs_output)
    (inputs : list (encoder_packet * il_packet)) :
  outputs w !! p = Some o ->
  feed (Some p) inputs w = Ok (tt, w') ->
  exists o',
    outputs w' !! p = Some o' /\
    (received_video o = true ->
     received_video o' = true /\ first_video_ts o' = first_video_ts o /\
     video_offset o' = video_offset o) /\
    (received_audio o = true ->
     received_audio o' = true /\ audio_offset o' = audio_offset o).
Proof.
  intros Hw Hrun. rewrite (st_intro w p o Hw) in Hrun.
  destruct (feed_invariant
              (fun o' =>
                 (received_video o = true ->
                  received_video o' = true /\
                  first_video_ts o' = first_video_ts o /\
                  video_offset o' = video_offset o) /\
                 (received_audio o = true ->
                  received_audio o' = true /\
                  audio_offset o' = audio_offset o)))
    with (inputs := inputs) (p := p) (o := o) (cs := calls w) (w := w)
         (w' := w') as (o' & cs' & -> & HI); [| tauto | exact Hrun |].
  - clear. intros o1 pkt out0 p cs w o2 cs2 [Hv Ha] Hd Hrun.
    destruct (interleave_packets_cases p o1 cs w pkt out0 Hd)
      as (o2' & cs2' & Hrun' & Hcases).
    rewrite Hrun' in Hrun.
    assert (o2 = o2') as ->.
    { assert (st p o2' cs2' w = st p o2 cs2 w) as Heq by congruence.
      apply (f_equal (fun x => outputs x !! p)) in Heq.
      rewrite !st_lookup in Heq. congruence. }
    clear Hrun Hrun'.
    destruct Hcases as [(_ & -> & _) | (_ & e & rest & _ & Hcases)].
    + destruct (type pkt).
      * destruct (latch_audio_video pkt o1) as (-> & -> & ->).
        split; [exact Hv |].
        intros H0. destruct (Ha H0) as (H1 & H2).
        by rewrite (latch_audio_received pkt o1 H1).
      * destruct (latch_video_audio pkt o1) as (-> & ->).
        split; [| exact Ha].
        intros H0. destruct (Hv H0) as (H1 & H2 & H3).
        by rewrite (latch_video_received pkt o1 H1).
    + destruct Hcases as [(_ & -> & _) | (_ & -> & _)]; cbn; tauto.
  - exists o'. split; [apply st_lookup | exact HI].
Qed.

Lemma feed_keeps_anchors_witness :
  exists o',
    outputs (exec (feed (Some 1%positive)
                     [(video_packet 20 1, stale 0 OBS_ENCODER_AUDIO);
                      (audio_packet 30 1, stale 0 OBS_ENCODER_AUDIO)])
               flowing_world) !! 1%positive = Some o' /\
    (received_video (output_at flowing_world 1) = true ->
     received_video o' = true /\
     first_video_ts o' = first_video_ts (output_at flowing_world 1) /\
     video_offset o' = video_offset (output_at flowing_world 1)) /\
    (received_audio (output_at flowing_world 1) = true ->
     received_audio o' = true /\
     audio_offset o' = audio_offset (output_at flowing_world 1)).
Proof.
  apply (feed_keeps_anchors flowing_world _ 1%positive
           (output_at flowing_world 1)
           [(video_packet 20 1, stale 0 OBS_ENCODER_AUDIO);
            (audio_packet 30 1, stale 0 OBS_ENCODER_AUDIO)]).
  - vm_compute. reflexivity.
  - vm_compute. reflexivity.
Defined.

Lemma interleave_packets_zero_timebase data pkt out0 w :
  timebase_den pkt = 0 ->
  interleave_packets data pkt out0 w = Fault DivisionByZero.
Proof.
  intros Hz. unfold interleave_packets, prepare_interleaved_packet,
    convert_packet_dts, bind. by rewrite Hz.
Qed.

Lemma feed_st_total inputs :
  forall p o cs w,
    (Forall (fun i => timebase_den i.1 <> 0) inputs ->
     exists o' cs', feed (Some p) inputs (st p o cs w) = Ok (tt, st p o' cs' w)) /\
    (Exists (fun i => timebase_den i.1 = 0) inputs ->
     feed (Some p) inputs (st p o cs w) = Fault DivisionByZero).
Proof.
  induction inputs as [|[pkt out0] rest IH]; intros p o cs w.
  { split; [intros _; by eexists _, _ | intros H; inversion H]. }
  cbn [feed]. unfold bind at 1 2.
  destruct (decide (timebase_den pkt = 0)) as [Hz | Hd].
  - rewrite interleave_packets_zero_timebase by exact Hz.
    split; [| reflexivity].
    intros H. inversion H; subst. contradiction.
  - destruct (interleave_packets_cases p o cs w pkt out0 Hd)
      as (o1 & cs1 & -> & _).
    destruct (IH p o1 cs1 w) as [IHok IHfault].
    split.
    + intros H. inversion H; subst. auto.
    + intros H. inversion H; subst; [contradiction | auto].
Qed.



(** X5.  Audio is never marked received before video.  Where the flags of an
    output are in that order, they still are after any sequence of packets. *)
Theorem feed_audio_after_video
    (w w' : world) (p : positive) (o : obs_output)
    (inputs : list (encoder_packet * il_packet)) :
  outputs w !! p = Some o ->
  (received_audio o = true -> received_video o = true) ->
  feed (Some p) inputs w = Ok (tt, w') ->
  exists o',
    outputs w' !! p = Some o' /\
    (received_audio o' = true -> received_video o' = true).
Proof.
  intros Hw Hinit Hrun. rewrite (st_intro w p o Hw) in Hrun.
  destruct (feed_invariant
              (fun o' => received_audio o' = true -> received_video o' = true))
    with (inputs := inputs) (p := p) (o := o) (cs := calls w) (w := w)
         (w' := w') as (o' & cs' & -> & HI); [| exact Hinit | exact Hrun |].
  - clear. intros o1 pkt out0 p cs w o2 cs2 HI Hd Hrun.
    destruct (interleave_packets_cases p o1 cs w pkt out0 Hd)
      as (o2' & cs2' & Hrun' & Hcases).
    rewrite Hrun' in Hrun.
    assert (o2 = o2') as ->.
    { assert (st p o2' cs2' w = st p o2 cs2 w) as Heq by congruence.
      apply (f_equal (fun x => outputs x !! p)) in Heq.
      rewrite !st_lookup in Heq. congruence. }
    clear Hrun Hrun'.
    destruct Hcases as [(Hacc & -> & _) | (_ & e & rest & _ & Hcases)].
    + unfold accepted, audio_rejected in Hacc. destruct (type pkt).
      * destruct (latch_audio_video pkt o1) as (-> & _).
        intros _. apply negb_true_iff, orb_false_iff in Hacc.
        destruct Hacc as [Hrv _]. by apply negb_false_iff in Hrv.
      * destruct (latch_video_audio pkt o1) as (-> & _).
        intros H. unfold latch_video.
        destruct (received_video o1) eqn:E; [exact E | reflexivity].
    + destruct Hcases as [(_ & -> & _) | (_ & -> & _)]; cbn; exact HI.
  - exists o'. split; [apply st_lookup | exact HI].
Qed.

Lemma feed_audio_after_video_witness :
  exists o',
    outputs (exec (feed (Some 1%positive)
                     [(audio_packet 5 1, stale 0 OBS_ENCODER_AUDIO);
                      (video_packet 20 1, stale 0 OBS_ENCODER_AUDIO);
                      (audio_packet 30 1, stale 0 OBS_ENCODER_AUDIO)])
               (sample_world 7)) !! 1%positive = Some o' /\
    (received_audio o' = true -> received_video o' = true).
Proof.
  apply (feed_audio_after_video (sample_world 7) _ 1%positive
           (sample_output 7)
           [(audio_packet 5 1, stale 0 OBS_ENCODER_AUDIO);
            (video_packet 20 1, stale 0 OBS_ENCODER_AUDIO);
            (audio_packet 30 1, stale 0 OBS_ENCODER_AUDIO)]).
  - reflexivity.
  - discriminate.
  - vm_compute. reflexivity.
Defined.

(** X6.  The pending buffer stays sorted.  Over any sequence of packets,
    whatever the locals hold, the insertion index chosen by the scan and
    the erasure of the front keep the buffer in non-decreasing order of
    adjusted timestamp. *)
Theorem feed_keeps_sorted
    (w w' : world) (p : positive) (o : obs_output)
    (inputs : list (encoder_packet * il_packet)) :
  outputs w !! p = Some o ->
  sorted_buffer (interleaved_packets o) ->
  feed (Some p) inputs w = Ok (tt, w') ->
  exists o', outputs w' !! p = Some o' /\
             sorted_buffer (interleaved_packets o').
Proof.
  intros Hw Hs Hrun. rewrite (st_intro w p o Hw) in Hrun.
  destruct (feed_invariant (fun o' => sorted_buffer (interleaved_packets o')))
    with (inputs := inputs) (p := p) (o := o) (cs := calls w) (w := w)
         (w' := w') as (o' & cs' & -> & Hs'); [| exact Hs | exact Hrun |].
  - intros o0 pkt out0 p0 cs0 w0 o1 cs1 H0 _ Hstep.
    destruct (interleave_packets_keeps_sorted _ _ p0 o0 pkt out0
                (st_lookup p0 o0 cs0 w0) H0 Hstep) as (o2 & Ho2 & Hs2).
    rewrite st_lookup in Ho2. by injection Ho2 as <-.
  - exists o'. split; [apply st_lookup | exact Hs'].
Qed.

Lemma feed_keeps_sorted_witness :
  exists o',
    outputs (exec (feed (Some 1%positive)
                     [(audio_packet 3 1, stale 4 OBS_ENCODER_AUDIO);
                      (audio_packet 4 1, stale 1 OBS_ENCODER_VIDEO)])
               waiting_world) !! 1%positive = Some o' /\
    sorted_buffer (interleaved_packets o').
Proof.
  apply (feed_keeps_sorted waiting_world _ 1%positive
           (output_at waiting_world 1)
           [(audio_packet 3 1, stale 4 OBS_ENCODER_AUDIO);
            (audio_packet 4 1, stale 1 OBS_ENCODER_VIDEO)]).
  - vm_compute. reflexivity.
  - vm_compute. reflexivity.
  - vm_compute. reflexivity.
Defined.



(** X8.  The conversion to microseconds keeps the order of decode timestamps
    within one positive timebase, as long as the products fit [int64_t]. *)
Theorem convert_packet_dts_monotone
    (a b : encoder_packet) (den : Z) (w : world) :
  0 < den ->
  timebase_den a = den -> timebase_den b = den ->
  in_range a -> in_range b ->
  dts a <= dts b ->
  exists ta tb,
    convert_packet_dts a w = Ok (ta, w) /\
    convert_packet_dts b w = Ok (tb, w) /\
    ta <= tb /\
    ta = (dts a * 1000000) ÷ den /\ tb = (dts b * 1000000) ÷ den.
Proof.
  intros Hden Ha Hb Hra Hrb Hle.
  exists (ts_us a), (ts_us b).
  rewrite !convert_packet_dts_ok by lia.
  split; [reflexivity |]. split; [reflexivity |].
  split; [by eapply ts_us_mono |].
  rewrite (ts_us_in_range a), (ts_us_in_range b) by (assumption || lia).
  by rewrite Ha, Hb.
Qed.

Lemma convert_packet_dts_monotone_witness :
  exists ta tb,
    convert_packet_dts (video_packet (-7) 3) (sample_world 7) =
      Ok (ta, sample_world 7) /\
    convert_packet_dts (video_packet 7 3) (sample_world 7) =
      Ok (tb, sample_world 7) /\
    ta <= tb /\
    ta = (-7 * 1000000) ÷ 3 /\ tb = (7 * 1000000) ÷ 3.
Proof.
  apply (convert_packet_dts_monotone (video_packet (-7) 3) (video_packet 7 3)
           3 (sample_world 7)).
  - reflexivity.
  - reflexivity.
  - reflexivity.
  - split; [discriminate | reflexivity].
  - split; [discriminate | reflexivity].
  - discriminate.
Defined.

(** * More on the capture state machine and the setters *)

Lemma unhook_calls_mirror output o encoded has_video has_audio :
  unhook_calls output o encoded has_video has_audio =
    map stop_of (hook_calls output o encoded has_video has_audio).
Proof.
  unfold unhook_calls, hook_calls.
  destruct encoded, has_video, has_audio; reflexivity.
Qed.

Lemma obs_output_active_st p o cs w :
  obs_output_active (Some p) (st p o cs w) = Ok (active o, st p o cs w).
Proof. unfold obs_output_active. run. reflexivity. Qed.

Lemma info_hooked b e o : info (set_active b (hooked e o)) = info o.
Proof. destruct e; reflexivity. Qed.

Lemma set_active_hooked e o :
  active o = false ->
  set_active false (set_active true (hooked e o)) = hooked e o.
Proof. intros H. destruct e, o; cbn in *; subst; reflexivity. Qed.

Lemma unhook_calls_hooked output b e o encoded has_video has_audio :
  unhook_calls output (set_active b (hooked e o)) encoded has_video has_audio
  = unhook_calls output o encoded has_video has_audio.
Proof. destruct e; reflexivity. Qed.

(** X9.  A capture begun with the media of the type and then ended.  What
    the end stops is what the begin started, call by call, with the same
    callback and context; [obs_output_active] answers true in between and
    false afterwards; and the output is left as it was found, but for the
    reset of [received_video] on an encoded type. *)
Theorem begin_end_round_trip
    (w w1 : world) (p : positive) (o : obs_output) (requested : Z) :
  outputs w !! p = Some o ->
  wants_video o requested = wants_video o 0 ->
  wants_audio o requested = wants_audio o 0 ->
  obs_output_begin_data_capture (Some p) requested w = Ok (true, w1) ->
  exists started w2,
    calls w1 = calls w ++ started
                 ++ [start_signal (Some p) o OBS_OUTPUT_SUCCESS] /\
    obs_output_active (Some p) w1 = Ok (true, w1) /\
    obs_output_end_data_capture (Some p) w1 = Ok (tt, w2) /\
    calls w2 = calls w1 ++ map stop_of started ++ [stop_signal (Some p) o] /\
    obs_output_active (Some p) w2 = Ok (false, w2) /\
    outputs w2 = <[p := hooked (wants_encoded o) o]> (outputs w) /\
    encoders w2 = encoders w /\ registry w2 = registry w.
Proof.
  intros Hw Hv Ha Hbegin.
  pose proof (obs_output_begin_data_capture_st p o (calls w) w requested)
    as Hrun.
  rewrite <- (st_intro w p o Hw) in Hrun. rewrite Hrun in Hbegin.
  destruct (negb (active o) && producers_ready o requested) eqn:Hready;
    [| discriminate].
  apply andb_true_iff in Hready. destruct Hready as [Hact _].
  apply negb_true_iff in Hact.
  injection Hbegin as <-.
  eexists _, _. split; [reflexivity |].
  rewrite obs_output_active_st. split; [reflexivity |].
  rewrite obs_output_end_data_capture_st. cbn [active set_active].
  split; [reflexivity |].
  rewrite obs_output_active_st. cbn [active set_active calls st].
  unfold wants_encoded, wants_video, wants_audio, effective_flags in *.
  rewrite !info_hooked, unhook_calls_hooked.
  split.
  { rewrite unhook_calls_mirror, Hv, Ha. unfold stop_signal.
    by destruct (flag_set (flags (info o)) OBS_OUTPUT_ENCODED). }
  split; [reflexivity |].
  split; [| split; reflexivity].
  cbn [outputs st]. by rewrite set_active_hooked.
Qed.

Lemma begin_end_round_trip_witness :
  exists started w2,
    calls capturing_world =
      calls (sample_world 7) ++ started
        ++ [start_signal (Some 1%positive) (sample_output 7)
              OBS_OUTPUT_SUCCESS] /\
    obs_output_active (Some 1%positive) capturing_world =
      Ok (true, capturing_world) /\
    obs_output_end_data_capture (Some 1%positive) capturing_world =
      Ok (tt, w2) /\
    calls w2 = calls capturing_world ++ map stop_of started
                 ++ [stop_signal (Some 1%positive) (sample_output 7)] /\
    obs_output_active (Some 1%positive) w2 = Ok (false, w2) /\
    outputs w2 =
      <[1%positive := hooked (wants_encoded (sample_output 7))
                        (sample_output 7)]> (outputs (sample_world 7)) /\
    encoders w2 = encoders (sample_world 7) /\
    registry w2 = registry (sample_world 7).
Proof.
  apply (begin_end_round_trip (sample_world 7) capturing_world 1%positive
           (sample_output 7) 0).
  - reflexivity.
  - reflexivity.
  - reflexivity.
  - vm_compute. reflexivity.
Defined.

(** X10.  An active output cannot be begun again.  After a successful begin,
    the readiness check and a second begin both answer false, whatever is
    requested, and change nothing: no producer is hooked twice. *)
Theorem begin_data_capture_not_reentrant
    (w w1 : world) (p : positive) (o : obs_output) (requested again : Z) :
  outputs w !! p = Some o ->
  obs_output_begin_data_capture (Some p) requested w = Ok (true, w1) ->
  obs_output_can_begin_data_capture (Some p) again w1 = Ok (false, w1) /\
  obs_output_begin_data_capture (Some p) again w1 = Ok (false, w1).
Proof.
  intros Hw Hbegin.
  pose proof (obs_output_begin_data_capture_st p o (calls w) w requested)
    as Hrun.
  rewrite <- (st_intro w p o Hw) in Hrun. rewrite Hrun in Hbegin.
  destruct (negb (active o) && producers_ready o requested); [| discriminate].
  injection Hbegin as <-.
  rewrite obs_output_can_begin_data_capture_st,
    obs_output_begin_data_capture_st.
  cbn [active set_active negb andb]. split; reflexivity.
Qed.

Lemma begin_data_capture_not_reentrant_witness :
  obs_output_can_begin_data_capture (Some 1%positive) OBS_OUTPUT_VIDEO
    capturing_world = Ok (false, capturing_world) /\
  obs_output_begin_data_capture (Some 1%positive) OBS_OUTPUT_VIDEO
    capturing_world = Ok (false, capturing_world).
Proof.
  apply (begin_data_capture_not_reentrant (sample_world 7) capturing_world
           1%positive (sample_output 7) 0 OBS_OUTPUT_VIDEO).
  - reflexivity.
  - vm_compute. reflexivity.
Defined.



Lemma obs_output_get_video_encoder_st p o cs w :
  obs_output_get_video_encoder (Some p) (st p o cs w) =
    Ok (video_encoder o, st p o cs w).
Proof. unfold obs_output_get_video_encoder. run. reflexivity. Qed.

Lemma obs_output_get_audio_encoder_st p o cs w :
  obs_output_get_audio_encoder (Some p) (st p o cs w) =
    Ok (audio_encoder o, st p o cs w).
Proof. unfold obs_output_get_audio_encoder. run. reflexivity. Qed.

Lemma set_video_encoder_same_st p o cs w :
  obs_output_set_video_encoder (Some p) (video_encoder o) (st p o cs w) =
    Ok (tt, st p o cs w).
Proof.
  unfold obs_output_set_video_encoder. run.
  by rewrite bool_decide_eq_true_2.
Qed.

Lemma set_audio_encoder_same_st p o cs w :
  obs_output_set_audio_encoder (Some p) (audio_encoder o) (st p o cs w) =
    Ok (tt, st p o cs w).
Proof.
  unfold obs_output_set_audio_encoder. run.
  by rewrite bool_decide_eq_true_2.
Qed.

Lemma set_video_encoder_st p o cs w e x :
  video_encoder o <> Some e ->
  encoders w !! e = Some x -> enc_type x = OBS_ENCODER_VIDEO ->
  obs_output_set_video_encoder (Some p) (Some e) (st p o cs w) =
    Ok (tt, st p (set_video_encoder (Some e) o)
              (cs ++ [call_obs_encoder_remove_output (Some e) (Some p);
                      call_obs_encoder_add_output (Some e) (Some p)])
              (with_encoders
                 (alter (bind_to p) e (alter (unbind p) e (encoders w))) w)).
Proof.
  intros Hne Hx Htype.
  unfold obs_output_set_video_encoder, encoder_type_differs,
    obs_encoder_remove_output, obs_encoder_add_output.
  run. rewrite bool_decide_eq_false_2 by exact Hne.
  run. rewrite (bind_ok _ _ _ _ _ (deref_encoder_st _ _ _ _ _ _ Hx)).
  run. rewrite Htype. rewrite bool_decide_eq_true_2 by reflexivity.
  run. unfold bind at 1. rewrite on_encoder_st.
  run. unfold bind at 1. rewrite on_encoder_st.
  run. by rewrite <- app_assoc.
Qed.

Lemma set_audio_encoder_st p o cs w e x :
  audio_encoder o <> Some e ->
  encoders w !! e = Some x -> enc_type x = OBS_ENCODER_AUDIO ->
  obs_output_set_audio_encoder (Some p) (Some e) (st p o cs w) =
    Ok (tt, st p (set_audio_encoder (Some e) o)
              (cs ++ [call_obs_encoder_remove_output (Some e) (Some p);
                      call_obs_encoder_add_output (Some e) (Some p)])
              (with_encoders
                 (alter (bind_to p) e (alter (unbind p) e (encoders w))) w)).
Proof.
  intros Hne Hx Htype.
  unfold obs_output_set_audio_encoder, encoder_type_differs,
    obs_encoder_remove_output, obs_encoder_add_output.
  run. rewrite bool_decide_eq_false_2 by exact Hne.
  run. rewrite (bind_ok _ _ _ _ _ (deref_encoder_st _ _ _ _ _ _ Hx)).
  run. rewrite Htype. rewrite bool_decide_eq_true_2 by reflexivity.
  run. unfold bind at 1. rewrite on_encoder_st.
  run. unfold bind at 1. rewrite on_encoder_st.
  run. by rewrite <- app_assoc.
Qed.

(** X12.  A video encoder that has been set is the one read back, the output
    is in its set of outputs, and setting it a second time does nothing. *)
Theorem obs_output_set_video_encoder_round_trip
    (w : world) (p e : positive) (o : obs_output) (x : obs_encoder) :
  outputs w !! p = Some o ->
  video_encoder o <> Some e ->
  encoders w !! e = Some x ->
  enc_type x = OBS_ENCODER_VIDEO ->
  exists w1 x1,
    obs_output_set_video_encoder (Some p) (Some e) w = Ok (tt, w1) /\
    obs_output_get_video_encoder (Some p) w1 = Ok (Some e, w1) /\
    obs_output_get_audio_encoder (Some p) w1 = Ok (audio_encoder o, w1) /\
    encoders w1 !! e = Some x1 /\ p ∈ enc_outputs x1 /\
    enc_type x1 = OBS_ENCODER_VIDEO /\
    obs_output_set_video_encoder (Some p) (Some e) w1 = Ok (tt, w1).
Proof.
  intros Hw Hne Hx Htype.
  pose proof (set_video_encoder_st p o (calls w) w e x Hne Hx Htype) as Hset.
  rewrite <- (st_intro w p o Hw) in Hset.
  eexists _, (bind_to p (unbind p x)). split; [exact Hset |].
  rewrite obs_output_get_video_encoder_st, obs_output_get_audio_encoder_st.
  split; [reflexivity |]. split; [reflexivity |].
  split; [cbn; by rewrite !lookup_alter_eq, Hx |].
  split; [cbn; set_solver |]. split; [exact Htype |].
  exact (set_video_encoder_same_st p (set_video_encoder (Some e) o) _ _).
Qed.

Lemma obs_output_set_video_encoder_round_trip_witness :
  exists w1 x1,
    obs_output_set_video_encoder (Some 1%positive) (Some 12%positive)
      (sample_world 7) = Ok (tt, w1) /\
    obs_output_get_video_encoder (Some 1%positive) w1 =
      Ok (Some 12%positive, w1) /\
    obs_output_get_audio_encoder (Some 1%positive) w1 =
      Ok (audio_encoder (sample_output 7), w1) /\
    encoders w1 !! 12%positive = Some x1 /\ 1%positive ∈ enc_outputs x1 /\
    enc_type x1 = OBS_ENCODER_VIDEO /\
    obs_output_set_video_encoder (Some 1%positive) (Some 12%positive) w1 =
      Ok (tt, w1).
Proof.
  apply (obs_output_set_video_encoder_round_trip (sample_world 7) 1%positive
           12%positive (sample_output 7)
           {| enc_type := OBS_ENCODER_VIDEO; enc_outputs := ∅ |}).
  - reflexivity.
  - discriminate.
  - vm_compute. reflexivity.
  - reflexivity.
Defined.

(** X13.  An audio encoder that has been set is the one read back, the output
    is in its set of outputs, the video slot is untouched, and setting it a
    second time does nothing. *)
Theorem obs_output_set_audio_encoder_round_trip
    (w : world) (p e : positive) (o : obs_output) (x : obs_encoder) :
  outputs w !! p = Some o ->
  audio_encoder o <> Some e ->
  encoders w !! e = Some x ->
  enc_type x = OBS_ENCODER_AUDIO ->
  exists w1 x1,
    obs_output_set_audio_encoder (Some p) (Some e) w = Ok (tt, w1) /\
    obs_output_get_audio_encoder (Some p) w1 = Ok (Some e, w1) /\
    obs_output_get_video_encoder (Some p) w1 = Ok (video_encoder o, w1) /\
    encoders w1 !! e = Some x1 /\ p ∈ enc_outputs x1 /\
    enc_type x1 = OBS_ENCODER_AUDIO /\
    obs_output_set_audio_encoder (Some p) (Some e) w1 = Ok (tt, w1).
Proof.
  intros Hw Hne Hx Htype.
  pose proof (set_audio_encoder_st p o (calls w) w e x Hne Hx Htype) as Hset.
  rewrite <- (st_intro w p o Hw) in Hset.
  eexists _, (bind_to p (unbind p x)). split; [exact Hset |].
  rewrite obs_output_get_video_encoder_st, obs_output_get_audio_encoder_st.
  split; [reflexivity |]. split; [reflexivity |].
  split; [cbn; by rewrite !lookup_alter_eq, Hx |].
  split; [cbn; set_solver |]. split; [exact Htype |].
  exact (set_audio_encoder_same_st p (set_audio_encoder (Some e) o) _ _).
Qed.

Lemma obs_output_set_audio_encoder_round_trip_witness :
  exists w1 x1,
    obs_output_set_audio_encoder (Some 1%positive) (Some 11%positive)
      unbound_world = Ok (tt, w1) /\
    obs_output_get_audio_encoder (Some 1%positive) w1 =
      Ok (Some 11%positive, w1) /\
    obs_output_get_video_encoder (Some 1%positive) w1 =
      Ok (video_encoder (output_at unbound_world 1), w1) /\
    encoders w1 !! 11%positive = Some x1 /\ 1%positive ∈ enc_outputs x1 /\
    enc_type x1 = OBS_ENCODER_AUDIO /\
    obs_output_set_audio_encoder (Some 1%positive) (Some 11%positive) w1 =
      Ok (tt, w1).
Proof.
  apply (obs_output_set_audio_encoder_round_trip unbound_world 1%positive
           11%positive (output_at unbound_world 1)
           {| enc_type := OBS_ENCODER_AUDIO;
              enc_outputs := {[ 1%positive ]} |}).
  - vm_compute. reflexivity.
  - vm_compute. discriminate.
  - vm_compute. reflexivity.
  - reflexivity.
Defined.

Lemma st_same (w : world) p o :
  outputs w !! p = Some o -> st p o (calls w) w = w.
Proof. intros H. symmetry. by apply st_intro. Qed.



Lemma get_video_conversion_st p o cs w :
  get_video_conversion (Some p) (st p o cs w) =
    Ok (conversion_of (video_conversion_set o) (video_conversion o),
        st p o cs w).
Proof.
  unfold get_video_conversion, conversion_of. run.
  destruct (video_conversion_set o); run; reflexivity.
Qed.

Lemma get_audio_conversion_st p o cs w :
  get_audio_conversion (Some p) (st p o cs w) =
    Ok (conversion_of (audio_conversion_set o) (audio_conversion o),
        st p o cs w).
Proof.
  unfold get_audio_conversion, conversion_of. run.
  destruct (audio_conversion_set o); run; reflexivity.
Qed.

(** X15.  Conversions that have been set are the ones a raw capture connects
    the pipelines with, and a later call with a null conversion does not
    take them back. *)
Theorem conversions_reach_raw_hook
    (w : world) (p : positive) (o : obs_output)
    (c : video_scale_info) (d : audio_convert_info) :
  outputs w !! p = Some o ->
  exists w1 w2 w3,
    obs_output_set_video_conversion (Some p) (Some c) w = Ok (tt, w1) /\
    obs_output_set_audio_conversion (Some p) (Some d) w1 = Ok (tt, w2) /\
    get_video_conversion (Some p) w2 = Ok (Some c, w2) /\
    get_audio_conversion (Some p) w2 = Ok (Some d, w2) /\
    obs_output_set_video_conversion (Some p) None w2 = Ok (tt, w2) /\
    obs_output_set_audio_conversion (Some p) None w2 = Ok (tt, w2) /\
    hook_data_capture (Some p) false true true w2 = Ok (tt, w3) /\
    calls w3 =
      calls w ++ [call_video_output_connect (video o) (Some c) (data o);
                  call_audio_output_connect (audio o) (Some d) (data o)].
Proof.
  intros Hw. eexists _, _, _.
  split.
  { rewrite (st_intro w p o Hw) at 1.
    unfold obs_output_set_video_conversion. run. reflexivity. }
  split.
  { unfold obs_output_set_audio_conversion. run. reflexivity. }
  rewrite get_video_conversion_st, get_audio_conversion_st,
    hook_data_capture_st.
  repeat split.
Qed.

Lemma conversions_reach_raw_hook_witness :
  exists w1 w2 w3,
    obs_output_set_video_conversion (Some 1%positive)
      (Some (VideoScaleInfo 1)) (sample_world 3) = Ok (tt, w1) /\
    obs_output_set_audio_conversion (Some 1%positive)
      (Some (AudioConvertInfo 2)) w1 = Ok (tt, w2) /\
    get_video_conversion (Some 1%positive) w2 =
      Ok (Some (VideoScaleInfo 1), w2) /\
    get_audio_conversion (Some 1%positive) w2 =
      Ok (Some (AudioConvertInfo 2), w2) /\
    obs_output_set_video_conversion (Some 1%positive) None w2 = Ok (tt, w2) /\
    obs_output_set_audio_conversion (Some 1%positive) None w2 = Ok (tt, w2) /\
    hook_data_capture (Some 1%positive) false true true w2 = Ok (tt, w3) /\
    calls w3 =
      calls (sample_world 3) ++
        [call_video_output_connect (video (sample_output 3))
           (Some (VideoScaleInfo 1)) (data (sample_output 3));
         call_audio_output_connect (audio (sample_output 3))
           (Some (AudioConvertInfo 2)) (data (sample_output 3))].
Proof.
  apply (conversions_reach_raw_hook (sample_world 3) 1%positive
           (sample_output 3) (VideoScaleInfo 1) (AudioConvertInfo 2)).
  reflexivity.
Defined.

(** X16.  [obs_output_pause] calls the pause hook of the type exactly when
    [obs_output_canpause] says the type has one, and does nothing
    otherwise. *)
Theorem obs_output_pause_iff_canpause
    (w : world) (p : positive) (o : obs_output) :
  outputs w !! p = Some o ->
  exists can,
    obs_output_canpause (Some p) w = Ok (can, w) /\
    obs_output_pause (Some p) w =
      Ok (tt, if can then with_calls (calls w ++ [call_info_pause (data o)]) w
              else w).
Proof.
  intros Hw. exists (has_pause (info o)).
  pose proof (st_same w p o Hw) as Hsame.
  split.
  - rewrite <- Hsame at 1 2. unfold obs_output_canpause. run. reflexivity.
  - rewrite <- Hsame at 1. unfold obs_output_pause. run.
    destruct (has_pause (info o)); run.
    + destruct w; unfold st, with_calls; cbn in *. by rewrite insert_id.
    + unfold ret. by rewrite Hsame.
Qed.

Lemma obs_output_pause_iff_canpause_witness :
  exists can,
    obs_output_canpause (Some 2%positive) created_world =
      Ok (can, created_world) /\
    obs_output_pause (Some 2%positive) created_world =
      Ok (tt, if can
              then with_calls
                     (calls created_world ++
                      [call_info_pause (data (output_at created_world 2))])
                     created_world
              else created_world).
Proof.
  apply (obs_output_pause_iff_canpause created_world 2%positive
           (output_at created_world 2)).
  vm_compute. reflexivity.
Defined.

(** * Frames: what an event can change *)

Section Keeps.
Context (R : world -> world -> Prop).
Context (R_refl : forall w, R w w).
Context (R_trans : forall a b c, R a b -> R b c -> R a c).
Context (R_calls : forall w c, R w (with_calls (calls w ++ [c]) w)).

Lemma keeps_ret {A} (a : A) : keeps R (ret a).
Proof using R_refl. intros w a' w' [= <- <-]. apply R_refl. Qed.

Lemma keeps_fail {A} (f : fault) : keeps R (@fail A f).
Proof using Type. intros w a' w' [=]. Qed.

Lemma keeps_bind {A B} (m : M A) (k : A -> M B) :
  keeps R m -> (forall a, keeps R (k a)) -> keeps R (bind m k).
Proof using R_trans.
  intros Hm Hk w b w' Hrun. unfold bind in Hrun.
  destruct (m w) as [[a w1]|] eqn:E; [| discriminate].
  eapply R_trans; [exact (Hm w a w1 E) | exact (Hk a w1 b w' Hrun)].
Qed.

Lemma keeps_deref output : keeps R (deref output).
Proof using R_refl.
  intros w a w' Hrun. unfold deref in Hrun.
  destruct output as [p|]; [| discriminate].
  destruct (outputs w !! p); [| discriminate].
  injection Hrun as <- <-. apply R_refl.
Qed.

Lemma keeps_get {A} output (f : obs_output -> A) : keeps R (get output f).
Proof using R_refl R_trans.
  apply keeps_bind; [apply keeps_deref | intros; apply keeps_ret].
Qed.

Lemma keeps_emit c : keeps R (emit c).
Proof using R_calls. intros w a w' [= <- <-]. apply R_calls. Qed.

Lemma keeps_emit_all cs : keeps R (emit_all cs).
Proof using R_refl R_trans R_calls.
  induction cs as [|c cs IH]; simpl; [apply keeps_ret |].
  apply keeps_bind; [apply keeps_emit | intros; exact IH].
Qed.

Lemma keeps_deref_encoder e : keeps R (deref_encoder e).
Proof using R_refl.
  intros w a w' Hrun. unfold deref_encoder in Hrun.
  destruct e as [e|]; [| discriminate].
  destruct (encoders w !! e); [| discriminate].
  injection Hrun as <- <-. apply R_refl.
Qed.

Lemma keeps_convert_packet_dts pkt : keeps R (convert_packet_dts pkt).
Proof using R_refl.
  unfold convert_packet_dts.
  destruct (timebase_den pkt =? 0); [apply keeps_fail | apply keeps_ret].
Qed.

Lemma keeps_assign output f :
  (forall w p o, output = Some p -> outputs w !! p = Some o ->
                 R w (with_outputs (<[p := f o]> (outputs w)) w)) ->
  keeps R (assign output f).
Proof using Type.
  intros Hside w a w' Hrun. unfold assign in Hrun.
  destruct output as [p|]; [| discriminate].
  destruct (outputs w !! p) as [o|] eqn:E; [| discriminate].
  injection Hrun as <- <-. by apply Hside.
Qed.

Lemma keeps_on_encoder e o f :
  (forall w m, R w (with_encoders m w)) -> keeps R (on_encoder e o f).
Proof using R_refl.
  intros Hside w a w' [= <- <-]. destruct e, o; auto.
Qed.

Lemma keeps_unregister output :
  (forall w l, R w (with_registry l w)) -> keeps R (unregister output).
Proof using R_refl.
  intros Hside w a w' [= <- <-]. destruct output; auto.
Qed.

Lemma keeps_release output :
  (forall w p, output = Some p -> R w (with_outputs (delete p (outputs w)) w)) ->
  keeps R (release output).
Proof using R_refl.
  intros Hside w a w' [= <- <-]. destruct output; auto.
Qed.

End Keeps.

Ltac keeps_step side :=
  lazymatch goal with
  | |- keeps _ (ret _) => apply keeps_ret; side
  | |- keeps _ (fail _) => apply keeps_fail
  | |- keeps _ (bind _ _) => apply keeps_bind; [side | | intros]
  | |- keeps _ (get _ _) => apply keeps_get; side
  | |- keeps _ (deref _) => apply keeps_deref; side
  | |- keeps _ (emit _) => apply keeps_emit; side
  | |- keeps _ (emit_all _) => apply keeps_emit_all; side
  | |- keeps _ (assign _ _) => apply keeps_assign; side
  | |- keeps _ (deref_encoder _) => apply keeps_deref_encoder; side
  | |- keeps _ (on_encoder _ _ _) => apply keeps_on_encoder; side
  | |- keeps _ (unregister _) => apply keeps_unregister; side
  | |- keeps _ (release _) => apply keeps_release; side
  | |- keeps _ (convert_packet_dts _) => apply keeps_convert_packet_dts; side
  | |- keeps _ (when ?b _) => destruct b; cbn [when]
  | |- keeps _ (if ?b then _ else _) => destruct b
  | |- keeps _ (match ?x with _ => _ end) => destruct x
  end.

Ltac unfold_api :=
  unfold obs_output_destroy, free_packets, obs_output_start, obs_output_stop,
    obs_output_active, obs_output_properties, obs_output_update,
    obs_output_get_settings, obs_output_canpause, obs_output_pause,
    obs_output_signalhandler, obs_output_prochandler, obs_output_set_media,
    obs_output_video, obs_output_audio, obs_output_remove_encoder,
    obs_output_set_video_encoder, obs_output_set_audio_encoder,
    obs_output_get_video_encoder, obs_output_get_audio_encoder,
    obs_output_set_video_conversion, obs_output_set_audio_conversion,
    obs_output_can_begin_data_capture, obs_output_begin_data_capture,
    obs_output_end_data_capture, obs_output_signal_start_fail,
    hook_data_capture, get_video_conversion, get_audio_conversion, param_of,
    signal_stop, signal_start, convert_flags, can_begin_data_capture,
    encoder_type_differs, obs_encoder_remove_output, obs_encoder_add_output,
    interleave_packets, prepare_interleaved_packet, send_interleaved.

Ltac keeps_event side :=
  cbn [run_event run_api]; unfold void, boolean, address; unfold_api;
  repeat keeps_step side.

(** ** Fields and their writers *)

Section KeptAt.
Context (P : obs_output -> obs_output -> Prop) (q : positive).
Context (P_refl : forall o, P o o).
Context (P_trans : forall a b c, P a b -> P b c -> P a c).

Lemma kept_at_refl w : kept_at P q w w.
Proof using P_refl. intros o' H. by exists o'. Qed.

Lemma kept_at_trans a b c :
  kept_at P q a b -> kept_at P q b c -> kept_at P q a c.
Proof using P_trans.
  intros Hab Hbc o' Hc. destruct (Hbc o' Hc) as (o1 & Hb & H1).
  destruct (Hab o1 Hb) as (o0 & Ha & H0). exists o0. eauto.
Qed.

Lemma kept_at_calls w cs : kept_at P q w (with_calls cs w).
Proof using P_refl. intros o' H. by exists o'. Qed.

Lemma kept_at_encoders w m : kept_at P q w (with_encoders m w).
Proof using P_refl. intros o' H. by exists o'. Qed.

Lemma kept_at_registry w l : kept_at P q w (with_registry l w).
Proof using P_refl. intros o' H. by exists o'. Qed.

Lemma kept_at_delete w p : kept_at P q w (with_outputs (delete p (outputs w)) w).
Proof using P_refl.
  intros o' H. cbn in H. destruct (decide (p = q)) as [-> | Hne].
  - by rewrite lookup_delete_eq in H.
  - rewrite lookup_delete_ne in H by done. by exists o'.
Qed.

Lemma kept_at_insert (f : obs_output -> obs_output) w p o :
  (forall o, P o (f o)) -> outputs w !! p = Some o ->
  kept_at P q w (with_outputs (<[p := f o]> (outputs w)) w).
Proof using P_refl.
  intros Hf Hw o' H. cbn in H. destruct (decide (p = q)) as [-> | Hne].
  - rewrite lookup_insert_eq in H. injection H as <-. by exists o.
  - rewrite lookup_insert_ne in H by done. by exists o'.
Qed.

End KeptAt.

Ltac solve_same :=
  intros; unfold same_identity, same_fields in *; cbn; intuition congruence.

Ltac kept_side :=
  first
    [ apply kept_at_refl; solve_same
    | apply kept_at_trans; solve_same
    | intros; apply kept_at_calls; solve_same
    | intros; apply kept_at_encoders; solve_same
    | intros; apply kept_at_registry; solve_same
    | intros; apply kept_at_delete; solve_same
    | intros; apply kept_at_insert; [solve_same | solve_same | assumption] ].

Lemma identity_kept (e : event) (q : positive) :
  keeps (kept_at same_identity q) (run_event e).
Proof.
  destruct e as [c | output pkt out0]; [destruct c |]; keeps_event kept_side.
Qed.

Lemma fields_kept (g : field_group) (e : event) (q : positive) :
  writes g e = false -> keeps (kept_at (same_fields g) q) (run_event e).
Proof.
  intros Hg.
  destruct e as [c | output pkt out0]; [destruct c |];
    destruct g; try discriminate Hg; clear Hg; keeps_event kept_side.
Qed.

(** X17.  Nothing that happens to an output changes what it was created
    with.  Its behaviour table and flags, its private data, its settings,
    its signal and procedure handlers and its valid mark are the same after
    every public call and every packet, for as long as the output lives;
    and no event brings an output into being. *)
Theorem identity_is_kept
    (e : event) (w w' : world) (q : positive) (o' : obs_output) :
  run_event e w = Ok (tt, w') ->
  outputs w' !! q = Some o' ->
  exists o, outputs w !! q = Some o /\ same_identity o o'.
Proof. intros Hrun. exact (identity_kept e q w tt w' Hrun o'). Qed.

Lemma identity_is_kept_witness :
  exists o,
    outputs (sample_world 7) !! 1%positive = Some o /\
    same_identity o (output_at video_only_world 1).
Proof.
  apply (identity_is_kept
           (ev_api (api_begin_data_capture (Some 1%positive) OBS_OUTPUT_VIDEO))
           (sample_world 7) video_only_world 1%positive
           (output_at video_only_world 1)).
  - vm_compute. reflexivity.
  - vm_compute. reflexivity.
Defined.

(** X18.  Every other field has its writers.  The media pointers change
    only in [obs_output_set_media]; the encoder slots only in the two encoder
    setters and [obs_output_remove_encoder]; the conversions only in the two
    conversion setters; the active flag only in begin and end of data
    capture; the interleaver's anchors only in begin and in
    [interleave_packets]; the pending buffer only in [interleave_packets]
    and in destroy.  An event that is not among the writers of a group
    leaves the group's fields of every output as they were. *)
Theorem fields_change_only_in_their_writers
    (g : field_group) (e : event) (w w' : world) (q : positive)
    (o' : obs_output) :
  writes g e = false ->
  run_event e w = Ok (tt, w') ->
  outputs w' !! q = Some o' ->
  exists o, outputs w !! q = Some o /\ same_fields g o o'.
Proof. intros Hg Hrun. exact (fields_kept g e q Hg w tt w' Hrun o'). Qed.

Lemma fields_change_only_in_their_writers_witness :
  exists o,
    outputs capturing_world !! 1%positive = Some o /\
    same_fields active_field o
      (output_at
         (exec (interleave_packets (Some 1%positive) (video_packet 10 1)
                  (stale 0 OBS_ENCODER_AUDIO)) capturing_world) 1).
Proof.
  apply (fields_change_only_in_their_writers active_field
           (ev_packet (Some 1%positive) (video_packet 10 1)
              (stale 0 OBS_ENCODER_AUDIO))
           capturing_world
           (exec (interleave_packets (Some 1%positive) (video_packet 10 1)
                    (stale 0 OBS_ENCODER_AUDIO)) capturing_world)
           1%positive).
  - reflexivity.
  - vm_compute. reflexivity.
  - vm_compute. reflexivity.
Defined.

(** ** The footprint of an event *)

Lemma calls_grow_refl w : calls_grow w w.
Proof. exists []. by rewrite app_nil_r. Qed.

Lemma calls_grow_trans a b c : calls_grow a b -> calls_grow b c -> calls_grow a c.
Proof.
  intros [x Hx] [y Hy]. exists (x ++ y). by rewrite Hy, Hx, app_assoc.
Qed.

Ltac calls_side :=
  first
    [ apply calls_grow_refl
    | apply calls_grow_trans
    | solve [ intros; eexists; cbn; reflexivity ]
    | solve [ intros; exists []; cbn; by rewrite app_nil_r ] ].

Lemma event_calls_grow (e : event) : keeps calls_grow (run_event e).
Proof.
  destruct e as [c | output pkt out0]; [destruct c |]; keeps_event calls_side.
Qed.

Ltac same_side :=
  solve [ intros; cbn in *; congruence ].

Lemma event_keeps_registry (e : event) :
  destroys e = false ->
  keeps (fun w w' => registry w' = registry w) (run_event e).
Proof.
  intros He.
  destruct e as [c | output pkt out0]; [destruct c |];
    try discriminate He; clear He; keeps_event same_side.
Qed.

Lemma event_keeps_encoders (e : event) :
  binds_encoder e = false ->
  keeps (fun w w' => encoders w' = encoders w) (run_event e).
Proof.
  intros He.
  destruct e as [c | output pkt out0]; [destruct c |];
    try discriminate He; clear He; keeps_event same_side.
Qed.

Ltac alive_side :=
  first
    [ solve [ intros; cbn in *; auto ]
    | solve [ intros w p o _ Hw q Hq; cbn;
              destruct (decide (p = q)) as [-> | Hne];
              [ rewrite lookup_insert_eq; eauto
              | by rewrite lookup_insert_ne ] ] ].

Lemma event_keeps_alive (e : event) :
  destroys e = false ->
  keeps (fun w w' => forall q, is_Some (outputs w !! q) ->
                               is_Some (outputs w' !! q)) (run_event e).
Proof.
  intros He.
  destruct e as [c | output pkt out0]; [destruct c |];
    try discriminate He; clear He; keeps_event alive_side.
Qed.

Ltac others_side :=
  first
    [ solve [ intros; cbn in *; congruence ]
    | solve [ intros w p o -> _; cbn; apply lookup_insert_ne; congruence ]
    | solve [ intros w p ->; cbn; apply lookup_delete_ne; congruence ] ].

Lemma event_keeps_others (e : event) (q : positive) :
  target e <> Some q ->
  keeps (fun w w' => outputs w' !! q = outputs w !! q) (run_event e).
Proof.
  intros He.
  destruct e as [c | output pkt out0]; [destruct c |];
    cbn [target handle_of] in He; keeps_event others_side.
Qed.

(** X19.  What an event can reach.  Whatever the event, the record of
    calls only grows; the process-wide list of outputs changes in destroy
    alone, and only there does an output cease to exist; the encoders'
    sets of outputs change in the two encoder setters alone; and an output
    other than the one the event is about is left exactly as it was. *)
Theorem event_footprint (e : event) (w w' : world) :
  run_event e w = Ok (tt, w') -> footprint e w w'.
Proof.
  intros Hrun. split.
  - exact (event_calls_grow e w tt w' Hrun).
  - intros He. exact (event_keeps_registry e He w tt w' Hrun).
  - intros He. exact (event_keeps_encoders e He w tt w' Hrun).
  - intros He. exact (event_keeps_alive e He w tt w' Hrun).
  - intros q He. exact (event_keeps_others e q He w tt w' Hrun).
Qed.

Lemma event_footprint_witness :
  footprint
    (ev_api (api_set_video_encoder (Some 1%positive) (Some 12%positive)))
    (sample_world 7)
    (exec (obs_output_set_video_encoder (Some 1%positive) (Some 12%positive))
       (sample_world 7)).
Proof.
  apply (event_footprint
           (ev_api (api_set_video_encoder (Some 1%positive)
                      (Some 12%positive)))
           (sample_world 7)).
  vm_compute. reflexivity.
Defined.

(** * Destruction and the process-wide list *)

Lemma unregister_st p o cs w :
  unregister (Some p) (st p o cs w) =
    Ok (tt, st p o cs (with_registry (da_erase_item (registry w) p) w)).
Proof. reflexivity. Qed.

Lemma release_st p o cs w :
  release (Some p) (st p o cs w) =
    Ok (tt, with_calls cs (with_outputs (delete p (outputs w)) w)).
Proof.
  unfold release, st, with_calls, with_outputs. cbn.
  by rewrite delete_insert_eq.
Qed.

Lemma emit_all_st l p o cs w :
  emit_all l (st p o cs w) = Ok (tt, st p o (cs ++ l) w).
Proof.
  revert cs. induction l as [|c l IH]; intros cs; cbn [emit_all].
  - by rewrite app_nil_r.
  - rewrite bind_emit_st, IH, <- app_assoc. reflexivity.
Qed.

Lemma bind_unregister_st {B} (k : unit -> M B) p o cs w :
  bind (unregister (Some p)) k (st p o cs w) =
    k tt (st p o cs (with_registry (da_erase_item (registry w) p) w)).
Proof. reflexivity. Qed.

Lemma bind_emit_all_st {B} l (k : unit -> M B) p o cs w :
  bind (emit_all l) k (st p o cs w) = k tt (st p o (cs ++ l) w).
Proof. unfold bind at 1. by rewrite emit_all_st. Qed.

Lemma obs_output_destroy_st p o cs w :
  obs_output_destroy (Some p) (st p o cs w) =
    Ok (tt, {| outputs := delete p (outputs w);
               encoders := encoders w;
               registry := if valid o then da_erase_item (registry w) p
                           else registry w;
               calls := cs ++ destroy_calls o |}).
Proof.
  unfold obs_output_destroy, free_packets, destroy_calls. cbn [is_null].
  destruct o as [i d s sg pr v a ve ae vc vcs ac acs rv ra fts vo ao pk act vl].
  run.
  destruct vl, act, d as [d|]; cbn [when andb negb is_null]; run;
    rewrite ?bind_unregister_st; run; rewrite bind_emit_all_st; run;
    rewrite release_st; unfold with_calls, with_outputs, with_registry;
    cbn; rewrite <- ?app_assoc; reflexivity.
Qed.

(** X20.  [obs_output_destroy] on a live output, in closed form.  The
    output leaves the store; a valid output leaves the process-wide list
    (its first entry there), an output that is not valid leaves the list
    alone; the calls are, in order: the type's [stop] hook if the output is
    valid and active, [obs_free_encoder_packet] once for each pending
    packet in buffer order, the type's [destroy] hook unless [data] is
    null, then the two handler destructors and the release of the
    settings.  No stop signal is raised and no encoder is stopped; a
    second destroy of the same handle reads freed memory. *)
Theorem obs_output_destroy_spec (w : world) (p : positive) (o : obs_output) :
  outputs w !! p = Some o ->
  obs_output_destroy (Some p) w = Ok (tt, destroyed p o w) /\
  obs_output_destroy (Some p) (destroyed p o w) = Fault DanglingPointer /\
  Forall (fun c => forall e cb param, c <> call_obs_encoder_stop e cb param)
    (destroy_calls o) /\
  Forall (fun c => forall h s params, c <> call_signal_handler_signal h s params)
    (destroy_calls o).
Proof.
  intros Hw. split; [| split].
  - rewrite (st_intro w p o Hw) at 1. rewrite obs_output_destroy_st.
    reflexivity.
  - unfold obs_output_destroy, get, bind, deref. cbn.
    by rewrite lookup_delete_eq.
  - unfold destroy_calls.
    split; rewrite !Forall_app; repeat split;
      try (destruct (valid o && active o)); try (destruct (is_null (data o)));
      repeat (apply List.Forall_cons; [done |]); try apply List.Forall_nil;
      apply Forall_forall; intros c Hc; apply list_elem_of_fmap in Hc;
      destruct Hc as (? & -> & _); done.
Qed.

Lemma obs_output_destroy_spec_witness :
  obs_output_destroy (Some 1%positive) waiting_world =
    Ok (tt, destroyed 1 (output_at waiting_world 1) waiting_world) /\
  obs_output_destroy (Some 1%positive)
    (destroyed 1 (output_at waiting_world 1) waiting_world) =
    Fault DanglingPointer /\
  Forall (fun c => forall e cb param, c <> call_obs_encoder_stop e cb param)
    (destroy_calls (output_at waiting_world 1)) /\
  Forall (fun c => forall h s params, c <> call_signal_handler_signal h s params)
    (destroy_calls (output_at waiting_world 1)).
Proof.
  apply (obs_output_destroy_spec waiting_world 1%positive
           (output_at waiting_world 1)).
  vm_compute. reflexivity.
Defined.

(** ** The process-wide list of outputs *)

Lemma da_erase_item_elem (l : list positive) (p x : positive) :
  NoDup l -> x ∈ da_erase_item l p <-> x ∈ l /\ x <> p.
Proof.
  induction l as [|y l IH]; intros Hnd; cbn [da_erase_item].
  - split; [intros H | intros [H _]]; by apply elem_of_nil in H.
  - apply NoDup_cons in Hnd as [Hy Hnd].
    destruct (bool_decide_reflect (y = p)) as [-> | Hne].
    + rewrite elem_of_cons. split.
      * intros H. split; [by right | intros ->; contradiction].
      * intros [[-> | H] Hx]; [contradiction | exact H].
    + rewrite !elem_of_cons, (IH Hnd). split.
      * intros [-> | [H Hx]]; [split; [by left | done] | split; [by right | done]].
      * intros [[-> | H] Hx]; [by left | by right].
Qed.

Lemma da_erase_item_NoDup (l : list positive) (p : positive) :
  NoDup l -> NoDup (da_erase_item l p).
Proof.
  induction l as [|y l IH]; intros Hnd; cbn [da_erase_item]; [exact Hnd |].
  apply NoDup_cons in Hnd as [Hy Hnd].
  destruct (bool_decide_reflect (y = p)) as [-> | Hne]; [exact Hnd |].
  apply NoDup_cons. split; [| by apply IH].
  rewrite (da_erase_item_elem l p y Hnd). tauto.
Qed.

Lemma registry_ok_destroyed w p o :
  outputs w !! p = Some o -> registry_ok w -> registry_ok (destroyed p o w).
Proof.
  intros Hw [Hnd Hreg]. unfold registry_ok, destroyed. cbn.
  destruct (valid o) eqn:Hv.
  - split; [by apply da_erase_item_NoDup |]. intros x.
    rewrite (da_erase_item_elem _ p x Hnd), Hreg. split.
    + intros [(ox & Hx & Hvx) Hne]. exists ox.
      by rewrite lookup_delete_ne.
    + intros (ox & Hx & Hvx). destruct (decide (p = x)) as [-> | Hne].
      * by rewrite lookup_delete_eq in Hx.
      * rewrite lookup_delete_ne in Hx by done. split; [eauto | congruence].
  - split; [exact Hnd |]. intros x. rewrite Hreg. split.
    + intros (ox & Hx & Hvx). exists ox.
      destruct (decide (p = x)) as [-> | Hne]; [congruence |].
      by rewrite lookup_delete_ne.
    + intros (ox & Hx & Hvx). destruct (decide (p = x)) as [-> | Hne].
      * by rewrite lookup_delete_eq in Hx.
      * rewrite lookup_delete_ne in Hx by done. eauto.
Qed.

Lemma sample_registry_ok (f : Z) : registry_ok (sample_world f).
Proof.
  split; cbn.
  - apply NoDup_singleton.
  - intros p. rewrite list_elem_of_singleton. split.
    + intros ->. eexists. split; [apply lookup_singleton_eq | reflexivity].
    + intros (o & H & _). by apply lookup_singleton_Some in H as [? _].
Qed.

(** X21.  The process-wide list stays in step with the store.  If the
    list names each valid live output once and nothing else, it still does
    after any public call and any packet: destroy takes the output out of
    both, and nothing else touches the list, the life of an output or its
    valid mark. *)
Theorem registry_ok_preserved (e : event) (w w' : world) :
  registry_ok w -> run_event e w = Ok (tt, w') -> registry_ok w'.
Proof.
  intros Hok Hrun. destruct (destroys e) eqn:Hd.
  - destruct e as [[] |]; try discriminate Hd. clear Hd.
    cbn [run_event run_api] in Hrun. unfold void in Hrun.
    rewrite bind_bind in Hrun. destruct output as [p|].
    + destruct (outputs w !! p) as [o|] eqn:Hw.
      * rewrite (st_intro w p o Hw) in Hrun at 1.
        rewrite (bind_ok _ _ _ _ _ (obs_output_destroy_st p o _ w)) in Hrun.
        injection Hrun as <-. by apply (registry_ok_destroyed w p o).
      * unfold obs_output_destroy, get, bind, deref in Hrun. cbn in Hrun.
        by rewrite Hw in Hrun.
    + injection Hrun as <-. exact Hok.
  - destruct Hok as [Hnd Hreg].
    pose proof (event_keeps_registry e Hd w tt w' Hrun) as Hr.
    pose proof (event_keeps_alive e Hd w tt w' Hrun) as Ha.
    cbn beta in Hr, Ha. unfold registry_ok. rewrite Hr.
    split; [exact Hnd |]. intros x. rewrite Hreg. split.
    + intros (o & Hx & Hv). destruct (Ha x (mk_is_Some _ _ Hx)) as [o' Hx'].
      destruct (identity_kept e x w tt w' Hrun o' Hx') as (o0 & Hx0 & Hid).
      exists o'. split; [exact Hx' |].
      unfold same_identity in Hid. assert (o0 = o) as -> by congruence.
      intuition congruence.
    + intros (o' & Hx' & Hv).
      destruct (identity_kept e x w tt w' Hrun o' Hx') as (o0 & Hx0 & Hid).
      exists o0. split; [exact Hx0 |]. unfold same_identity in Hid.
      intuition congruence.
Qed.

Lemma registry_ok_preserved_witness :
  registry_ok (exec (obs_output_destroy (Some 1%positive)) (sample_world 7)).
Proof.
  apply (registry_ok_preserved (ev_api (api_destroy (Some 1%positive)))
           (sample_world 7)).
  - apply sample_registry_ok.
  - vm_compute. reflexivity.
Defined.

(** * Creation *)

(** X22.  [find_output] answers the first registered type with the id,
    and [NULL] exactly when no registered type has it. *)
Theorem find_output_first_match (types : list output_type) (id : string) :
  match find_output types id with
  | Some t =>
      exists before after,
        types = before ++ t :: after /\ type_id t = id /\
        Forall (fun u => type_id u <> id) before
  | None => Forall (fun u => type_id u <> id) types
  end.
Proof.
  induction types as [|u types IH]; cbn [find_output].
  - apply List.Forall_nil.
  - destruct (String.eqb_spec (type_id u) id) as [Heq | Hne].
    + exists [], types. repeat split; [exact Heq | apply List.Forall_nil].
    + destruct (find_output types id) as [t|].
      * destruct IH as (before & after & -> & Ht & Hb).
        exists (u :: before), after. repeat split; [exact Ht |].
        by apply List.Forall_cons.
      * by apply List.Forall_cons.
Qed.

Lemma fresh_address (w : world) : outputs w !! fresh (dom (outputs w)) = None.
Proof. apply not_elem_of_dom, is_fresh. Qed.

Lemma bind_bzalloc {B} (k : pointer -> M B) w :
  bind bzalloc k w =
    k (Some (fresh (dom (outputs w))))
      (st (fresh (dom (outputs w))) zeroed (calls w) w).
Proof. reflexivity. Qed.

Lemma bind_register_st {B} (k : unit -> M B) p o cs w :
  bind (register (Some p)) k (st p o cs w) =
    k tt (st p o cs (with_registry (registry w ++ [p]) w)).
Proof. reflexivity. Qed.

Lemma bind_destroy_st {B} (k : unit -> M B) p o cs w :
  bind (obs_output_destroy (Some p)) k (st p o cs w) =
    k tt {| outputs := delete p (outputs w);
            encoders := encoders w;
            registry := if valid o then da_erase_item (registry w) p
                        else registry w;
            calls := cs ++ destroy_calls o |}.
Proof. unfold bind at 1. by rewrite obs_output_destroy_st. Qed.

Ltac setup :=
  unfold obs_data_newref, mbind, Setup_bind, mret, Setup_ret, lift, note.

Lemma obs_output_create_run env id name s l w :
  obs_output_create env id name s l w =
    match find_output (output_types env) id with
    | None => Ok ((None, l ++ [call_blog id]), w)
    | Some t =>
        let a := fresh (dom (outputs w)) in
        let failed ls o :=
          Ok ((None, l ++ ls), with_calls (calls w ++ destroy_calls o) w) in
        if negb (pthread_mutex_init env) then failed [] zeroed
        else if is_null (signal_handler_create env) then
          failed [call_signal_handler_create] zeroed
        else if is_null (proc_handler_create env) then
          failed [call_signal_handler_create; call_proc_handler_create]
                 (set_signals (signal_handler_create env) zeroed)
        else if is_null (create t s (Some a)) then
          failed (create_calls env t s (Some a))
                 (set_valid false (created env t s a))
        else
          Ok ((Some a, l ++ create_calls env t s (Some a) ++ [call_bstrdup name]),
              {| outputs := <[a := created env t s a]> (outputs w);
                 encoders := encoders w;
                 registry := registry w ++ [a];
                 calls := calls w |})
    end.
Proof.
  unfold obs_output_create.
  destruct (find_output (output_types env) id) as [t|]; [| reflexivity].
  cbv zeta. pose proof (fresh_address w) as Hfresh.
  set (a := fresh (dom (outputs w))) in *.
  setup. rewrite bind_bind, bind_bzalloc. fold a.
  destruct (pthread_mutex_init env); cbn [negb].
  2:{ run. rewrite bind_destroy_st. run. cbn [valid zeroed].
      rewrite (delete_id _ _ Hfresh), app_nil_r. reflexivity. }
  unfold init_output_handlers. setup. run.
  unfold created, create_calls.
  destruct (signal_handler_create env) as [sg|] eqn:Hsg;
    cbn [signals set_signals zeroed is_null].
  2:{ run. rewrite bind_destroy_st. run. cbn [valid zeroed].
      rewrite (delete_id _ _ Hfresh). reflexivity. }
  run. cbn [procs set_procs set_signals zeroed].
  destruct (proc_handler_create env) as [pr|] eqn:Hpr; cbn [is_null].
  2:{ run. rewrite bind_destroy_st. run. cbn [valid zeroed].
      rewrite (delete_id _ _ Hfresh), <- app_assoc. reflexivity. }
  run. cbn [signals].
  destruct (has_defaults t); run;
    cbn [set_info set_settings set_data settings data info signals procs
         video audio video_encoder audio_encoder video_conversion
         video_conversion_set audio_conversion audio_conversion_set
         received_video received_audio first_video_ts video_offset
         audio_offset interleaved_packets active valid set_video set_audio
         set_valid zeroed];
    (destruct (create t s (Some a)) as [d|] eqn:Hd; cbn [is_null]; run;
     [ rewrite bind_register_st; run;
       cbn [set_valid info data settings signals procs video audio
            video_encoder audio_encoder video_conversion
            video_conversion_set audio_conversion audio_conversion_set
            received_video received_audio first_video_ts video_offset
            audio_offset interleaved_packets active valid];
       rewrite <- ?app_assoc; reflexivity
     | rewrite bind_destroy_st; run; cbn [valid];
       rewrite (delete_id _ _ Hfresh), <- ?app_assoc; reflexivity ]).
Qed.

Lemma da_erase_item_last (l : list positive) (p : positive) :
  p ∉ l -> da_erase_item (l ++ [p]) p = l.
Proof.
  induction l as [|x l IH]; intros Hp; cbn [app da_erase_item].
  - by rewrite bool_decide_eq_true_2.
  - apply not_elem_of_cons in Hp as [Hne Hp].
    rewrite bool_decide_eq_false_2 by congruence. by rewrite IH.
Qed.


Lemma registry_ok_created (w : world) (a : positive) (o : obs_output) :
  outputs w !! a = None -> valid o = true -> registry_ok w ->
  registry_ok {| outputs := <[a := o]> (outputs w); encoders := encoders w;
                 registry := registry w ++ [a]; calls := calls w |}.
Proof.
  intros Hfresh Hv [Hnd Hreg]. split; cbn.
  - apply NoDup_app. repeat split.
    + exact Hnd.
    + intros x Hx Hx'. apply list_elem_of_singleton in Hx' as ->.
      apply Hreg in Hx as (o' & Ho & _). congruence.
    + apply NoDup_singleton.
  - intros x. rewrite elem_of_app, list_elem_of_singleton. split.
    + intros [Hx | ->].
      * apply Hreg in Hx as (o' & Ho & Hv'). exists o'.
        rewrite lookup_insert_ne by congruence. done.
      * exists o. by rewrite lookup_insert_eq.
    + intros (o' & Ho & Hv').
      destruct (decide (x = a)) as [-> | Hne]; [by right | left].
      rewrite lookup_insert_ne in Ho by congruence. apply Hreg. eauto.
Qed.

Lemma obs_output_create_inv env id name s l l' w w' p :
  obs_output_create env id name s l w = Ok ((Some p, l'), w') ->
  exists t,
    find_output (output_types env) id = Some t /\
    outputs w !! p = None /\
    signal_handler_create env <> None /\
    proc_handler_create env <> None /\
    create t s (Some p) <> None /\
    l' = l ++ create_calls env t s (Some p) ++ [call_bstrdup name] /\
    w' = {| outputs := <[p := created env t s p]> (outputs w);
            encoders := encoders w;
            registry := registry w ++ [p];
            calls := calls w |}.
Proof.
  rewrite obs_output_create_run.
  destruct (find_output (output_types env) id) as [t|]; [| discriminate].
  cbv zeta. pose proof (fresh_address w) as Hfresh.
  set (a := fresh (dom (outputs w))) in *.
  destruct (pthread_mutex_init env); cbn [negb]; [| discriminate].
  destruct (signal_handler_create env) as [sg|] eqn:Hsg; cbn [is_null];
    [| discriminate].
  destruct (proc_handler_create env) as [pr|] eqn:Hpr; cbn [is_null];
    [| discriminate].
  destruct (create t s (Some a)) as [d|] eqn:Hd; cbn [is_null];
    [| discriminate].
  intros [= <- <- <-]. exists t. rewrite Hd. by repeat split.
Qed.







Lemma obs_output_properties_st p o cs w locale :
  obs_output_properties (Some p) locale (st p o cs w) =
    match properties (info o) with
    | None => Ok (None, st p o cs w)
    | Some hook =>
        Ok (hook locale,
            st p o (cs ++ [call_info_properties locale;
                           call_obs_properties_apply_settings (hook locale)
                             (settings o)]) w)
    end.
Proof.
  unfold obs_output_properties. run.
  destruct (properties (info o)); run; [| reflexivity].
  rewrite <- app_assoc. reflexivity.
Qed.

Lemma with_calls_st p o cs w :
  outputs w !! p = Some o -> with_calls cs w = st p o cs w.
Proof.
  intros H. unfold with_calls, st. by rewrite insert_id.
Qed.



Lemma get_live {A} (w : world) (p : positive) (o : obs_output)
    (f : obs_output -> A) :
  outputs w !! p = Some o -> get (Some p) f w = Ok (f o, w).
Proof. intros H. unfold get, bind, deref. by rewrite H. Qed.


